(** * openapi3/reflect.go: building OpenAPI operations from reflected Go types

    A shallow embedding of [openapi3.Reflector] (file [openapi3/reflect.go]):
    parameter extraction, request body and response building, and the
    component-schema registry, followed by the properties proved about them.

    Go strings are byte strings ([string]); a Go [error] is [option string]
    ([None] is [nil], [Some msg] an error whose [Error()] is [msg]); Go maps
    are finite maps ([gmap], a nil map being the empty map); pointers that
    may be nil are [option]s. Mutation of [r.Spec] and of [*oc.Operation] is
    explicit state passing over the record [State]. *)

From Stdlib Require Import ZArith String Ascii List Bool.
From stdpp Require Import base option list strings gmap pretty.

Local Open Scope string_scope.
Local Open Scope Z_scope.

(** ** Go standard library: strings, strconv, errors *)

Definition error : Type := option string.

(** [errors.New(msg)]. *)
Definition errors_New (msg : string) : error := Some msg.

(** [strings.ToUpper] on one byte; bytes outside [a-z] are kept (the model
    covers ASCII method names). *)
Definition upper_byte (c : ascii) : ascii :=
  let n := N_of_ascii c in
  if ((97 <=? n) && (n <=? 122))%N then ascii_of_N (n - 32)%N else c.

Fixpoint strings_ToUpper (s : string) : string :=
  match s with
  | EmptyString => EmptyString
  | String c r => String (upper_byte c) (strings_ToUpper r)
  end.

(** [strings.Split(s, sep)] for a one-byte separator: never empty. *)
Fixpoint strings_Split (s : string) (sep : ascii) : list string :=
  match s with
  | EmptyString => [EmptyString]
  | String c r =>
      if Ascii.eqb c sep then EmptyString :: strings_Split r sep
      else match strings_Split r sep with
           | [] => [String c EmptyString]
           | h :: t => String c h :: t
           end
  end.

(** [xs[0]] on the result of [strings.Split]. *)
Definition index0 (xs : list string) : string := hd EmptyString xs.

Definition is_letter_or_digit (c : ascii) : bool :=
  let n := N_of_ascii c in
  (((97 <=? n) && (n <=? 122)) || ((65 <=? n) && (n <=? 90))
   || ((48 <=? n) && (n <=? 57)) || (n =? 95))%N.

Fixpoint title_from (prev_sep : bool) (s : string) : string :=
  match s with
  | EmptyString => EmptyString
  | String c r =>
      String (if prev_sep then upper_byte c else c)
             (title_from (negb (is_letter_or_digit c)) r)
  end.

(** [strings.Title]: upper-cases the first letter of every word (ASCII). *)
Definition strings_Title (s : string) : string := title_from true s.

(** [strconv.Itoa]. *)
Definition strconv_Itoa (n : Z) : string := pretty n.

(** The byte 0x22 (a double quote) and the literal [{"type":"object"}]. *)
Definition dquote : string := String (ascii_of_N 34) EmptyString.

Definition bareObjectJSON : string :=
  "{" ++ dquote ++ "type" ++ dquote ++ ":" ++ dquote ++ "object" ++ dquote ++ "}".

(** [s[n:]]. *)
Fixpoint slice_from (n : nat) (s : string) : string :=
  match n, s with
  | O, _ => s
  | S n', String _ r => slice_from n' r
  | S _, EmptyString => EmptyString
  end.

(** [joinErrors] joins non-nil errors. *)
Definition joinErrors (errs : list error) : error :=
  let join :=
    fold_left (fun join err =>
                 match err with
                 | Some msg => join ++ ", " ++ msg
                 | None => join
                 end) errs "" in
  if String.eqb join "" then None else errors_New (slice_from 2 join).


(** ** github.com/swaggest/jsonschema-go: the schema value

    The keywords this file reads or writes; [Definitions] is kept as an
    association list in the order Go ranges over the map. *)
Module jsonschema.

Inductive SimpleType : Set :=
| Array | Boolean | Integer | Null | Number | Object | String.

Definition SimpleType_eqb (a b : SimpleType) : bool :=
  match a, b with
  | Array, Array | Boolean, Boolean | Integer, Integer | Null, Null
  | Number, Number | Object, Object | String, String => true
  | _, _ => false
  end.

Inductive Schema : Type := mkSchema {
  ID : option string;
  Title : option string;
  Description : option string;
  Comment : option string;
  Examples : list string;
  ExtraProperties : list (string * string);
  Ref : option string;
  Type_ : list SimpleType;
  Format : option string;
  Properties : list (string * SchemaOrBool);
  AdditionalProperties : option SchemaOrBool;
  Definitions : list (string * SchemaOrBool)
}
with SchemaOrBool : Type := mkSchemaOrBool {
  TypeObject : option Schema;
  TypeBoolean : option bool
}.

(** [Schema{}]. *)
Definition empty : Schema :=
  mkSchema None None None None [] [] None [] None [] None [].

(** [s.ToSchemaOrBool()]. *)
Definition ToSchemaOrBool (s : Schema) : SchemaOrBool :=
  mkSchemaOrBool (Some s) None.

(** [s.HasType(t)]. *)
Definition HasType (t : SimpleType) (s : Schema) : bool :=
  existsb (SimpleType_eqb t) (Type_ s).

(** [s.AddType(t)]: no-op when the type is already listed. *)
Definition AddType (t : SimpleType) (s : Schema) : Schema :=
  if HasType t s then s
  else mkSchema (ID s) (Title s) (Description s) (Comment s) (Examples s)
                (ExtraProperties s) (Ref s) (Type_ s ++ [t]) (Format s)
                (Properties s) (AdditionalProperties s) (Definitions s).

(** [s.WithFormat(f)]. *)
Definition WithFormat (f : string) (s : Schema) : Schema :=
  mkSchema (ID s) (Title s) (Description s) (Comment s) (Examples s)
           (ExtraProperties s) (Ref s) (Type_ s) (Some f)
           (Properties s) (AdditionalProperties s) (Definitions s).

(** The assignments at the head of [hasJSONBody]:
    [Title], [Description], [Comment], [ExtraProperties], [ID] and
    [Examples] set to nil. *)
Definition stripNonConstraining (s : Schema) : Schema :=
  mkSchema None None None None [] [] (Ref s) (Type_ s) (Format s)
           (Properties s) (AdditionalProperties s) (Definitions s).

End jsonschema.

(** ** The OpenAPI entities populated by the reflector

    Modelled from the spec: the entity declarations of package [openapi3]
    (Operation, Parameter, Schema, Response, MediaType, Spec and their
    [With...]/[...Ens] setters) are not part of [reflect.go]; they are plain
    data structures with the fields [reflect.go] reads and writes, the
    setters assign one field or one map item, and the [...Ens] accessors
    allocate a nil pointer before returning it. *)

(** Modelled from the spec: the location type [ParameterIn] with its four
    constants (query, path, cookie, header). *)
Inductive ParameterIn : Set :=
| ParameterInQuery | ParameterInPath | ParameterInCookie | ParameterInHeader.

(** Modelled from the spec: [string(in)], the location names. *)
Definition ParameterIn_string (i : ParameterIn) : string :=
  match i with
  | ParameterInQuery => "query"
  | ParameterInPath => "path"
  | ParameterInCookie => "cookie"
  | ParameterInHeader => "header"
  end.

(** [a == b] on locations. *)
Definition ParameterIn_eqb (a b : ParameterIn) : bool :=
  match a, b with
  | ParameterInQuery, ParameterInQuery | ParameterInPath, ParameterInPath
  | ParameterInCookie, ParameterInCookie
  | ParameterInHeader, ParameterInHeader => true
  | _, _ => false
  end.

(** Modelled from the spec: the style constants of package [openapi3]. *)
Definition QueryParameterStyleForm : string := "form".
Definition QueryParameterStyleSpaceDelimited : string := "spaceDelimited".
Definition QueryParameterStylePipeDelimited : string := "pipeDelimited".
Definition QueryParameterStyleDeepObject : string := "deepObject".

(** Modelled from the spec: the entity [Schema] of package [openapi3], with the
    fields the reflector reads or writes. *)
Inductive Schema : Type := mkOASchema {
  Schema_Type : option string;
  Schema_Format : option string;
  Schema_Description : option string;
  Schema_Nullable : option bool;
  Schema_Deprecated : option bool;
  Schema_Properties : list (string * SchemaOrRef)
}
with SchemaOrRef : Type := mkSchemaOrRef {
  SchemaOrRef_Schema : option Schema;
  SchemaOrRef_SchemaReference : option string
}.

(** Modelled from the spec: [Schema{}]. *)
Definition Schema_empty : Schema := mkOASchema None None None None None [].

(** Modelled from the spec: the entity [MediaType] of package [openapi3], with the
    fields the reflector reads or writes. *)
Record MediaType : Type := mkMediaType {
  MediaType_Schema : option SchemaOrRef;
  MediaType_Example : option string
}.

(** Modelled from the spec: the entity [Parameter] of package [openapi3]
    (the name is a reserved word here), with the fields the reflector reads
    or writes. *)
Record ParameterObject : Type := mkParameter {
  Parameter_Name : string;
  Parameter_In : ParameterIn;
  Parameter_Description : option string;
  Parameter_Required : option bool;
  Parameter_Deprecated : option bool;
  Parameter_Style : option string;
  Parameter_Explode : option bool;
  Parameter_Schema : option SchemaOrRef;
  Parameter_Content : gmap string MediaType;
  Parameter_Example : option string
}.

(** Modelled from the spec: the entity [ParameterOrRef] of package [openapi3], with the
    fields the reflector reads or writes. *)
Record ParameterOrRef : Type := mkParameterOrRef {
  ParameterOrRef_ParameterReference : option string;
  ParameterOrRef_Parameter : option ParameterObject
}.

(** Modelled from the spec: the entity [Header] of package [openapi3], with the
    fields the reflector reads or writes. *)
Record Header : Type := mkHeader {
  Header_Description : option string;
  Header_Required : option bool;
  Header_Deprecated : option bool;
  Header_Schema : option SchemaOrRef;
  Header_Content : gmap string MediaType;
  Header_Example : option string
}.

(** Modelled from the spec: the entity [HeaderOrRef] of package [openapi3], with the
    fields the reflector reads or writes. *)
Record HeaderOrRef : Type := mkHeaderOrRef {
  HeaderOrRef_HeaderReference : option string;
  HeaderOrRef_Header : option Header
}.

(** Modelled from the spec: the entity [Response] of package [openapi3], with the
    fields the reflector reads or writes. *)
Record Response : Type := mkResponse {
  Response_Description : string;
  Response_Headers : gmap string HeaderOrRef;
  Response_Content : gmap string MediaType
}.

(** Modelled from the spec: [Response{}]. *)
Definition Response_empty : Response := mkResponse "" ∅ ∅.

(** Modelled from the spec: the entity [ResponseOrRef] of package [openapi3], with the
    fields the reflector reads or writes. *)
Record ResponseOrRef : Type := mkResponseOrRef {
  ResponseOrRef_ResponseReference : option string;
  ResponseOrRef_Response : option Response
}.

(** Modelled from the spec: the entity [Responses] of package [openapi3], with the
    fields the reflector reads or writes. *)
Record Responses : Type := mkResponses {
  Responses_Default : option ResponseOrRef;
  Responses_MapOfResponseOrRefValues : gmap string ResponseOrRef
}.

(** Modelled from the spec: the entity [RequestBody] of package [openapi3], with the
    fields the reflector reads or writes. *)
Record RequestBody : Type := mkRequestBody {
  RequestBody_Description : option string;
  RequestBody_Content : gmap string MediaType;
  RequestBody_Required : option bool
}.

(** Modelled from the spec: the entity [RequestBodyOrRef] of package [openapi3], with the
    fields the reflector reads or writes. *)
Record RequestBodyOrRef : Type := mkRequestBodyOrRef {
  RequestBodyOrRef_RequestBodyReference : option string;
  RequestBodyOrRef_RequestBody : option RequestBody
}.

(** A value stored under a vendor-extension key ([interface{}]). *)
Inductive Any : Set :=
| AnyBool (b : bool)
| AnyString (s : string).

(** Modelled from the spec: the entity [Operation] of package [openapi3], with the
    fields the reflector reads or writes. *)
Record Operation : Type := mkOperation {
  Operation_Parameters : list ParameterOrRef;
  Operation_RequestBody : option RequestBodyOrRef;
  Operation_Responses : Responses;
  Operation_MapOfAnything : gmap string Any
}.

(** Modelled from the spec: the entity [ComponentsSchemas] of package [openapi3], with the
    fields the reflector reads or writes. *)
Record ComponentsSchemas : Type := mkComponentsSchemas {
  MapOfSchemaOrRefValues : gmap string SchemaOrRef
}.

(** Modelled from the spec: the entity [Components] of package [openapi3], with the
    fields the reflector reads or writes. *)
Record Components : Type := mkComponents {
  Components_Schemas : option ComponentsSchemas
}.

(** Modelled from the spec: the entity [Spec] of package [openapi3], with the
    fields the reflector reads or writes. *)
Record Spec : Type := mkSpec {
  Spec_Openapi : string;
  Spec_Components : option Components
}.

(** Modelled from the spec: the setter [p.WithStyle(s)]. *)
Definition Parameter_WithStyle (s : string) (p : ParameterObject) : ParameterObject :=
  mkParameter (Parameter_Name p) (Parameter_In p) (Parameter_Description p)
    (Parameter_Required p) (Parameter_Deprecated p) (Some s)
    (Parameter_Explode p) (Parameter_Schema p) (Parameter_Content p)
    (Parameter_Example p).

(** Modelled from the spec: the setter [p.WithExplode(b)]. *)
Definition Parameter_WithExplode (b : bool) (p : ParameterObject) : ParameterObject :=
  mkParameter (Parameter_Name p) (Parameter_In p) (Parameter_Description p)
    (Parameter_Required p) (Parameter_Deprecated p) (Parameter_Style p)
    (Some b) (Parameter_Schema p) (Parameter_Content p) (Parameter_Example p).

(** Modelled from the spec: the setter [p.WithRequired(b)]. *)
Definition Parameter_WithRequired (b : bool) (p : ParameterObject) : ParameterObject :=
  mkParameter (Parameter_Name p) (Parameter_In p) (Parameter_Description p)
    (Some b) (Parameter_Deprecated p) (Parameter_Style p)
    (Parameter_Explode p) (Parameter_Schema p) (Parameter_Content p)
    (Parameter_Example p).

(** Modelled from the spec: the setter [p.WithContentItem(k, v)]. *)
Definition Parameter_WithContentItem (k : string) (v : MediaType)
    (p : ParameterObject) : ParameterObject :=
  mkParameter (Parameter_Name p) (Parameter_In p) (Parameter_Description p)
    (Parameter_Required p) (Parameter_Deprecated p) (Parameter_Style p)
    (Parameter_Explode p) (Parameter_Schema p)
    (<[k:=v]> (Parameter_Content p)) (Parameter_Example p).

(** The assignment [p.Schema = nil]. *)
Definition Parameter_clearSchema (p : ParameterObject) : ParameterObject :=
  mkParameter (Parameter_Name p) (Parameter_In p) (Parameter_Description p)
    (Parameter_Required p) (Parameter_Deprecated p) (Parameter_Style p)
    (Parameter_Explode p) None (Parameter_Content p) (Parameter_Example p).

(** The assignment [s.Schema.Nullable = nil]. *)
Definition Schema_clearNullable (s : Schema) : Schema :=
  mkOASchema (Schema_Type s) (Schema_Format s) (Schema_Description s) None
             (Schema_Deprecated s) (Schema_Properties s).

(** [o.Parameters = append(o.Parameters, p)]. *)
Definition Operation_appendParameter (p : ParameterOrRef) (o : Operation) : Operation :=
  mkOperation (Operation_Parameters o ++ [p]) (Operation_RequestBody o)
              (Operation_Responses o) (Operation_MapOfAnything o).

(** Modelled from the spec: the setter [o.WithMapOfAnythingItem(k, v)]. *)
Definition Operation_WithMapOfAnythingItem (k : string) (v : Any) (o : Operation) : Operation :=
  mkOperation (Operation_Parameters o) (Operation_RequestBody o)
              (Operation_Responses o) (<[k:=v]> (Operation_MapOfAnything o)).

(** Modelled from the spec: [o.RequestBodyEns()], the pointer, allocated
    when nil. *)
Definition Operation_RequestBodyEns (o : Operation) : RequestBodyOrRef :=
  match Operation_RequestBody o with
  | Some rb => rb
  | None => mkRequestBodyOrRef None None
  end.

(** Modelled from the spec: [rb.RequestBodyEns()], the pointer, allocated
    when nil. *)
Definition RequestBodyOrRef_RequestBodyEns (rb : RequestBodyOrRef) : RequestBody :=
  match RequestBodyOrRef_RequestBody rb with
  | Some b => b
  | None => mkRequestBody None ∅ None
  end.

(** Modelled from the spec: the setter [WithContentItem] of a request
    body, as [o.RequestBodyEns().RequestBodyEns().WithContentItem(mime, mt)]
    written back through both pointers. *)
Definition Operation_WithRequestBodyContentItem (mime : string) (mt : MediaType)
    (o : Operation) : Operation :=
  let rbo := Operation_RequestBodyEns o in
  let rb := RequestBodyOrRef_RequestBodyEns rbo in
  let rb' := mkRequestBody (RequestBody_Description rb)
                           (<[mime:=mt]> (RequestBody_Content rb))
                           (RequestBody_Required rb) in
  mkOperation (Operation_Parameters o)
    (Some (mkRequestBodyOrRef (RequestBodyOrRef_RequestBodyReference rbo) (Some rb')))
    (Operation_Responses o) (Operation_MapOfAnything o).

(** The content map of the operation's request body (empty when unset). *)
Definition Operation_requestContent (o : Operation) : gmap string MediaType :=
  match Operation_RequestBody o with
  | Some rbo => match RequestBodyOrRef_RequestBody rbo with
                | Some rb => RequestBody_Content rb
                | None => ∅
                end
  | None => ∅
  end.

(** Modelled from the spec: the setter
    [o.Responses.WithMapOfResponseOrRefValuesItem(k, v)]. *)
Definition Operation_WithResponseItem (k : string) (v : ResponseOrRef) (o : Operation) : Operation :=
  mkOperation (Operation_Parameters o) (Operation_RequestBody o)
    (mkResponses (Responses_Default (Operation_Responses o))
       (<[k:=v]> (Responses_MapOfResponseOrRefValues (Operation_Responses o))))
    (Operation_MapOfAnything o).

(** [SpecEns] ensures returned Spec is not nil. *)
Definition SpecEns (spec : option Spec) : Spec :=
  match spec with
  | Some s => s
  | None => mkSpec "3.0.3" None
  end.

(** Modelled from the spec: [s.ComponentsEns()], the pointer, allocated when nil. *)
Definition ComponentsEns (s : Spec) : Components :=
  match Spec_Components s with
  | Some c => c
  | None => mkComponents None
  end.

(** Modelled from the spec: [c.SchemasEns()], the pointer, allocated when nil. *)
Definition SchemasEns (c : Components) : ComponentsSchemas :=
  match Components_Schemas c with
  | Some cs => cs
  | None => mkComponentsSchemas ∅
  end.

(** [r.SpecEns().ComponentsEns().SchemasEns().MapOfSchemaOrRefValues]: the
    registry of named schemas of the document. *)
Definition registry (spec : option Spec) : gmap string SchemaOrRef :=
  MapOfSchemaOrRefValues (SchemasEns (ComponentsEns (SpecEns spec))).

(** [r.Spec] after [r.SpecEns().ComponentsEns().SchemasEns()]: every
    pointer on the way is allocated. *)
Definition ensured (spec : option Spec) : option Spec :=
  let s := SpecEns spec in
  Some (mkSpec (Spec_Openapi s)
          (Some (mkComponents (Some (SchemasEns (ComponentsEns s)))))).

(** Modelled from the spec: the setter [WithMapOfSchemaOrRefValuesItem] of the
    component schemas is not part of [reflect.go]; it is the plain map
    assignment [m[name] = s] (the map allocated when nil), here as
    [r.SpecEns().ComponentsEns().SchemasEns().WithMapOfSchemaOrRefValuesItem(name, s)]
    written back through the three pointers. [collectDefinition] guards its
    call of the setter with its own test, the request body loop does not. *)
Definition WithMapOfSchemaOrRefValuesItem (name : string) (s : SchemaOrRef)
    (spec : option Spec) : option Spec :=
  let sp := SpecEns spec in
  let cs := SchemasEns (ComponentsEns sp) in
  Some (mkSpec (Spec_Openapi sp)
          (Some (mkComponents
                   (Some (mkComponentsSchemas
                            (<[name:=s]> (MapOfSchemaOrRefValues cs))))))).

(** The mutable objects the reflector works on: [r.Spec] and the operation
    behind [oc.Operation]. *)
Record State : Type := mkState {
  Reflector_Spec : option Spec;
  oc_Operation : Operation
}.

Definition State_withSpec (f : option Spec -> option Spec) (st : State) : State :=
  mkState (f (Reflector_Spec st)) (oc_Operation st).

Definition State_withOperation (f : Operation -> Operation) (st : State) : State :=
  mkState (Reflector_Spec st) (f (oc_Operation st)).

(** [Operation{}] and a reflector whose [Spec] is still nil. *)
Definition Operation_empty : Operation :=
  mkOperation [] None (mkResponses None ∅) ∅.

Definition State_initial : State := mkState None Operation_empty.

(** The registry of named schemas reached from a state. *)
Definition State_registry (st : State) : gmap string SchemaOrRef :=
  registry (Reflector_Spec st).

Definition tagJSON : string := "json".
Definition tagFormData : string := "formData".
Definition mimeJSON : string := "application/json".
Definition mimeFormUrlencoded : string := "application/x-www-form-urlencoded".
Definition mimeMultipart : string := "multipart/form-data".
Definition xForbidUnknown : string := "x-forbid-unknown-".
Definition http_MethodGet : string := "GET".
Definition http_MethodHead : string := "HEAD".
Definition http_MethodDelete : string := "DELETE".
Definition http_MethodTrace : string := "TRACE".

(** A struct tag as its key/value pairs; [tag.Lookup] finds the first. *)
Definition StructTag : Type := list (string * string).

Fixpoint StructTag_Lookup (tag : StructTag) (key : string) : option string :=
  match tag with
  | [] => None
  | (k, v) :: rest => if String.eqb k key then Some v else StructTag_Lookup rest key
  end.

(** [refl.ReadStringTag(tag, name, &holder)]: the holder keeps its value
    when the tag has no such key; a value [-] resets a non-empty holder. *)
Definition refl_ReadStringTag (tag : StructTag) (name : string) (holder : string) : string :=
  match StructTag_Lookup tag name with
  | Some value =>
      if negb (String.eqb holder "") && String.eqb value "-" then "" else value
  | None => holder
  end.

(** ** Values seen through [reflect], and the options of one reflection *)
Section GoRuntime.
Variables GoValue GoType : Type.

(** [reflect.StructField]. *)
Record StructField : Type := mkStructField {
  StructField_Name : string;
  StructField_Type : GoType;
  StructField_Tag : StructTag
}.

(** [OperationContext] describes operation. The [Operation] pointer lives
    in [State]; [Input] and [Output] are [interface{}] values, [None]
    being nil. *)
Record OperationContext : Type := mkOperationContext {
  Input : option GoValue;
  HTTPMethod : string;
  ReqQueryMapping : gmap string string;
  ReqPathMapping : gmap string string;
  ReqCookieMapping : gmap string string;
  ReqHeaderMapping : gmap string string;
  ReqFormDataMapping : gmap string string;
  Output : option GoValue;
  HTTPStatus : Z;
  RespContentType : string;
  RespHeaderMapping : gmap string string;
  ProcessingResponse : bool;
  ProcessingIn : string
}.

(** The [jsonschema.ReflectContext] settings made by the options passed
    to [r.Reflect]. The two stateful callbacks are recorded by their
    presence; they are run by [Reflector_Reflect] below. *)
Record ReflectOptions : Type := mkReflectOptions {
  Options_Operation : option OperationContext;
  Options_DefinitionsPrefix : option string;
  Options_RootRef : bool;
  Options_InlineRefs : bool;
  Options_PropertyNameMapping : option (gmap string string);
  Options_PropertyNameTag : option string;
  Options_UnnamedFieldWithTag : bool;
  Options_SkipEmbeddedMapsSlices : bool;
  Options_InterceptType :
    option (GoValue -> jsonschema.Schema -> bool * jsonschema.Schema);
  Options_CollectDefinitions : bool;
  Options_InterceptProperty : bool
}.

(** What one run of the Type Inspector does, as seen by its caller: the
    values it offers to [InterceptType] and the properties it offers to
    [InterceptProperty], in order; the named definitions it hands to
    [CollectDefinitions] when it finishes; its own failure, if any, after
    the listed properties; and the root schema it returns. *)
Record Walk : Type := mkWalk {
  Walk_Types : list GoValue;
  Walk_Properties : list (string * StructField * jsonschema.Schema);
  Walk_Definitions : list (string * jsonschema.Schema);
  Walk_Err : error;
  Walk_Schema : jsonschema.Schema
}.
End GoRuntime.

Arguments mkStructField {GoType}.
Arguments StructField_Name {GoType}.
Arguments StructField_Type {GoType}.
Arguments StructField_Tag {GoType}.
Arguments mkOperationContext {GoValue}.
Arguments Input {GoValue}.
Arguments HTTPMethod {GoValue}.
Arguments ReqQueryMapping {GoValue}.
Arguments ReqPathMapping {GoValue}.
Arguments ReqCookieMapping {GoValue}.
Arguments ReqHeaderMapping {GoValue}.
Arguments ReqFormDataMapping {GoValue}.
Arguments Output {GoValue}.
Arguments HTTPStatus {GoValue}.
Arguments RespContentType {GoValue}.
Arguments RespHeaderMapping {GoValue}.
Arguments ProcessingResponse {GoValue}.
Arguments ProcessingIn {GoValue}.
Arguments mkReflectOptions {GoValue}.
Arguments Options_Operation {GoValue}.
Arguments Options_DefinitionsPrefix {GoValue}.
Arguments Options_RootRef {GoValue}.
Arguments Options_InlineRefs {GoValue}.
Arguments Options_PropertyNameMapping {GoValue}.
Arguments Options_PropertyNameTag {GoValue}.
Arguments Options_UnnamedFieldWithTag {GoValue}.
Arguments Options_SkipEmbeddedMapsSlices {GoValue}.
Arguments Options_InterceptType {GoValue}.
Arguments Options_CollectDefinitions {GoValue}.
Arguments Options_InterceptProperty {GoValue}.
Arguments mkWalk {GoValue GoType}.
Arguments Walk_Types {GoValue GoType}.
Arguments Walk_Properties {GoValue GoType}.
Arguments Walk_Definitions {GoValue GoType}.
Arguments Walk_Err {GoValue GoType}.
Arguments Walk_Schema {GoValue GoType}.

(** ** The external collaborators

    Everything [reflect.go] calls outside its own package and the Go
    standard string functions above: run-time type tests, package [refl],
    the embedded [jsonschema.Reflector] (the Type Inspector), the schema
    conversion, [json.Marshal] and [http.StatusText]. The development is
    parametric in them. *)
Class TypeInspector (GoValue GoType : Type) : Type := {
  (** [reflect.New(t).Interface()] *)
  reflect_New : GoType -> GoValue;
  (** [_, ok := input.(RequestBodyEnforcer)] *)
  implementsRequestBodyEnforcer : option GoValue -> bool;
  (** [_, ok := vv.( *multipart.File)] *)
  isMultipartFile : GoValue -> bool;
  (** [_, ok := vv.( *multipart.FileHeader)] *)
  isMultipartFileHeader : GoValue -> bool;
  refl_IsSliceOrMap : option GoValue -> bool;
  refl_HasTaggedFields : option GoValue -> string -> bool;
  (** [refl.FindEmbeddedSliceOrMap(input) != nil] *)
  refl_FindEmbeddedSliceOrMap : option GoValue -> bool;
  (** [refl.PopulateFieldsFromTags(&p, tag)] on a parameter and a header *)
  refl_PopulateFieldsFromTags_Parameter :
    ParameterObject -> StructTag -> string + ParameterObject;
  refl_PopulateFieldsFromTags_Header :
    Header -> StructTag -> string + Header;
  (** the walk of [jsonschema.Reflector.Reflect] *)
  jsonschema_Reflect : option GoValue -> ReflectOptions GoValue -> Walk GoValue GoType;
  (** [s.FromJSONSchema(schemaOrBool)] *)
  FromJSONSchema : jsonschema.SchemaOrBool -> SchemaOrRef;
  json_Marshal : jsonschema.Schema -> string + string;
  http_StatusText : Z -> string
}.

(** ** The reflector *)
Section Reflector.
Context {GoValue GoType : Type} {TI : TypeInspector GoValue GoType}.

Abbreviation OC := (OperationContext GoValue).
Abbreviation Property := (string * StructField GoType * jsonschema.Schema)%type.

(** ReflectContext defaults, before any option is applied. *)
Definition defaultOptions : ReflectOptions GoValue :=
  mkReflectOptions None None false false None None false false None false false.

(** *** The callback protocol of [jsonschema.Reflector.Reflect]

    [InterceptProperty] is called once per offered property, in order; its
    first error stops the walk and is returned. When the walk succeeds,
    [CollectDefinitions] receives every named definition. The callbacks
    act on a state [S] of the caller. *)
Section Protocol.
Context {S : Type}.

Fixpoint interceptProperties
    (cb : string -> StructField GoType -> jsonschema.Schema -> S -> S * error)
    (props : list Property) (st : S) : S * error :=
  match props with
  | [] => (st, None)
  | (name, field, propertySchema) :: rest =>
      match cb name field propertySchema st with
      | (st', Some err) => (st', Some err)
      | (st', None) => interceptProperties cb rest st'
      end
  end.

Definition collectDefinitions
    (collect : string -> jsonschema.Schema -> S -> S)
    (defs : list (string * jsonschema.Schema)) (st : S) : S :=
  fold_left (fun st nd => collect (fst nd) (snd nd) st) defs st.

(** [r.Reflect(i, options...)] with the two stateful callbacks. *)
Definition Reflector_Reflect (i : option GoValue) (opts : ReflectOptions GoValue)
    (onProperty :
       option (string -> StructField GoType -> jsonschema.Schema -> S -> S * error))
    (onDefinition : option (string -> jsonschema.Schema -> S -> S))
    (st : S) : S * (string + jsonschema.Schema) :=
  let w := jsonschema_Reflect i opts in
  let '(st1, err) :=
    match onProperty with
    | Some cb => interceptProperties cb (Walk_Properties w) st
    | None => (st, None)
    end in
  match err with
  | Some e => (st1, inl e)
  | None =>
      match Walk_Err w with
      | Some e => (st1, inl e)
      | None =>
          (match onDefinition with
           | Some collect => collectDefinitions collect (Walk_Definitions w) st1
           | None => st1
           end, inr (Walk_Schema w))
      end
  end.
End Protocol.

(** [r.withOperation(oc, processingResponse, in)]. *)
Definition withOperation (oc : OC) (processingResponse : bool) (in_ : string)
    (opts : ReflectOptions GoValue) : ReflectOptions GoValue :=
  let oc' :=
    mkOperationContext (Input oc) (HTTPMethod oc) (ReqQueryMapping oc)
      (ReqPathMapping oc) (ReqCookieMapping oc) (ReqHeaderMapping oc)
      (ReqFormDataMapping oc) (Output oc) (HTTPStatus oc) (RespContentType oc)
      (RespHeaderMapping oc) processingResponse in_ in
  mkReflectOptions (Some oc') (Options_DefinitionsPrefix opts)
    (Options_RootRef opts) (Options_InlineRefs opts)
    (Options_PropertyNameMapping opts) (Options_PropertyNameTag opts)
    (Options_UnnamedFieldWithTag opts) (Options_SkipEmbeddedMapsSlices opts)
    (Options_InterceptType opts) (Options_CollectDefinitions opts)
    (Options_InterceptProperty opts).

(** [collectDefinition]: a name already in the component schemas is left
    as it is. *)
Definition collectDefinition (name : string) (schema : jsonschema.Schema)
    (st : State) : State :=
  match registry (Reflector_Spec st) !! name with
  | Some _ => State_withSpec ensured st
  | None =>
      let s := FromJSONSchema (jsonschema.ToSchemaOrBool schema) in
      State_withSpec (WithMapOfSchemaOrRefValuesItem name s) st
  end.

(** The [found] flag of the [InterceptType] callback of
    [parseRequestBody]. *)
Definition isFileUpload (vv : GoValue) : bool :=
  let found := false in
  let found := if isMultipartFile vv then true else found in
  let found := if isMultipartFileHeader vv then true else found in
  found.

(** The [InterceptType] callback of [parseRequestBody]; it also sets
    [hasFileUpload] when it answers [true]. *)
Definition interceptFileUpload (v : GoValue) (s : jsonschema.Schema)
    : bool * jsonschema.Schema :=
  if isFileUpload v
  then (true, jsonschema.WithFormat "binary" (jsonschema.AddType jsonschema.String s))
  else (false, s).

(** The loop [for name, def := range schema.Definitions] of
    [parseRequestBody]: each definition is assigned under the prefixed
    name. *)
Definition publishDefinitions (definitionPrefix : string)
    (defs : list (string * jsonschema.SchemaOrBool)) (st : State) : State :=
  fold_left
    (fun st nd =>
       let s := FromJSONSchema (snd nd) in
       State_withSpec
         (WithMapOfSchemaOrRefValuesItem (definitionPrefix ++ fst nd) s) st)
    defs st.

Definition isBodilessMethod (httpMethod : string) : bool :=
  String.eqb httpMethod http_MethodGet || String.eqb httpMethod http_MethodHead
  || String.eqb httpMethod http_MethodDelete || String.eqb httpMethod http_MethodTrace.

(** The options [parseRequestBody] passes to [r.Reflect]. *)
Definition requestBodyOptions (oc : OC) (tag definitionPrefix : string)
    (mapping : gmap string string) : ReflectOptions GoValue :=
  withOperation oc false "body"
    (mkReflectOptions None (Some ("#/components/schemas/" ++ definitionPrefix))
       true false (Some mapping) (Some tag) false false
       (Some interceptFileUpload) false false).

Definition parseRequestBody (oc : OC) (tag mime httpMethod : string)
    (mapping : gmap string string) (st : State) : State * error :=
  let input := Input oc in
  let httpMethod := strings_ToUpper httpMethod in
  let forceRequestBody := implementsRequestBodyEnforcer input in
  (* GET, HEAD, DELETE and TRACE requests should not have body. *)
  if isBodilessMethod httpMethod && negb forceRequestBody then (st, None) else
  let hasTaggedFields := refl_HasTaggedFields input tag in
  (* Form data can not have map or array as body. *)
  if negb hasTaggedFields && (size mapping =? 0)%nat && negb (String.eqb tag tagJSON)
  then (st, None) else
  (* JSON can be a map or array without field tags. *)
  if negb hasTaggedFields && (size mapping =? 0)%nat
     && negb (refl_IsSliceOrMap input) && negb (refl_FindEmbeddedSliceOrMap input)
  then (st, None) else
  let definitionPrefix :=
    if negb (String.eqb tag tagJSON) then "" ++ strings_Title tag else "" in
  let opts := requestBodyOptions oc tag definitionPrefix mapping in
  let hasFileUpload := existsb isFileUpload (Walk_Types (jsonschema_Reflect input opts)) in
  match Reflector_Reflect input opts None None st with
  | (st1, inl err) => (st1, Some err)
  | (st1, inr schema) =>
      let schemaOrRef := FromJSONSchema (jsonschema.ToSchemaOrBool schema) in
      let mt := mkMediaType (Some schemaOrRef) None in
      let st2 :=
        publishDefinitions definitionPrefix (jsonschema.Definitions schema) st1 in
      let mime :=
        if String.eqb mime mimeFormUrlencoded && hasFileUpload
        then mimeMultipart else mime in
      (State_withOperation (Operation_WithRequestBodyContentItem mime mt) st2, None)
  end.

(** The [switch swg2CollectionFormat] of [parseParametersIn]. *)
Definition applyCollectionFormat (swg2CollectionFormat : string)
    (p : ParameterObject) : ParameterObject :=
  if String.eqb swg2CollectionFormat "csv" then
    Parameter_WithExplode false (Parameter_WithStyle QueryParameterStyleForm p)
  else if String.eqb swg2CollectionFormat "ssv" then
    Parameter_WithExplode false (Parameter_WithStyle QueryParameterStyleSpaceDelimited p)
  else if String.eqb swg2CollectionFormat "pipes" then
    Parameter_WithExplode false (Parameter_WithStyle QueryParameterStylePipeDelimited p)
  else if String.eqb swg2CollectionFormat "multi" then
    Parameter_WithExplode true (Parameter_WithStyle QueryParameterStyleForm p)
  else p.

(** The loop over [o.Parameters] that sets [alreadyExists]. *)
Definition alreadyExists (p : ParameterObject) (params : list ParameterOrRef) : bool :=
  existsb
    (fun ep =>
       match ParameterOrRef_Parameter ep with
       | Some q =>
           ParameterIn_eqb (Parameter_In q) (Parameter_In p)
           && String.eqb (Parameter_Name q) (Parameter_Name p)
       | None => false
       end) params.

(** [fmt.Errorf("parameter %s in %s is already defined", p.Name, p.In)]. *)
Definition errAlreadyDefined (p : ParameterObject) : string :=
  "parameter " ++ Parameter_Name p ++ " in " ++ ParameterIn_string (Parameter_In p)
  ++ " is already defined".

(** The options of the reflection of a JSON encoded parameter object. *)
Definition encodedParameterOptions (oc : OC) (in_ : ParameterIn)
    : ReflectOptions GoValue :=
  withOperation oc false (ParameterIn_string in_)
    (mkReflectOptions None (Some "#/components/schemas/") true false
       None None false false None true false).

(** The descriptor [p] as it stands before [refl.PopulateFieldsFromTags]:
    the body of the [InterceptProperty] callback of [parseParametersIn] up
    to and including the JSON-object check. *)
Definition draftParameter (oc : OC) (in_ : ParameterIn) (name : string)
    (field : StructField GoType) (propertySchema : jsonschema.Schema)
    (st : State) : State * (string + ParameterObject) :=
  let s := FromJSONSchema (jsonschema.ToSchemaOrBool propertySchema) in
  let s :=
    match SchemaOrRef_Schema s with
    | Some sc =>
        match Schema_Nullable sc with
        | Some _ => mkSchemaOrRef (Some (Schema_clearNullable sc))
                                  (SchemaOrRef_SchemaReference s)
        | None => s
        end
    | None => s
    end in
  let p := mkParameter name in_ (jsonschema.Description propertySchema)
                       None None None None (Some s) ∅ None in
  let swg2CollectionFormat :=
    refl_ReadStringTag (StructField_Tag field) "collectionFormat" "" in
  let p := applyCollectionFormat swg2CollectionFormat p in
  (* Check if parameter is an JSON encoded object. *)
  let property := reflect_New (StructField_Type field) in
  if refl_HasTaggedFields (Some property) tagJSON then
    match
      Reflector_Reflect (Some property) (encodedParameterOptions oc in_)
        None (Some collectDefinition) st
    with
    | (st1, inl err) => (st1, inl err)
    | (st1, inr propertySchema') =>
        let openapiSchema :=
          FromJSONSchema (jsonschema.ToSchemaOrBool propertySchema') in
        (st1, inr (Parameter_WithContentItem "application/json"
                     (mkMediaType (Some openapiSchema) None)
                     (Parameter_clearSchema p)))
    end
  else
    match
      Reflector_Reflect (Some (reflect_New (StructField_Type field)))
        (withOperation oc false (ParameterIn_string in_)
           (mkReflectOptions None None false true None None false false None
              false false))
        None None st
    with
    | (st1, inl err) => (st1, inl err)
    | (st1, inr ps) =>
        (st1, inr (if jsonschema.HasType jsonschema.Object ps
                   then Parameter_WithExplode true
                          (Parameter_WithStyle QueryParameterStyleDeepObject p)
                   else p))
    end.

(** The [InterceptProperty] callback of [parseParametersIn]. *)
Definition interceptParameter (oc : OC) (in_ : ParameterIn) (name : string)
    (field : StructField GoType) (propertySchema : jsonschema.Schema)
    (st : State) : State * error :=
  match draftParameter oc in_ name field propertySchema st with
  | (st1, inl err) => (st1, Some err)
  | (st1, inr p) =>
      match refl_PopulateFieldsFromTags_Parameter p (StructField_Tag field) with
      | inl err => (st1, Some err)
      | inr p =>
          let p := match in_ with
                   | ParameterInPath => Parameter_WithRequired true p
                   | _ => p
                   end in
          if alreadyExists p (Operation_Parameters (oc_Operation st1)) then
            (st1, Some (errAlreadyDefined p))
          else
            (State_withOperation
               (Operation_appendParameter (mkParameterOrRef None (Some p))) st1,
             None)
      end
  end.

(** The options [parseParametersIn] passes to [r.Reflect]. *)
Definition parametersOptions (oc : OC) (in_ : ParameterIn)
    (propertyMapping : gmap string string) : ReflectOptions GoValue :=
  withOperation oc false (ParameterIn_string in_)
    (mkReflectOptions None (Some "#/components/schemas/") false false
       (Some propertyMapping) (Some (ParameterIn_string in_)) true true None
       true true).

Definition parseParametersIn (oc : OC) (in_ : ParameterIn)
    (propertyMapping : gmap string string) (st : State) : State * error :=
  let input := Input oc in
  if refl_IsSliceOrMap input then (st, None) else
  match
    Reflector_Reflect input (parametersOptions oc in_ propertyMapping)
      (Some (interceptParameter oc in_)) (Some collectDefinition) st
  with
  | (st1, inl err) => (st1, Some err)
  | (st1, inr s) =>
      match jsonschema.AdditionalProperties s with
      | Some ap =>
          match jsonschema.TypeBoolean ap with
          | Some false =>
              (State_withOperation
                 (Operation_WithMapOfAnythingItem
                    (xForbidUnknown ++ ParameterIn_string in_) (AnyBool true)) st1,
               None)
          | _ => (st1, None)
          end
      | None => (st1, None)
      end
  end.

(** [SetupRequest] sets up operation parameters. Go evaluates the six
    arguments of [joinErrors] from left to right, each on the state left by
    the one before. *)
Definition SetupRequest (oc : OC) (st : State) : State * error :=
  let '(st1, e1) := parseParametersIn oc ParameterInQuery (ReqQueryMapping oc) st in
  let '(st2, e2) := parseParametersIn oc ParameterInPath (ReqPathMapping oc) st1 in
  let '(st3, e3) := parseParametersIn oc ParameterInCookie (ReqCookieMapping oc) st2 in
  let '(st4, e4) := parseParametersIn oc ParameterInHeader (ReqHeaderMapping oc) st3 in
  let '(st5, e5) := parseRequestBody oc tagJSON mimeJSON (HTTPMethod oc) ∅ st4 in
  let '(st6, e6) :=
    parseRequestBody oc tagFormData mimeFormUrlencoded (HTTPMethod oc)
      (ReqFormDataMapping oc) st5 in
  (st6, joinErrors [e1; e2; e3; e4; e5; e6]).

(** [SetRequest] sets up operation parameters. *)
Definition SetRequest (input : option GoValue) (httpMethod : string)
    (st : State) : State * error :=
  SetupRequest
    (mkOperationContext input httpMethod ∅ ∅ ∅ ∅ ∅ None 0 "" ∅ false "") st.

(** The [InterceptProperty] callback of [parseResponseHeader]. Its state is
    the local map [res]; [None] records the nil dereference of
    [s.Schema.Deprecated] when the converted property schema has no
    [Schema], which ends the run. *)
Definition interceptHeader (name : string) (field : StructField GoType)
    (propertySchema : jsonschema.Schema)
    (res : option (gmap string HeaderOrRef))
    : option (gmap string HeaderOrRef) * error :=
  match res with
  | None => (None, Some "nil pointer dereference")
  | Some res =>
      let s := FromJSONSchema (jsonschema.ToSchemaOrBool propertySchema) in
      match SchemaOrRef_Schema s with
      | None => (None, Some "nil pointer dereference")
      | Some sc =>
          let header :=
            mkHeader (jsonschema.Description propertySchema) None
                     (Schema_Deprecated sc) (Some s) ∅ None in
          match refl_PopulateFieldsFromTags_Header header (StructField_Tag field) with
          | inl err => (Some res, Some err)
          | inr header =>
              (Some (<[name := mkHeaderOrRef None (Some header)]> res), None)
          end
      end
  end.

Definition Response_withDescription (d : string) (resp : Response) : Response :=
  mkResponse d (Response_Headers resp) (Response_Content resp).

(** The options [parseResponseHeader] and [parseJSONResponse] pass to
    [r.Reflect]. *)
Definition responseHeaderOptions (oc : OC) (mapping : gmap string string)
    : ReflectOptions GoValue :=
  withOperation oc true "header"
    (mkReflectOptions None None false true (Some mapping) (Some "header")
       false false None false true).

Definition responseBodyOptions (oc : OC) : ReflectOptions GoValue :=
  withOperation oc true "body"
    (mkReflectOptions None (Some "#/components/schemas/") true false
       None None false false None true false).

(** [parseResponseHeader]; [None] is the run-time panic described at
    [interceptHeader]. *)
Definition parseResponseHeader (resp : Response) (oc : OC)
    : option (Response * error) :=
  let output := Output oc in
  let mapping := RespHeaderMapping oc in
  match
    Reflector_Reflect output (responseHeaderOptions oc mapping)
      (Some interceptHeader) None (Some ∅)
  with
  | (None, _) => None
  | (Some _, inl err) => Some (resp, Some err)
  | (Some res, inr schema) =>
      let resp := mkResponse (Response_Description resp) res (Response_Content resp) in
      match jsonschema.Description schema with
      | Some d =>
          if String.eqb (Response_Description resp) ""
          then Some (Response_withDescription d resp, None)
          else Some (resp, None)
      | None => Some (resp, None)
      end
  end.

Definition hasJSONBody (output : option GoValue) : string + bool :=
  match Reflector_Reflect output defaultOptions None None tt with
  | (_, inl err) => inl err
  | (_, inr schema) =>
      (* Remove non-constraining fields to prepare for marshaling. *)
      let schema := jsonschema.stripNonConstraining schema in
      match json_Marshal schema with
      | inl err => inl err
      | inr j =>
          if negb (String.eqb "{}" j) && negb (String.eqb bareObjectJSON j)
          then inr true else inr false
      end
  end.

Definition parseJSONResponse (resp : Response) (oc : OC) (st : State)
    : State * Response * error :=
  let output := Output oc in
  let contentType := RespContentType oc in
  (* Check if output structure exposes meaningful schema. *)
  match hasJSONBody output with
  | inr false => (st, resp, None)
  | _ =>
      match
        Reflector_Reflect output (responseBodyOptions oc)
          None (Some collectDefinition) st
      with
      | (st1, inl err) => (st1, resp, Some err)
      | (st1, inr schema) =>
          let oaiSchema := FromJSONSchema (jsonschema.ToSchemaOrBool schema) in
          let oaiSchema :=
            match SchemaOrRef_Schema oaiSchema with
            | Some sc => mkSchemaOrRef (Some (Schema_clearNullable sc))
                                       (SchemaOrRef_SchemaReference oaiSchema)
            | None => oaiSchema
            end in
          let contentType :=
            if String.eqb contentType "" then mimeJSON else contentType in
          let resp :=
            mkResponse (Response_Description resp) (Response_Headers resp)
              (<[contentType := mkMediaType (Some oaiSchema) None]>
                 (Response_Content resp)) in
          match jsonschema.Description schema with
          | Some d =>
              if String.eqb (Response_Description resp) ""
              then (st1, Response_withDescription d resp, None)
              else (st1, resp, None)
          | None => (st1, resp, None)
          end
      end
  end.

Definition ensureResponseContentType (resp : Response) (contentType : string)
    : Response :=
  match Response_Content resp !! contentType with
  | Some _ => resp
  | None =>
      mkResponse (Response_Description resp) (Response_Headers resp)
        (<[contentType :=
             mkMediaType (Some (mkSchemaOrRef (Some Schema_empty) None)) None]>
           (Response_Content resp))
  end.

Definition OperationContext_withRespContentType (ct : string) (oc : OC) : OC :=
  mkOperationContext (Input oc) (HTTPMethod oc) (ReqQueryMapping oc)
    (ReqPathMapping oc) (ReqCookieMapping oc) (ReqHeaderMapping oc)
    (ReqFormDataMapping oc) (Output oc) (HTTPStatus oc) ct
    (RespHeaderMapping oc) (ProcessingResponse oc) (ProcessingIn oc).

(** The tail of [SetupResponse]: the description fallback and the write
    into the operation's response map. *)
Definition storeResponse (oc : OC) (resp : Response) (st : State) : State :=
  let resp :=
    if String.eqb (Response_Description resp) ""
    then Response_withDescription (http_StatusText (HTTPStatus oc)) resp
    else resp in
  State_withOperation
    (Operation_WithResponseItem (strconv_Itoa (HTTPStatus oc))
       (mkResponseOrRef None (Some resp))) st.

(** [SetupResponse] sets up operation response; [None] is a run-time
    panic. *)
Definition SetupResponse (oc : OC) (st : State) : option (State * error) :=
  let resp := Response_empty in
  match Output oc with
  | Some _ =>
      let oc :=
        OperationContext_withRespContentType
          (index0 (strings_Split (RespContentType oc) ";")) oc in
      match parseJSONResponse resp oc st with
      | (st1, _, Some err) => Some (st1, Some err)
      | (st1, resp, None) =>
          match parseResponseHeader resp oc with
          | None => None
          | Some (_, Some err) => Some (st1, Some err)
          | Some (resp, None) =>
              let resp :=
                if negb (String.eqb (RespContentType oc) "")
                then ensureResponseContentType resp (RespContentType oc)
                else resp in
              Some (storeResponse oc resp st1, None)
          end
      end
  | None => Some (storeResponse oc resp st, None)
  end.

(** [SetJSONResponse] sets up operation JSON response. *)
Definition SetJSONResponse (output : option GoValue) (httpStatus : Z)
    (st : State) : option (State * error) :=
  SetupResponse
    (mkOperationContext None "" ∅ ∅ ∅ ∅ ∅ output httpStatus "" ∅ false "") st.

End Reflector.

(** ** A small Type Inspector

    A concrete collaborator on which the reflector can be run: structs with
    tagged fields of a few kinds. It plays the part of [refl], of
    [jsonschema.Reflector] and of the schema conversion for the examples
    below; the properties of the reflector are proved for every
    collaborator. *)
Module Sample.

Inductive Kind : Type :=
| KString | KInt | KChan | KFile | KFileHeader | KSlice
| KStruct (name : string) (fields : list (string * StructTag)).

Record Field : Type := mkField {
  fieldName : string;
  fieldTag : StructTag;
  fieldKind : Kind
}.

Record GoStruct : Type := mkGoStruct {
  typeName : string;
  forceBody : bool;
  fields : list Field
}.

Inductive Value : Type :=
| VStruct (s : GoStruct)
| VKind (k : Kind).

Definition asStruct (v : Value) : option GoStruct :=
  match v with
  | VStruct s => Some s
  | VKind (KStruct n fs) =>
      Some (mkGoStruct n false (map (fun f => mkField (fst f) (snd f) KString) fs))
  | VKind _ => None
  end.

Definition hasTag (tag : string) (t : StructTag) : bool :=
  match StructTag_Lookup t tag with
  | Some v => negb (String.eqb v "-")
  | None => false
  end.

Definition HasTaggedFields (v : option Value) (tag : string) : bool :=
  match v ≫= asStruct with
  | Some s => existsb (fun f => hasTag tag (fieldTag f)) (fields s)
  | None => false
  end.

Definition IsSliceOrMap (v : option Value) : bool :=
  match v with
  | Some (VKind KSlice) => true
  | _ => false
  end.

Definition isKind (k : Kind) (v : Value) : bool :=
  match k, v with
  | KFile, VKind KFile | KFileHeader, VKind KFileHeader | KChan, VKind KChan => true
  | _, _ => false
  end.

Definition leaf (t : jsonschema.SimpleType) : jsonschema.Schema :=
  jsonschema.mkSchema None None None None [] [] None [t] None [] None [].

Definition refTo (path : string) : jsonschema.Schema :=
  jsonschema.mkSchema None None None None [] [] (Some path) [] None [] None [].

Definition object (props : list (string * jsonschema.SchemaOrBool)) : jsonschema.Schema :=
  jsonschema.mkSchema None None None None [] [] None [jsonschema.Object] None
    props None [].

Definition withDefinitions (defs : list (string * jsonschema.SchemaOrBool))
    (s : jsonschema.Schema) : jsonschema.Schema :=
  jsonschema.mkSchema (jsonschema.ID s) (jsonschema.Title s)
    (jsonschema.Description s) (jsonschema.Comment s) (jsonschema.Examples s)
    (jsonschema.ExtraProperties s) (jsonschema.Ref s) (jsonschema.Type_ s)
    (jsonschema.Format s) (jsonschema.Properties s)
    (jsonschema.AdditionalProperties s) defs.

(** The object schema of a nested struct: its JSON-tagged string fields. *)
Definition nestedObject (fs : list (string * StructTag)) : jsonschema.Schema :=
  object (map (fun f => (default (fst f) (StructTag_Lookup (snd f) "json"),
                         jsonschema.ToSchemaOrBool (leaf jsonschema.String))) fs).

(** The schema of a value of kind [k]: a named struct is referenced, or
    inlined under [InlineRefs]. *)
Definition kindSchema (prefix : string) (inline : bool) (k : Kind) : jsonschema.Schema :=
  match k with
  | KString => leaf jsonschema.String
  | KInt => leaf jsonschema.Integer
  | KChan | KFile | KFileHeader => jsonschema.empty
  | KSlice => leaf jsonschema.Array
  | KStruct name fs => if inline then nestedObject fs else refTo (prefix ++ name)
  end.

Definition propertyName (mapping : option (gmap string string)) (tag : string)
    (f : Field) : string :=
  match mapping ≫= (fun m => m !! fieldName f) with
  | Some n => n
  | None => default "" (StructTag_Lookup (fieldTag f) tag)
  end.

Definition selected (mapping : option (gmap string string)) (tag : string)
    (f : Field) : bool :=
  hasTag tag (fieldTag f)
  || match mapping ≫= (fun m => m !! fieldName f) with
     | Some _ => true
     | None => false
     end.

Definition fieldSchema (opts : ReflectOptions Value) (prefix : string) (f : Field)
    : jsonschema.Schema :=
  let dflt := kindSchema prefix (Options_InlineRefs opts) (fieldKind f) in
  match Options_InterceptType opts with
  | Some cb =>
      match cb (VKind (fieldKind f)) jsonschema.empty with
      | (true, s) => s
      | (false, _) => dflt
      end
  | None => dflt
  end.

Definition walkStruct (opts : ReflectOptions Value) (s : GoStruct) : Walk Value Kind :=
  let tag := default "json" (Options_PropertyNameTag opts) in
  let prefix := default "#/definitions/" (Options_DefinitionsPrefix opts) in
  let mapping := Options_PropertyNameMapping opts in
  let sel := filter (fun f => Is_true (selected mapping tag f)) (fields s) in
  let props :=
    map (fun f => (propertyName mapping tag f,
                   mkStructField (fieldName f) (fieldKind f) (fieldTag f),
                   fieldSchema opts prefix f)) sel in
  let err :=
    if existsb (fun f => isKind KChan (VKind (fieldKind f))) sel
    then Some "unsupported type chan" else None in
  let nested :=
    flat_map (fun f => match fieldKind f with
                       | KStruct n fs =>
                           if Options_InlineRefs opts then [] else [(n, nestedObject fs)]
                       | _ => []
                       end) sel in
  let body :=
    object (map (fun p => (fst (fst p), jsonschema.ToSchemaOrBool (snd p))) props) in
  let defs :=
    if Options_RootRef opts then (nested ++ [(typeName s, body)])%list else nested in
  let root := if Options_RootRef opts then refTo (prefix ++ typeName s) else body in
  let kept :=
    if Options_CollectDefinitions opts then []
    else map (fun d => (fst d, jsonschema.ToSchemaOrBool (snd d))) defs in
  mkWalk (VStruct s :: map (fun f => VKind (fieldKind f)) sel) props defs err
         (withDefinitions kept root).

Definition Reflect (i : option Value) (opts : ReflectOptions Value) : Walk Value Kind :=
  match i with
  | None => mkWalk [] [] [] None jsonschema.empty
  | Some v =>
      match asStruct v, v with
      | Some s, _ => walkStruct opts s
      | None, VKind k =>
          mkWalk [v] [] []
                 (if isKind KChan v then Some "unsupported type chan" else None)
                 (kindSchema "" true k)
      | None, VStruct s => walkStruct opts s
      end
  end.

Definition typeString (t : jsonschema.SimpleType) : string :=
  match t with
  | jsonschema.Array => "array"
  | jsonschema.Boolean => "boolean"
  | jsonschema.Integer => "integer"
  | jsonschema.Null => "null"
  | jsonschema.Number => "number"
  | jsonschema.Object => "object"
  | jsonschema.String => "string"
  end.

Definition convertLeaf (s : jsonschema.Schema) : SchemaOrRef :=
  match jsonschema.Ref s with
  | Some r => mkSchemaOrRef None (Some r)
  | None =>
      mkSchemaOrRef
        (Some (mkOASchema (typeString <$> head (jsonschema.Type_ s))
                 (jsonschema.Format s) (jsonschema.Description s) None None []))
        None
  end.

(** The conversion of a JSON schema into an OpenAPI schema or reference,
    one level of properties deep. *)
Definition convert (sb : jsonschema.SchemaOrBool) : SchemaOrRef :=
  match jsonschema.TypeObject sb with
  | None => mkSchemaOrRef (Some Schema_empty) None
  | Some s =>
      match jsonschema.Ref s with
      | Some r => mkSchemaOrRef None (Some r)
      | None =>
          mkSchemaOrRef
            (Some (mkOASchema (typeString <$> head (jsonschema.Type_ s))
                     (jsonschema.Format s) (jsonschema.Description s) None None
                     (map (fun p =>
                             (fst p,
                              match jsonschema.TypeObject (snd p) with
                              | Some ps => convertLeaf ps
                              | None => mkSchemaOrRef (Some Schema_empty) None
                              end)) (jsonschema.Properties s))))
            None
      end
  end.

(** A rendering that tells the two trivial schemas from the others. *)
Definition Marshal (s : jsonschema.Schema) : string + string :=
  match jsonschema.Ref s, jsonschema.Type_ s, jsonschema.Properties s with
  | None, [], [] => inr "{}"
  | None, [jsonschema.Object], [] => inr bareObjectJSON
  | Some r, _, _ => inr ("{$ref:" ++ r ++ "}")
  | None, ts, _ => inr ("{type:" ++ String.concat "," (map typeString ts) ++ ",...}")
  end.

Definition parseBool (v : string) : string + bool :=
  if String.eqb v "true" then inr true
  else if String.eqb v "false" then inr false
  else inl ("parsing bool value " ++ v).

(** Reads the [description] and [required] tags into the descriptor. *)
Definition PopulateParameter (p : ParameterObject) (tag : StructTag)
    : string + ParameterObject :=
  let descr :=
    match StructTag_Lookup tag "description" with
    | Some d => Some d
    | None => Parameter_Description p
    end in
  match StructTag_Lookup tag "required" with
  | Some v =>
      match parseBool v with
      | inl e => inl e
      | inr b =>
          inr (mkParameter (Parameter_Name p) (Parameter_In p) descr (Some b)
                 (Parameter_Deprecated p) (Parameter_Style p) (Parameter_Explode p)
                 (Parameter_Schema p) (Parameter_Content p) (Parameter_Example p))
      end
  | None =>
      inr (mkParameter (Parameter_Name p) (Parameter_In p) descr
             (Parameter_Required p) (Parameter_Deprecated p) (Parameter_Style p)
             (Parameter_Explode p) (Parameter_Schema p) (Parameter_Content p)
             (Parameter_Example p))
  end.

Definition PopulateHeader (h : Header) (tag : StructTag) : string + Header :=
  match StructTag_Lookup tag "description" with
  | Some d =>
      inr (mkHeader (Some d) (Header_Required h) (Header_Deprecated h)
             (Header_Schema h) (Header_Content h) (Header_Example h))
  | None => inr h
  end.

Definition StatusText (code : Z) : string :=
  if code =? 200 then "OK"
  else if code =? 201 then "Created"
  else if code =? 204 then "No Content"
  else if code =? 400 then "Bad Request"
  else if code =? 404 then "Not Found"
  else if code =? 500 then "Internal Server Error"
  else "".

#[global] Instance inspector : TypeInspector Value Kind := {|
  reflect_New := VKind;
  implementsRequestBodyEnforcer v :=
    match v with
    | Some (VStruct s) => forceBody s
    | _ => false
    end;
  isMultipartFile := isKind KFile;
  isMultipartFileHeader := isKind KFileHeader;
  refl_IsSliceOrMap := IsSliceOrMap;
  refl_HasTaggedFields := HasTaggedFields;
  refl_FindEmbeddedSliceOrMap _ := false;
  refl_PopulateFieldsFromTags_Parameter := PopulateParameter;
  refl_PopulateFieldsFromTags_Header := PopulateHeader;
  jsonschema_Reflect := Reflect;
  FromJSONSchema := convert;
  json_Marshal := Marshal;
  http_StatusText := StatusText
|}.

Definition start : State := State_initial.

(** [struct { Q string `query:"q"`; Q2 string `query:"q"`;
             C chan int `json:"c"`; F chan int `formData:"f"` }] *)
Definition clashing : Value :=
  VStruct (mkGoStruct "Clashing" false
             [mkField "Q" [("query", "q")] KString;
              mkField "Q2" [("query", "q")] KString;
              mkField "C" [("json", "c")] KChan;
              mkField "F" [("formData", "f")] KChan]).

(** [type Account struct { Name string `json:"name"` }] and a second type
    of the same name, from another package, with a different field. *)
Definition account : Value :=
  VStruct (mkGoStruct "Account" false [mkField "Name" [("json", "name")] KString]).

Definition accountUpdate : Value :=
  VStruct (mkGoStruct "Account" false [mkField "ID" [("json", "id")] KInt]).

(** [Account] with a method [ForceRequestBody()]. *)
Definition forced : Value :=
  VStruct (mkGoStruct "Account" true [mkField "Name" [("json", "name")] KString]).

(** [struct { File *multipart.File `formData:"file"`;
             Name string `formData:"name"` }] *)
Definition upload : Value :=
  VStruct (mkGoStruct "Upload" false
             [mkField "File" [("formData", "file")] KFile;
              mkField "Name" [("formData", "name")] KString]).

(** [struct { Filter Filter `query:"filter"`; ID int `path:"id" required:"false"` }]
    with [type Filter struct { Tag string `json:"tag"` }]. *)
Definition search : Value :=
  VStruct (mkGoStruct "Search" false
             [mkField "Filter" [("query", "filter")]
                (KStruct "Filter" [("Tag", [("json", "tag")])]);
              mkField "ID" [("path", "id"); ("required", "false")] KInt]).

(** [struct{}] *)
Definition nothing : Value := VStruct (mkGoStruct "Nothing" false []).

(** A document that already has a schema named [Account]. *)
Definition registered : State :=
  mkState
    (WithMapOfSchemaOrRefValuesItem "Account"
       (mkSchemaOrRef (Some Schema_empty) None) None)
    Operation_empty.

Definition request (input : Value) (method : string) : OperationContext Value :=
  mkOperationContext (Some input) method ∅ ∅ ∅ ∅ ∅ None 0 "" ∅ false "".

Definition response (output : option Value) (status : Z) (contentType : string)
    : OperationContext Value :=
  mkOperationContext None "" ∅ ∅ ∅ ∅ ∅ output status contentType ∅ false "".

End Sample.

(** ** Vocabulary of the statements *)

(** What [joinErrors] accumulates in [join] for given messages. *)
Fixpoint joinTail (msgs : list string) : string :=
  match msgs with
  | [] => ""
  | m :: rest => ", " ++ m ++ joinTail rest
  end.

(** The messages of the non-nil errors, in order. *)
Definition messages (errs : list error) : list string := omap id errs.

Section Vocabulary.
Context {GoValue GoType : Type} {TI : TypeInspector GoValue GoType}.

(** A parameter descriptor as an element of [o.Parameters]. *)
Definition asParameterOrRef (p : ParameterObject) : ParameterOrRef :=
  mkParameterOrRef None (Some p).

(** The descriptor the [InterceptProperty] callback of [parseParametersIn]
    has built for one property when it reaches the uniqueness check, or the
    error that stops it before. The registry it runs on does not matter
    (lemma [draftParameter_pure]). *)
Definition describeParameter (oc : OperationContext GoValue) (in_ : ParameterIn)
    (prop : string * StructField GoType * jsonschema.Schema)
    : string + ParameterObject :=
  let '(name, field, propertySchema) := prop in
  match snd (draftParameter oc in_ name field propertySchema State_initial) with
  | inl err => inl err
  | inr p =>
      match refl_PopulateFieldsFromTags_Parameter p (StructField_Tag field) with
      | inl err => inl err
      | inr p =>
          inr (match in_ with
               | ParameterInPath => Parameter_WithRequired true p
               | _ => p
               end)
      end
  end.

(** The operation after several appends to [o.Parameters]. *)
Definition Operation_appendParameters (ps : list ParameterOrRef) (o : Operation)
    : Operation :=
  mkOperation (Operation_Parameters o ++ ps) (Operation_RequestBody o)
              (Operation_Responses o) (Operation_MapOfAnything o).

(** The field's own type carries JSON field tags. *)
Definition isJSONEncoded (field : StructField GoType) : bool :=
  refl_HasTaggedFields (Some (reflect_New (StructField_Type field))) tagJSON.


(** The properties the Type Inspector offers for one location. *)
Definition offeredProperties (oc : OperationContext GoValue) (in_ : ParameterIn)
    (propertyMapping : gmap string string)
    : list (string * StructField GoType * jsonschema.Schema) :=
  Walk_Properties
    (jsonschema_Reflect (Input oc) (parametersOptions oc in_ propertyMapping)).

(** The walk of the Type Inspector over the input of [parseRequestBody]. *)
Definition requestBodyWalk (oc : OperationContext GoValue) (tag : string)
    (mapping : gmap string string) : Walk GoValue GoType :=
  jsonschema_Reflect (Input oc)
    (requestBodyOptions oc tag
       (if negb (String.eqb tag tagJSON) then "" ++ strings_Title tag else "")
       mapping).

(** The media-type entry [parseRequestBody] writes. *)
Definition requestBodyMediaType (oc : OperationContext GoValue) (tag : string)
    (mapping : gmap string string) : MediaType :=
  mkMediaType
    (Some (FromJSONSchema
             (jsonschema.ToSchemaOrBool (Walk_Schema (requestBodyWalk oc tag mapping)))))
    None.

(** The requested response content type up to its first semicolon, and
    the operation context [SetupResponse] works with once it has cut the
    content type there. *)
Definition strippedContentType (oc : OperationContext GoValue) : string :=
  index0 (strings_Split (RespContentType oc) ";").

Definition strippedContext (oc : OperationContext GoValue) : OperationContext GoValue :=
  OperationContext_withRespContentType (strippedContentType oc) oc.

(** The response stored in the operation under the status code of [oc]. *)
Definition builtResponse (st : State) (oc : OperationContext GoValue)
    : option Response :=
  Responses_MapOfResponseOrRefValues (Operation_Responses (oc_Operation st))
    !! strconv_Itoa (HTTPStatus oc)
  ≫= ResponseOrRef_Response.

(** The root schemas of the body and header reflections of a response. *)
Definition responseBodySchema (oc : OperationContext GoValue) : jsonschema.Schema :=
  Walk_Schema (jsonschema_Reflect (Output oc) (responseBodyOptions oc)).

Definition responseHeaderSchema (oc : OperationContext GoValue) : jsonschema.Schema :=
  Walk_Schema
    (jsonschema_Reflect (Output oc)
       (responseHeaderOptions oc (RespHeaderMapping oc))).

(** The media-type entry [ensureResponseContentType] adds. *)
Definition emptySchemaMediaType : MediaType :=
  mkMediaType (Some (mkSchemaOrRef (Some Schema_empty) None)) None.

(** [refl.PopulateFieldsFromTags] fills scalar fields only: it leaves
    [Schema] and [Content] of a parameter as they are. *)
Definition populateKeepsSchemaAndContent : Prop :=
  forall p tag p',
    refl_PopulateFieldsFromTags_Parameter p tag = inr p' ->
    Parameter_Schema p' = Parameter_Schema p
    /\ Parameter_Content p' = Parameter_Content p.

End Vocabulary.

(** ** The remaining functions of [reflect.go] and their vocabulary *)

(** [strings.HasPrefix(s, prefix)]. *)
Fixpoint strings_HasPrefix (s prefix : string) : bool :=
  match prefix, s with
  | EmptyString, _ => true
  | String _ _, EmptyString => false
  | String a p, String b r => Ascii.eqb a b && strings_HasPrefix r p
  end.

(** [strings.TrimPrefix(s, prefix)]. *)
Definition strings_TrimPrefix (s prefix : string) : string :=
  if strings_HasPrefix s prefix then slice_from (String.length prefix) s else s.

(** The zero value [jsonschema.SchemaOrBool{}]. *)
Definition SchemaOrBool_zero : jsonschema.SchemaOrBool :=
  jsonschema.mkSchemaOrBool None None.

Section Resolve.
(** [os.ToJSONSchema(r.Spec)], the conversion of a component schema back
    into a JSON schema: a method of package [openapi3] outside
    [reflect.go], taken as given. *)
Variable ToJSONSchema : SchemaOrRef -> option Spec -> jsonschema.SchemaOrBool.

(** [ResolveJSONSchemaRef] builds JSON Schema from OpenAPI Component Schema
    reference. *)
Definition ResolveJSONSchemaRef (spec : option Spec) (ref : string)
    : jsonschema.SchemaOrBool * bool :=
  match spec with
  | None => (SchemaOrBool_zero, false)
  | Some sp =>
      match Spec_Components sp with
      | None => (SchemaOrBool_zero, false)
      | Some c =>
          match Components_Schemas c with
          | None => (SchemaOrBool_zero, false)
          | Some cs =>
              if negb (strings_HasPrefix ref "#/components/schemas/")
              then (SchemaOrBool_zero, false)
              else
                let ref := strings_TrimPrefix ref "#/components/schemas/" in
                match MapOfSchemaOrRefValues cs !! ref with
                | Some os => (ToJSONSchema os spec, true)
                | None => (SchemaOrBool_zero, false)
                end
          end
      end
  end.
End Resolve.

Section MoreVocabulary.
Context {GoValue GoType : Type} {TI : TypeInspector GoValue GoType}.

(** [OperationContext{}]. *)
Definition OperationContext_zero : OperationContext GoValue :=
  mkOperationContext None "" ∅ ∅ ∅ ∅ ∅ None 0 "" ∅ false "".

(** [OperationCtx] retrieves operation context from reflect context: the
    value stored under [ocCtxKey{}], if there is one. *)
Definition OperationCtx (rc : ReflectOptions GoValue)
    : OperationContext GoValue * bool :=
  match Options_Operation rc with
  | Some oc => (oc, true)
  | None => (OperationContext_zero, false)
  end.

(** The (location, name) pairs of the parameters of an operation; entries
    that are references ([Parameter] nil) have none. *)
Definition parameterKeys (params : list ParameterOrRef)
    : list (ParameterIn * string) :=
  omap (fun ep =>
          (fun q => (Parameter_In q, Parameter_Name q))
            <$> ParameterOrRef_Parameter ep) params.

(** The root schema of the walk of [parseParametersIn]. *)
Definition parametersSchema (oc : OperationContext GoValue) (in_ : ParameterIn)
    (mapping : gmap string string) : jsonschema.Schema :=
  Walk_Schema (jsonschema_Reflect (Input oc) (parametersOptions oc in_ mapping)).

(** The test [s.AdditionalProperties != nil &&
    s.AdditionalProperties.TypeBoolean != nil &&
    !*s.AdditionalProperties.TypeBoolean] of [parseParametersIn]. *)
Definition forbidsUnknown (s : jsonschema.Schema) : bool :=
  match jsonschema.AdditionalProperties s with
  | Some ap =>
      match jsonschema.TypeBoolean ap with
      | Some false => true
      | _ => false
      end
  | None => false
  end.

(** The request body of [parseRequestBody] is skipped: one of its three
    early returns is taken. *)
Definition requestBodySkipped (oc : OperationContext GoValue)
    (tag httpMethod : string) (mapping : gmap string string) : bool :=
  (isBodilessMethod (strings_ToUpper httpMethod)
   && negb (implementsRequestBodyEnforcer (Input oc)))
  || (negb (refl_HasTaggedFields (Input oc) tag) && (size mapping =? 0)%nat
      && negb (String.eqb tag tagJSON))
  || (negb (refl_HasTaggedFields (Input oc) tag) && (size mapping =? 0)%nat
      && negb (refl_IsSliceOrMap (Input oc))
      && negb (refl_FindEmbeddedSliceOrMap (Input oc))).

(** The properties the Type Inspector offers for the response headers. *)
Definition offeredHeaders (oc : OperationContext GoValue)
    : list (string * StructField GoType * jsonschema.Schema) :=
  Walk_Properties
    (jsonschema_Reflect (Output oc)
       (responseHeaderOptions oc (RespHeaderMapping oc))).

(** The media-type entry [parseJSONResponse] writes: the converted root
    schema of the body reflection, its [Nullable] reset. *)
Definition responseBodyMediaType (oc : OperationContext GoValue) : MediaType :=
  let oaiSchema :=
    FromJSONSchema (jsonschema.ToSchemaOrBool (responseBodySchema oc)) in
  mkMediaType
    (Some match SchemaOrRef_Schema oaiSchema with
          | Some sc => mkSchemaOrRef (Some (Schema_clearNullable sc))
                                     (SchemaOrRef_SchemaReference oaiSchema)
          | None => oaiSchema
          end)
    None.

(** The options of the reflection of a parameter that is not a JSON
    encoded object. *)
Definition inlineParameterOptions (oc : OperationContext GoValue)
    (in_ : ParameterIn) : ReflectOptions GoValue :=
  withOperation oc false (ParameterIn_string in_)
    (mkReflectOptions None None false true None None false false None
       false false).

(** The field's type reflects, with references inlined, to a schema of
    type object. *)
Definition isObjectTyped (oc : OperationContext GoValue) (in_ : ParameterIn)
    (field : StructField GoType) : bool :=
  jsonschema.HasType jsonschema.Object
    (Walk_Schema
       (jsonschema_Reflect (Some (reflect_New (StructField_Type field)))
          (inlineParameterOptions oc in_))).

(** The converted property schema with [Nullable] reset, as a parameter
    carries it. *)
Definition parameterSchema (propertySchema : jsonschema.Schema) : SchemaOrRef :=
  let s := FromJSONSchema (jsonschema.ToSchemaOrBool propertySchema) in
  mkSchemaOrRef (Schema_clearNullable <$> SchemaOrRef_Schema s)
                (SchemaOrRef_SchemaReference s).

(** The name prefix [parseRequestBody] puts before its definitions. *)
Definition definitionPrefixOf (tag : string) : string :=
  if negb (String.eqb tag tagJSON) then "" ++ strings_Title tag else "".

(** The MIME type [parseRequestBody] stores the body under. *)
Definition resolvedMime (oc : OperationContext GoValue) (tag mime : string)
    (mapping : gmap string string) : string :=
  if String.eqb mime mimeFormUrlencoded
     && existsb isFileUpload (Walk_Types (requestBodyWalk oc tag mapping))
  then mimeMultipart else mime.

End MoreVocabulary.

(** One state extends another: the responses are the same, the parameters
    are the old ones followed by new ones, uniqueness of the parameters in
    (location, name) is kept, and every name of the registry is still
    there. *)
Definition extendsState (st st' : State) : Prop :=
  Operation_Responses (oc_Operation st') = Operation_Responses (oc_Operation st)
  /\ (exists added,
        Operation_Parameters (oc_Operation st')
        = (Operation_Parameters (oc_Operation st) ++ added)%list)
  /\ (NoDup (parameterKeys (Operation_Parameters (oc_Operation st))) ->
      NoDup (parameterKeys (Operation_Parameters (oc_Operation st'))))
  /\ (forall name,
        is_Some (State_registry st !! name) ->
        is_Some (State_registry st' !! name)).

(** A conversion back to JSON schema for the examples: type, format,
    description or reference. *)
Definition sample_ToJSONSchema (os : SchemaOrRef) (spec : option Spec)
    : jsonschema.SchemaOrBool :=
  match SchemaOrRef_SchemaReference os, SchemaOrRef_Schema os with
  | Some r, _ => jsonschema.ToSchemaOrBool (Sample.refTo r)
  | None, Some sc =>
      jsonschema.ToSchemaOrBool
        (jsonschema.mkSchema None None (Schema_Description sc) None [] [] None
           (match Schema_Type sc with
            | Some "object" => [jsonschema.Object]
            | Some "string" => [jsonschema.String]
            | Some "integer" => [jsonschema.Integer]
            | _ => []
            end)
           (Schema_Format sc) [] None [])
  | None, None => SchemaOrBool_zero
  end.

(** [struct { Location string `header:"Location" description:"where it is"`;
             ID int `json:"id"` }] *)
Definition sample_created : Sample.Value :=
  Sample.VStruct
    (Sample.mkGoStruct "Created" false
       [Sample.mkField "Location"
          [("header", "Location"); ("description", "where it is")] Sample.KString;
        Sample.mkField "ID" [("json", "id")] Sample.KInt]).

(** [[]string{}] *)
Definition sample_list : Sample.Value := Sample.VKind Sample.KSlice.

(** [struct { Range Range `query:"range"`;
             IDs []int `query:"ids" collectionFormat:"csv"`;
             Tag string `query:"tag"` }]
    with [type Range struct { From string `query:"from"` }]. *)
Definition sample_listing : Sample.Value :=
  Sample.VStruct
    (Sample.mkGoStruct "Listing" false
       [Sample.mkField "Range" [("query", "range")]
          (Sample.KStruct "Range" [("From", [("query", "from")])]);
        Sample.mkField "IDs" [("query", "ids"); ("collectionFormat", "csv")]
          Sample.KSlice;
        Sample.mkField "Tag" [("query", "tag")] Sample.KString]).

(** * Properties *)

(** ** The registry of named schemas *)
Section RegistryFacts.
Context {GoValue GoType : Type} {TI : TypeInspector GoValue GoType}.

Lemma registry_ensured (spec : option Spec) :
  registry (ensured spec) = registry spec.
Proof. reflexivity. Qed.

Lemma registry_WithItem (name : string) (s : SchemaOrRef) (spec : option Spec) :
  registry (WithMapOfSchemaOrRefValuesItem name s spec) = <[name:=s]> (registry spec).
Proof. reflexivity. Qed.

Lemma collectDefinition_operation name schema (st : State) :
  oc_Operation (collectDefinition name schema st) = oc_Operation st.
Proof.
  unfold collectDefinition.
  destruct (registry (Reflector_Spec st) !! name); reflexivity.
Qed.

Lemma collectDefinition_present name schema (st : State) x :
  State_registry st !! name = Some x ->
  State_registry (collectDefinition name schema st) = State_registry st.
Proof.
  unfold State_registry, collectDefinition. intros Hx. rewrite Hx.
  reflexivity.
Qed.

Lemma collectDefinition_absent name schema (st : State) :
  State_registry st !! name = None ->
  State_registry (collectDefinition name schema st)
  = <[name := FromJSONSchema (jsonschema.ToSchemaOrBool schema)]> (State_registry st).
Proof.
  unfold State_registry, collectDefinition. intros Hx. rewrite Hx.
  reflexivity.
Qed.

Lemma collectDefinition_grows name schema (st : State) :
  State_registry st ⊆ State_registry (collectDefinition name schema st).
Proof.
  destruct (State_registry st !! name) as [x|] eqn:Hx.
  - by rewrite (collectDefinition_present _ _ _ _ Hx).
  - rewrite (collectDefinition_absent _ _ _ Hx). by apply insert_subseteq.
Qed.

Lemma collectDefinitions_grows defs (st : State) :
  State_registry st ⊆ State_registry (collectDefinitions collectDefinition defs st).
Proof.
  unfold collectDefinitions. revert st.
  induction defs as [|[n d] defs IH]; intros st; simpl; [done|].
  etrans; [apply (collectDefinition_grows n d)|apply IH].
Qed.

Lemma collectDefinitions_operation defs (st : State) :
  oc_Operation (collectDefinitions collectDefinition defs st) = oc_Operation st.
Proof.
  unfold collectDefinitions. revert st.
  induction defs as [|[n d] defs IH]; intros st; simpl; [done|].
  rewrite IH. apply collectDefinition_operation.
Qed.

Lemma publishDefinitions_operation prefix defs (st : State) :
  oc_Operation (publishDefinitions prefix defs st) = oc_Operation st.
Proof.
  unfold publishDefinitions. revert st.
  induction defs as [|[n d] defs IH]; intros st; simpl; [done|].
  by rewrite IH.
Qed.

Lemma publishDefinitions_other prefix defs (st : State) key :
  key ∉ map (fun nd => prefix ++ fst nd) defs ->
  State_registry (publishDefinitions prefix defs st) !! key = State_registry st !! key.
Proof.
  unfold publishDefinitions. revert st.
  induction defs as [|[n d] defs IH]; intros st Hnot; simpl in *; [done|].
  apply not_elem_of_cons in Hnot as [Hne Hnot].
  rewrite IH; [|done]. unfold State_registry; simpl.
  rewrite registry_WithItem. by rewrite lookup_insert_ne.
Qed.

(** An assignment made by the loop survives when no later definition has
    the same name: whatever stood under the key before is replaced. *)
Lemma publishDefinitions_assigns prefix defs (st : State) n d :
  NoDup (map fst defs) -> (n, d) ∈ defs ->
  State_registry (publishDefinitions prefix defs st) !! (prefix ++ n)
  = Some (FromJSONSchema d).
Proof.
  unfold publishDefinitions. revert st.
  induction defs as [|[n' d'] defs IH]; intros st Hnd Hin; simpl in *.
  - by apply elem_of_nil in Hin.
  - apply NoDup_cons in Hnd as [Hfresh Hnd].
    apply elem_of_cons in Hin as [Heq|Hin].
    + inversion Heq; subst n' d'.
      change (fold_left _ defs ?s) with (publishDefinitions prefix defs s).
      rewrite publishDefinitions_other.
      * unfold State_registry; simpl. rewrite registry_WithItem.
        apply lookup_insert_eq.
      * intros Hmem. apply Hfresh.
        apply list_elem_of_fmap in Hmem as [[m e] [Hm Hme]]. simpl in Hm.
        apply (inj (String.app prefix)) in Hm. subst m.
        apply list_elem_of_fmap. by exists (n, e).
    + by apply IH.
Qed.

End RegistryFacts.

(** ** Parameter extraction *)
Section ParameterFacts.
Context {GoValue GoType : Type} {TI : TypeInspector GoValue GoType}.
Implicit Types (oc : OperationContext GoValue) (st : State).
Implicit Types (prop : string * StructField GoType * jsonschema.Schema).

(** Without a property callback the result of a reflection is the walk's
    own outcome. *)
Lemma Reflect_plain_result {S : Type} i opts collect (s : S) :
  snd (Reflector_Reflect i opts None collect s)
  = match Walk_Err (jsonschema_Reflect i opts) with
    | Some e => inl e
    | None => inr (Walk_Schema (jsonschema_Reflect i opts))
    end.
Proof.
  unfold Reflector_Reflect.
  destruct (Walk_Err (jsonschema_Reflect i opts)); reflexivity.
Qed.

Lemma Reflect_plain_state i opts st :
  fst (Reflector_Reflect i opts None None st) = st.
Proof.
  unfold Reflector_Reflect.
  destruct (Walk_Err (jsonschema_Reflect i opts)); reflexivity.
Qed.

Lemma Reflect_collect_state i opts st :
  State_registry st
    ⊆ State_registry (fst (Reflector_Reflect i opts None (Some collectDefinition) st))
  /\ oc_Operation (fst (Reflector_Reflect i opts None (Some collectDefinition) st))
     = oc_Operation st.
Proof.
  unfold Reflector_Reflect.
  destruct (Walk_Err (jsonschema_Reflect i opts)); simpl; [done|].
  split; [apply collectDefinitions_grows|apply collectDefinitions_operation].
Qed.

Lemma draftParameter_pure oc in_ name field ps st st' :
  snd (draftParameter oc in_ name field ps st)
  = snd (draftParameter oc in_ name field ps st').
Proof.
  unfold draftParameter.
  destruct (refl_HasTaggedFields _ tagJSON).
  - destruct (Reflector_Reflect _ _ None (Some collectDefinition) st) as [s1 r1] eqn:E1.
    destruct (Reflector_Reflect _ _ None (Some collectDefinition) st') as [s2 r2] eqn:E2.
    apply (f_equal snd) in E1, E2. rewrite Reflect_plain_result in E1, E2.
    simpl in E1, E2. subst r1 r2.
    destruct (Walk_Err _); reflexivity.
  - destruct (Reflector_Reflect _ _ None None st) as [s1 r1] eqn:E1.
    destruct (Reflector_Reflect _ _ None None st') as [s2 r2] eqn:E2.
    apply (f_equal snd) in E1, E2. rewrite Reflect_plain_result in E1, E2.
    simpl in E1, E2. subst r1 r2.
    destruct (Walk_Err _); reflexivity.
Qed.

Lemma draftParameter_state oc in_ name field ps st :
  State_registry st ⊆ State_registry (fst (draftParameter oc in_ name field ps st))
  /\ oc_Operation (fst (draftParameter oc in_ name field ps st)) = oc_Operation st.
Proof.
  unfold draftParameter.
  destruct (refl_HasTaggedFields _ tagJSON).
  - match goal with
    | |- context [Reflector_Reflect ?i ?o None (Some collectDefinition) st] =>
        pose proof (Reflect_collect_state i o st) as H;
        destruct (Reflector_Reflect i o None (Some collectDefinition) st) as [s1 [e|r]]
    end; exact H.
  - match goal with
    | |- context [Reflector_Reflect ?i ?o None None st] =>
        pose proof (Reflect_plain_state i o st) as H;
        destruct (Reflector_Reflect i o None None st) as [s1 [e|r]]
    end; simpl in *; subst s1; done.
Qed.

(** One call of the callback: it fails on the descriptor's own error, or on
    a descriptor whose location and name are already in the operation, and
    otherwise appends the descriptor. *)
Lemma interceptParameter_step oc in_ name field ps st st' e :
  interceptParameter oc in_ name field ps st = (st', e) ->
  State_registry st ⊆ State_registry st'
  /\ ((exists err, describeParameter oc in_ (name, field, ps) = inl err
                   /\ e = Some err /\ oc_Operation st' = oc_Operation st)
      \/ (exists p, describeParameter oc in_ (name, field, ps) = inr p
                    /\ alreadyExists p (Operation_Parameters (oc_Operation st)) = true
                    /\ e = Some (errAlreadyDefined p)
                    /\ oc_Operation st' = oc_Operation st)
      \/ (exists p, describeParameter oc in_ (name, field, ps) = inr p
                    /\ alreadyExists p (Operation_Parameters (oc_Operation st)) = false
                    /\ e = None
                    /\ oc_Operation st'
                       = Operation_appendParameter (asParameterOrRef p) (oc_Operation st))).
Proof.
  unfold interceptParameter, describeParameter.
  rewrite (draftParameter_pure oc in_ name field ps State_initial st).
  destruct (draftParameter_state oc in_ name field ps st) as [Hreg Hop].
  destruct (draftParameter oc in_ name field ps st) as [st1 [err|p0]]; simpl in *.
  - intros [= <- <-]. split; [done|]. left. eauto.
  - destruct (refl_PopulateFieldsFromTags_Parameter p0 (StructField_Tag field))
      as [err|p1].
    + intros [= <- <-]. split; [done|]. left. eauto.
    + rewrite Hop.
      destruct (alreadyExists _ (Operation_Parameters (oc_Operation st))) eqn:Hex.
      * intros [= <- <-]. split; [done|]. right; left. eauto.
      * intros [= <- <-]. split; [done|]. right; right.
        eexists; repeat split; eauto.
        unfold State_withOperation; simpl. by rewrite Hop.
Qed.

Lemma Operation_appendParameters_nil (o : Operation) :
  Operation_appendParameters [] o = o.
Proof.
  destruct o. unfold Operation_appendParameters; simpl. by rewrite app_nil_r.
Qed.

Lemma Operation_appendParameters_cons p ps (o : Operation) :
  Operation_appendParameters ps (Operation_appendParameter p o)
  = Operation_appendParameters (p :: ps) o.
Proof.
  unfold Operation_appendParameters, Operation_appendParameter; simpl.
  by rewrite <- app_assoc.
Qed.

(** The run of the callback over the offered properties: a prefix of them
    is appended as described, none of the appended descriptors was already
    there, and the run stops at the first property that fails. *)
Lemma extraction_outcome oc in_ props st st' e :
  interceptProperties (interceptParameter oc in_) props st = (st', e) ->
  State_registry st ⊆ State_registry st'
  /\ exists ds,
      Forall2 (fun prop p => describeParameter oc in_ prop = inr p)
              (take (length ds) props) ds
      /\ oc_Operation st'
         = Operation_appendParameters (asParameterOrRef <$> ds) (oc_Operation st)
      /\ (forall j p, ds !! j = Some p ->
            alreadyExists p (Operation_Parameters (oc_Operation st)
                             ++ (asParameterOrRef <$> take j ds)) = false)
      /\ match e with
         | None => length ds = length props
         | Some err =>
             exists prop,
               props !! length ds = Some prop
               /\ (describeParameter oc in_ prop = inl err
                   \/ exists p,
                        describeParameter oc in_ prop = inr p
                        /\ err = errAlreadyDefined p
                        /\ alreadyExists p
                             (Operation_Parameters (oc_Operation st)
                              ++ (asParameterOrRef <$> ds)) = true)
         end.
Proof.
  revert st. induction props as [|[[name field] ps] props IH]; intros st; simpl.
  - intros [= <- <-]. split; [done|]. exists []. simpl.
    rewrite Operation_appendParameters_nil.
    split; [constructor|]. split; [done|]. split; [|done].
    intros j p Hj. by rewrite lookup_nil in Hj.
  - destruct (interceptParameter oc in_ name field ps st) as [st1 e1] eqn:Hstep.
    apply interceptParameter_step in Hstep as [Hreg Hcases].
    destruct Hcases as [(err & Hd & -> & Hop)|[(p & Hd & Hex & -> & Hop)
                                              |(p & Hd & Hex & -> & Hop)]].
    + intros [= <- <-]. split; [done|]. exists []. simpl.
      rewrite Operation_appendParameters_nil.
      split; [constructor|]. split; [done|]. split.
      * intros j p Hj. by rewrite lookup_nil in Hj.
      * eexists; split; [reflexivity|]. by left.
    + intros [= <- <-]. split; [done|]. exists []. simpl.
      rewrite Operation_appendParameters_nil.
      split; [constructor|]. split; [done|]. split.
      * intros j q Hj. by rewrite lookup_nil in Hj.
      * eexists; split; [reflexivity|]. right. exists p.
        rewrite app_nil_r. eauto.
    + intros Hrest. apply IH in Hrest as (Hreg' & ds & Hall & Hop' & Hfresh & He).
      split; [by etrans|]. exists (p :: ds). simpl.
      rewrite Hop in Hop', Hfresh, He.
      rewrite Operation_appendParameters_cons in Hop'.
      simpl in Hfresh, He.
      split; [by constructor|]. split; [exact Hop'|]. split.
      * intros [|j] q Hj; simpl in *.
        -- injection Hj as <-. by rewrite app_nil_r.
        -- specialize (Hfresh j q Hj). by rewrite <- app_assoc in Hfresh.
      * destruct e as [err|]; [|by f_equal].
        destruct He as (prop & Hprop & Hwhy). exists prop. split; [done|].
        destruct Hwhy as [Hl|(q & Hq & -> & Hex')]; [by left|].
        right. exists q. by rewrite <- app_assoc in Hex'.
Qed.

(** [parseParametersIn] as a whole. *)
Lemma parseParametersIn_outcome oc in_ mapping st st' e :
  parseParametersIn oc in_ mapping st = (st', e) ->
  State_registry st ⊆ State_registry st'
  /\ exists ds,
      Forall2 (fun prop p => describeParameter oc in_ prop = inr p)
              (take (length ds) (offeredProperties oc in_ mapping)) ds
      /\ Operation_Parameters (oc_Operation st')
         = (Operation_Parameters (oc_Operation st) ++ (asParameterOrRef <$> ds))%list
      /\ Operation_RequestBody (oc_Operation st')
         = Operation_RequestBody (oc_Operation st)
      /\ Operation_Responses (oc_Operation st')
         = Operation_Responses (oc_Operation st)
      /\ (forall j p, ds !! j = Some p ->
            alreadyExists p (Operation_Parameters (oc_Operation st)
                             ++ (asParameterOrRef <$> take j ds)) = false)
      /\ (refl_IsSliceOrMap (Input oc) = false ->
          match e with
          | None => length ds = length (offeredProperties oc in_ mapping)
          | Some err =>
              Operation_MapOfAnything (oc_Operation st')
              = Operation_MapOfAnything (oc_Operation st)
              /\ ((exists prop,
                     offeredProperties oc in_ mapping !! length ds = Some prop
                     /\ (describeParameter oc in_ prop = inl err
                         \/ exists p,
                              describeParameter oc in_ prop = inr p
                              /\ err = errAlreadyDefined p
                              /\ alreadyExists p
                                   (Operation_Parameters (oc_Operation st)
                                    ++ (asParameterOrRef <$> ds)) = true))
                  \/ (length ds = length (offeredProperties oc in_ mapping)
                      /\ Walk_Err (jsonschema_Reflect (Input oc)
                                     (parametersOptions oc in_ mapping)) = Some err))
          end).
Proof.
  unfold parseParametersIn.
  destruct (refl_IsSliceOrMap (Input oc)) eqn:Hslice.
  - intros [= <- <-]. split; [done|]. exists []. simpl.
    rewrite app_nil_r. split; [constructor|]. repeat (split; [done|]).
    intros [=].
  - unfold Reflector_Reflect. fold (offeredProperties oc in_ mapping).
    destruct (interceptProperties (interceptParameter oc in_)
                (offeredProperties oc in_ mapping) st) as [st1 e1] eqn:Hrun.
    apply extraction_outcome in Hrun as (Hreg & ds & Hall & Hop & Hfresh & He).
    pose proof (collectDefinitions_grows
                  (Walk_Definitions (jsonschema_Reflect (Input oc)
                                       (parametersOptions oc in_ mapping))) st1)
      as Hgrow.
    pose proof (collectDefinitions_operation
                  (Walk_Definitions (jsonschema_Reflect (Input oc)
                                       (parametersOptions oc in_ mapping))) st1)
      as Hsame.
    destruct e1 as [err|];
      [|destruct (Walk_Err _) as [err|] eqn:Herr;
        [|destruct (jsonschema.AdditionalProperties _) as [ap|];
          [destruct (jsonschema.TypeBoolean ap) as [[|]|]|]]];
      intros [= <- <-];
      (split; [first [exact Hreg | etrans; [exact Hreg|exact Hgrow]]|]);
      exists ds; simpl; rewrite ?Hsame, Hop; simpl;
      repeat (split; [done|]); try (intros _); try done.
    + by left.
    + by right.
Qed.

(** The extraction appends a descriptor for every offered property up to
    the first one that cannot be described or is already defined. *)
Lemma parseParametersIn_progress oc in_ mapping st :
  exists added,
    Forall2 (fun prop p => describeParameter oc in_ prop = inr p)
            (take (length added) (offeredProperties oc in_ mapping)) added
    /\ Operation_Parameters (oc_Operation (fst (parseParametersIn oc in_ mapping st)))
       = (Operation_Parameters (oc_Operation st) ++ (asParameterOrRef <$> added))%list
    /\ (refl_IsSliceOrMap (Input oc) = false ->
        length added = length (offeredProperties oc in_ mapping)
        \/ exists prop err,
             offeredProperties oc in_ mapping !! length added = Some prop
             /\ snd (parseParametersIn oc in_ mapping st) = Some err
             /\ (describeParameter oc in_ prop = inl err
                 \/ exists p,
                      describeParameter oc in_ prop = inr p
                      /\ alreadyExists p
                           (Operation_Parameters (oc_Operation st)
                            ++ (asParameterOrRef <$> added)) = true)).
Proof.
  destruct (parseParametersIn oc in_ mapping st) as [st' e] eqn:Hrun.
  apply parseParametersIn_outcome in Hrun
    as (_ & ds & Hall & Hparams & _ & _ & _ & Hend).
  exists ds. split; [exact Hall|]. split; [exact Hparams|].
  intros Hslice. specialize (Hend Hslice). destruct e as [err|]; [|by left].
  destruct Hend as (_ & [(prop & Hprop & Hwhy)|[Hlen _]]); [|by left].
  right. exists prop, err. split; [exact Hprop|]. split; [reflexivity|].
  destruct Hwhy as [Hd|(p & Hd & _ & Hdup)]; [by left|]. right. by exists p.
Qed.

Lemma describeParameter_path_required oc prop p :
  describeParameter oc ParameterInPath prop = inr p ->
  Parameter_Required p = Some true.
Proof.
  destruct prop as [[name field] ps]. unfold describeParameter.
  destruct (snd (draftParameter _ _ _ _ _ _)) as [err|p0]; [done|].
  destruct (refl_PopulateFieldsFromTags_Parameter _ _) as [err|p1]; [done|].
  by intros [= <-].
Qed.



End ParameterFacts.

Section ParameterClaims.
Context {GoValue GoType : Type} {TI : TypeInspector GoValue GoType}.
Implicit Types (oc : OperationContext GoValue) (st : State).

Lemma alreadyExists_intro (p q : ParameterObject) (params : list ParameterOrRef) :
  asParameterOrRef q ∈ params ->
  Parameter_In q = Parameter_In p ->
  Parameter_Name q = Parameter_Name p ->
  alreadyExists p params = true.
Proof.
  intros Hin HIn HName. unfold alreadyExists. apply existsb_exists.
  exists (asParameterOrRef q). split; [by apply list_elem_of_In|]. simpl.
  rewrite HIn, HName, String.eqb_refl. by destruct (Parameter_In p).
Qed.

(** The descriptors appended by one extraction are pairwise different in
    location and name: a later one would have found the earlier one. *)
Lemma appended_distinct st (ds : list ParameterObject) i j p_i p_j :
  (forall k p, ds !! k = Some p ->
     alreadyExists p (Operation_Parameters (oc_Operation st)
                      ++ (asParameterOrRef <$> take k ds)) = false) ->
  (i < j)%nat -> ds !! i = Some p_i -> ds !! j = Some p_j ->
  Parameter_In p_i = Parameter_In p_j ->
  Parameter_Name p_i = Parameter_Name p_j -> False.
Proof.
  intros Hfresh Hij Hi Hj HIn HName.
  specialize (Hfresh j p_j Hj).
  rewrite (alreadyExists_intro p_j p_i) in Hfresh; [done| |done|done].
  apply elem_of_app; right. apply list_elem_of_fmap_2.
  apply elem_of_take. eauto.
Qed.

(** C2. When two fields of the input type resolve to the same parameter
    name in the same location, [parseParametersIn] for that location
    returns an error and leaves in the operation the parameters it appended
    before it stopped. When no field up to the second of the two fails to
    reflect or to populate, the error is
    [parameter NAME in LOCATION is already defined] for an offending
    descriptor; the extraction stops at that field, sets no vendor marker,
    and the parameters appended before it remain. *)
Theorem duplicate_parameter_is_rejected oc in_ mapping st i j prop_i prop_j p_i p_j :
  refl_IsSliceOrMap (Input oc) = false ->
  (i < j)%nat ->
  offeredProperties oc in_ mapping !! i = Some prop_i ->
  offeredProperties oc in_ mapping !! j = Some prop_j ->
  describeParameter oc in_ prop_i = inr p_i ->
  describeParameter oc in_ prop_j = inr p_j ->
  Parameter_Name p_i = Parameter_Name p_j ->
  Parameter_In p_i = Parameter_In p_j ->
  (exists err kept,
     snd (parseParametersIn oc in_ mapping st) = Some err
     /\ (length kept <= j)%nat
     /\ Operation_Parameters (oc_Operation (fst (parseParametersIn oc in_ mapping st)))
        = (Operation_Parameters (oc_Operation st) ++ (asParameterOrRef <$> kept))%list)
  /\ ((forall k prop, (k <= j)%nat ->
         offeredProperties oc in_ mapping !! k = Some prop ->
         exists p, describeParameter oc in_ prop = inr p) ->
      exists p kept prop,
        snd (parseParametersIn oc in_ mapping st)
        = Some ("parameter " ++ Parameter_Name p ++ " in "
                ++ ParameterIn_string (Parameter_In p) ++ " is already defined")
        /\ offeredProperties oc in_ mapping !! length kept = Some prop
        /\ describeParameter oc in_ prop = inr p
        /\ alreadyExists p (Operation_Parameters (oc_Operation st)
                            ++ (asParameterOrRef <$> kept)) = true
        /\ Forall2 (fun prop p => describeParameter oc in_ prop = inr p)
                   (take (length kept) (offeredProperties oc in_ mapping)) kept
        /\ Operation_Parameters
             (oc_Operation (fst (parseParametersIn oc in_ mapping st)))
           = (Operation_Parameters (oc_Operation st)
              ++ (asParameterOrRef <$> kept))%list
        /\ Operation_MapOfAnything
             (oc_Operation (fst (parseParametersIn oc in_ mapping st)))
           = Operation_MapOfAnything (oc_Operation st)).
Proof.
  intros Hslice Hij Hi Hj Hdi Hdj HName HIn.
  destruct (parseParametersIn oc in_ mapping st) as [st' e] eqn:Hrun.
  apply parseParametersIn_outcome in Hrun
    as (_ & ds & Hall & Hparams & _ & _ & Hfresh & He).
  specialize (He Hslice). simpl.
  assert (Hlen : (length ds <= j)%nat).
  { destruct (decide (length ds <= j)%nat) as [|Hgt]; [done|]. exfalso.
    assert (Hj' : take (length ds) (offeredProperties oc in_ mapping) !! j
                  = Some prop_j) by (rewrite lookup_take_lt; [done|lia]).
    assert (Hi' : take (length ds) (offeredProperties oc in_ mapping) !! i
                  = Some prop_i) by (rewrite lookup_take_lt; [done|lia]).
    destruct (Forall2_lookup_l _ _ _ _ _ Hall Hj') as (q_j & Hqj & Hdqj).
    destruct (Forall2_lookup_l _ _ _ _ _ Hall Hi') as (q_i & Hqi & Hdqi).
    rewrite Hdj in Hdqj. rewrite Hdi in Hdqi.
    injection Hdqj as <-. injection Hdqi as <-.
    by apply (appended_distinct st ds i j p_i p_j). }
  pose proof (lookup_lt_Some _ _ _ Hj) as Hjlt.
  destruct e as [err|]; [|lia]. split.
  - by exists err, ds.
  - intros Hres.
    destruct He as [Hmarker [(prop & Hprop & Hwhy)|[Hfull _]]]; [|lia].
    destruct Hwhy as [Hfail|(p & Hp & -> & Hex)].
    + destruct (Hres _ _ Hlen Hprop) as (p & Hp). congruence.
    + exists p, ds, prop. repeat (split; [done|]). done.
Qed.


(** C8. [parseParametersIn] for the path location appends a descriptor for
    every offered property, up to the first one that cannot be described
    or is already defined (all of them when it returns nil), and each
    appended descriptor is what [refl.PopulateFieldsFromTags] made of the
    draft with [Required] then set to true: whatever the field's tags say,
    its [Required] is true. *)
Theorem path_parameters_are_required oc mapping st :
  exists added,
    Operation_Parameters
      (oc_Operation (fst (parseParametersIn oc ParameterInPath mapping st)))
    = (Operation_Parameters (oc_Operation st) ++ (asParameterOrRef <$> added))%list
    /\ Forall2
         (fun prop p =>
            describeParameter oc ParameterInPath prop = inr p
            /\ Parameter_Required p = Some true
            /\ exists draft populated,
                 refl_PopulateFieldsFromTags_Parameter draft
                   (StructField_Tag (snd (fst prop))) = inr populated
                 /\ p = Parameter_WithRequired true populated)
         (take (length added) (offeredProperties oc ParameterInPath mapping)) added
    /\ (refl_IsSliceOrMap (Input oc) = false ->
        length added = length (offeredProperties oc ParameterInPath mapping)
        \/ exists prop err,
             offeredProperties oc ParameterInPath mapping !! length added = Some prop
             /\ snd (parseParametersIn oc ParameterInPath mapping st) = Some err
             /\ (describeParameter oc ParameterInPath prop = inl err
                 \/ exists p,
                      describeParameter oc ParameterInPath prop = inr p
                      /\ alreadyExists p
                           (Operation_Parameters (oc_Operation st)
                            ++ (asParameterOrRef <$> added)) = true)).
Proof.
  destruct (parseParametersIn_progress oc ParameterInPath mapping st)
    as (ds & Hall & Hparams & Hend).
  exists ds. split; [exact Hparams|]. split; [|exact Hend].
  eapply Forall2_impl; [exact Hall|].
  intros [[name field] ps] p Hd. split; [exact Hd|].
  split; [exact (describeParameter_path_required _ _ _ Hd)|].
  unfold describeParameter in Hd. simpl.
  destruct (snd (draftParameter _ _ _ _ _ _)) as [err|draft]; [done|].
  destruct (refl_PopulateFieldsFromTags_Parameter draft (StructField_Tag field))
    as [err|populated] eqn:Hpop; [done|].
  injection Hd as <-. by exists draft, populated.
Qed.

End ParameterClaims.

(** ** Request body *)
Section RequestBodyClaims.
Context {GoValue GoType : Type} {TI : TypeInspector GoValue GoType}.
Implicit Types (oc : OperationContext GoValue) (st : State).

Lemma isBodilessMethod_spec (m : string) :
  isBodilessMethod m = true <-> In m ["GET"; "HEAD"; "DELETE"; "TRACE"].
Proof.
  unfold isBodilessMethod, http_MethodGet, http_MethodHead, http_MethodDelete,
    http_MethodTrace. simpl.
  rewrite !orb_true_iff, !String.eqb_eq. intuition congruence.
Qed.

Lemma Operation_requestContent_WithItem mime mt (o : Operation) :
  Operation_requestContent (Operation_WithRequestBodyContentItem mime mt o)
  = <[mime:=mt]> (Operation_requestContent o).
Proof.
  unfold Operation_requestContent, Operation_WithRequestBodyContentItem,
    Operation_RequestBodyEns, RequestBodyOrRef_RequestBodyEns.
  destruct (Operation_RequestBody o) as [rbo|]; simpl; [|done].
  by destruct (RequestBodyOrRef_RequestBody rbo).
Qed.


(** C3. For a method that upper-cases to GET, HEAD, DELETE or TRACE and an
    input without the [RequestBodyEnforcer] marker, [parseRequestBody]
    returns nil and changes nothing, whatever tags the input carries; with
    the marker it does exactly what it does for a method outside that
    set. *)
Theorem bodiless_method_has_no_request_body oc tag mime httpMethod mapping st :
  In (strings_ToUpper httpMethod) ["GET"; "HEAD"; "DELETE"; "TRACE"] ->
  (implementsRequestBodyEnforcer (Input oc) = false ->
   parseRequestBody oc tag mime httpMethod mapping st = (st, None))
  /\ (implementsRequestBodyEnforcer (Input oc) = true ->
      forall other,
        ~ In (strings_ToUpper other) ["GET"; "HEAD"; "DELETE"; "TRACE"] ->
        parseRequestBody oc tag mime httpMethod mapping st
        = parseRequestBody oc tag mime other mapping st).
Proof.
  intros Hm. apply isBodilessMethod_spec in Hm. split.
  - intros Hno. unfold parseRequestBody. by rewrite Hm, Hno.
  - intros Hforce other Hother.
    assert (Ho : isBodilessMethod (strings_ToUpper other) = false).
    { destruct (isBodilessMethod (strings_ToUpper other)) eqn:E; [|done].
      by apply isBodilessMethod_spec in E. }
    unfold parseRequestBody. by rewrite Hm, Ho, Hforce.
Qed.


End RequestBodyClaims.

(** ** Joining errors *)
Section JoinErrors.

Lemma string_app_cons (x : ascii) (a b : string) :
  String x a ++ b = String x (a ++ b).
Proof. reflexivity. Qed.

Lemma string_app_nil_l (b : string) : "" ++ b = b.
Proof. reflexivity. Qed.

Lemma string_app_nil_r (a : string) : a ++ "" = a.
Proof.
  induction a as [|x a IH]; [done|]. by rewrite string_app_cons, IH.
Qed.

Lemma string_app_assoc (a b c : string) : (a ++ b) ++ c = a ++ (b ++ c).
Proof.
  induction a as [|x a IH]; [done|]. by rewrite !string_app_cons, IH.
Qed.

Lemma joinErrors_fold (errs : list error) (acc : string) :
  fold_left (fun join err =>
               match err with
               | Some msg => join ++ ", " ++ msg
               | None => join
               end) errs acc
  = acc ++ joinTail (messages errs).
Proof.
  revert acc. induction errs as [|[m|] errs IH]; intros acc; simpl.
  - by rewrite string_app_nil_r.
  - rewrite IH. unfold messages; simpl. by rewrite !string_app_assoc.
  - by rewrite IH.
Qed.

Lemma concat_joinTail (m : string) (rest : list string) :
  String.concat ", " (m :: rest) = m ++ joinTail rest.
Proof.
  revert m. induction rest as [|m' rest IH]; intros m.
  - simpl. by rewrite string_app_nil_r.
  - change (String.concat ", " (m :: m' :: rest))
      with (m ++ ", " ++ String.concat ", " (m' :: rest)).
    by rewrite IH.
Qed.

(** [joinErrors] is nil when every error is nil, and otherwise the
    messages of the non-nil errors, in order, separated by a comma and a
    space. *)
Lemma joinErrors_spec (errs : list error) :
  joinErrors errs
  = match messages errs with
    | [] => None
    | msgs => Some (String.concat ", " msgs)
    end.
Proof.
  unfold joinErrors. rewrite joinErrors_fold, string_app_nil_l.
  destruct (messages errs) as [|m rest]; [done|].
  rewrite concat_joinTail. reflexivity.
Qed.

Example joinErrors_sample :
  joinErrors [None; Some "a"; None; Some "b"] = Some "a, b"
  /\ joinErrors [None; None] = None
  /\ strings_ToUpper "get" = "GET"
  /\ index0 (strings_Split "text/csv; charset=utf-8" ";") = "text/csv"
  /\ strings_Title "formData" = "FormData"
  /\ strconv_Itoa 204 = "204".
Proof. vm_compute. repeat split; reflexivity. Qed.

End JoinErrors.

(** ** Request setup *)
Section SetupRequestClaims.
Context {GoValue GoType : Type} {TI : TypeInspector GoValue GoType}.
Implicit Types (oc : OperationContext GoValue) (st : State).

(** C4 (as the code has it). [SetupRequest] runs the four parameter
    extractions and then the two request-body builds, each on the state
    left by the one before and whatever the earlier ones returned, and
    joins the messages of all non-nil errors of the six, in that order,
    into one error; it returns nil only when all six returned nil. *)
Theorem SetupRequest_joins_all_six_errors oc st :
  exists st1 st2 st3 st4 st5 st6 e1 e2 e3 e4 e5 e6,
    parseParametersIn oc ParameterInQuery (ReqQueryMapping oc) st = (st1, e1)
    /\ parseParametersIn oc ParameterInPath (ReqPathMapping oc) st1 = (st2, e2)
    /\ parseParametersIn oc ParameterInCookie (ReqCookieMapping oc) st2 = (st3, e3)
    /\ parseParametersIn oc ParameterInHeader (ReqHeaderMapping oc) st3 = (st4, e4)
    /\ parseRequestBody oc tagJSON mimeJSON (HTTPMethod oc) ∅ st4 = (st5, e5)
    /\ parseRequestBody oc tagFormData mimeFormUrlencoded (HTTPMethod oc)
         (ReqFormDataMapping oc) st5 = (st6, e6)
    /\ SetupRequest oc st
       = (st6, match messages [e1; e2; e3; e4; e5; e6] with
               | [] => None
               | msgs => Some (String.concat ", " msgs)
               end)
    /\ (snd (SetupRequest oc st) = None
        <-> e1 = None /\ e2 = None /\ e3 = None /\ e4 = None /\ e5 = None /\ e6 = None).
Proof.
  unfold SetupRequest.
  destruct (parseParametersIn oc ParameterInQuery _ st) as [st1 e1] eqn:H1.
  destruct (parseParametersIn oc ParameterInPath _ st1) as [st2 e2] eqn:H2.
  destruct (parseParametersIn oc ParameterInCookie _ st2) as [st3 e3] eqn:H3.
  destruct (parseParametersIn oc ParameterInHeader _ st3) as [st4 e4] eqn:H4.
  destruct (parseRequestBody oc tagJSON _ _ _ st4) as [st5 e5] eqn:H5.
  destruct (parseRequestBody oc tagFormData _ _ _ st5) as [st6 e6] eqn:H6.
  exists st1, st2, st3, st4, st5, st6, e1, e2, e3, e4, e5, e6.
  repeat (split; [assumption|]).
  rewrite joinErrors_spec. split; [reflexivity|]. simpl.
  destruct e1, e2, e3, e4, e5, e6; simpl; intuition congruence.
Qed.

End SetupRequestClaims.

(** C4, as stated, fails: a request-body failure is not returned on its
    own. For the input [Sample.clashing] the JSON body build alone returns
    [unsupported type chan], and [SetupRequest] returns it merged with the
    duplicate-parameter error of the query extraction and with the failure
    of the form body build, which still ran. *)
Lemma request_body_failure_is_merged :
  let oc := Sample.request Sample.clashing "POST" in
  snd (parseParametersIn oc ParameterInQuery (ReqQueryMapping oc) Sample.start)
  = Some "parameter q in query is already defined"
  /\ (forall st, snd (parseRequestBody oc tagJSON mimeJSON "POST" ∅ st)
                 = Some "unsupported type chan")
  /\ snd (SetupRequest oc Sample.start)
     = Some ("parameter q in query is already defined, "
             ++ "unsupported type chan, unsupported type chan")
  /\ snd (SetupRequest oc Sample.start) <> Some "unsupported type chan".
Proof.
  simpl. split; [by vm_compute|]. split; [intros st; by vm_compute|].
  split; [by vm_compute|]. by vm_compute.
Qed.

(** ** Responses *)
Section ResponseFacts.
Context {GoValue GoType : Type} {TI : TypeInspector GoValue GoType}.
Implicit Types (oc : OperationContext GoValue) (st : State) (resp : Response).

Lemma split_first_cons (c sep : ascii) (r : string) :
  index0 (strings_Split (String c r) sep)
  = if Ascii.eqb c sep then "" else String c (index0 (strings_Split r sep)).
Proof.
  simpl. destruct (Ascii.eqb c sep); [done|].
  by destruct (strings_Split r sep).
Qed.

(** [strings.Split(s, sep)[0]] is the part of [s] before the first
    separator: what follows it in [s] is nothing or starts with the
    separator, and it holds no separator itself. *)
Lemma split_first_spec (s : string) (sep : ascii) :
  (exists rest,
     s = index0 (strings_Split s sep) ++ rest
     /\ (rest = "" \/ exists tail, rest = String sep tail))
  /\ (forall a b, index0 (strings_Split s sep) <> a ++ String sep b).
Proof.
  induction s as [|c r [(rest & Hr & Hrest) Hno]].
  - split; [exists ""; split; [done|by left]|].
    intros [|x a] b; discriminate.
  - rewrite split_first_cons. destruct (Ascii.eqb c sep) eqn:Hc.
    + apply Ascii.eqb_eq in Hc as ->. split.
      * exists (String sep r). split; [done|]. right. by exists r.
      * intros [|x a] b; discriminate.
    + split.
      * exists rest. split; [|done]. rewrite string_app_cons. by f_equal.
      * intros [|x a] b Heq.
        -- rewrite string_app_nil_l in Heq. injection Heq as -> _.
           by rewrite Ascii.eqb_refl in Hc.
        -- rewrite string_app_cons in Heq. injection Heq as _ Heq.
           by apply (Hno a b).
Qed.

(** The schema a successful reflection returns is the walk's root
    schema. *)
Lemma Reflect_result_schema {S : Type} i opts onProperty onDefinition (s s' : S) schema :
  Reflector_Reflect i opts onProperty onDefinition s = (s', inr schema) ->
  schema = Walk_Schema (jsonschema_Reflect i opts).
Proof.
  unfold Reflector_Reflect.
  destruct onProperty as [cb|];
    [destruct (interceptProperties cb _ s) as [s1 [e|]]; [by intros [=]|]|];
    (destruct (Walk_Err _); intros [=]; done).
Qed.

Lemma parseJSONResponse_outcome resp oc st st1 resp1 e :
  parseJSONResponse resp oc st = (st1, resp1, e) ->
  State_registry st ⊆ State_registry st1
  /\ oc_Operation st1 = oc_Operation st
  /\ Response_Headers resp1 = Response_Headers resp
  /\ (hasJSONBody (Output oc) = inr false -> resp1 = resp /\ e = None)
  /\ (forall key, is_Some (Response_Content resp1 !! key) ->
        is_Some (Response_Content resp !! key)
        \/ key = if String.eqb (RespContentType oc) "" then mimeJSON
                 else RespContentType oc)
  /\ (Response_Description resp1 = Response_Description resp
      \/ Response_Description resp = ""
         /\ jsonschema.Description (responseBodySchema oc)
            = Some (Response_Description resp1)).
Proof.
  unfold parseJSONResponse.
  destruct (hasJSONBody (Output oc)) as [err|[|]] eqn:Hhas.
  3: { intros [= <- <- <-]. repeat (split; [done|]). split; [by left|by left]. }
  all: destruct (Reflect_collect_state (Output oc) (responseBodyOptions oc) st)
         as [Hreg Hop];
       destruct (Reflector_Reflect (Output oc) (responseBodyOptions oc) None
                   (Some collectDefinition) st) as [s1 [err'|schema]] eqn:Hrefl;
       simpl in Hreg, Hop;
       [intros [= <- <- <-]; repeat (split; [done|]); split; by left|].
  all: apply Reflect_result_schema in Hrefl;
       fold (responseBodySchema oc) in Hrefl; subst schema; cbv zeta;
       assert (Hkeys : forall key m,
                 is_Some (<[(if String.eqb (RespContentType oc) "" then mimeJSON
                             else RespContentType oc) := m]>
                            (Response_Content resp) !! key) ->
                 is_Some (Response_Content resp !! key)
                 \/ key = if String.eqb (RespContentType oc) "" then mimeJSON
                          else RespContentType oc)
         by (intros key m Hk;
             destruct (decide ((if String.eqb (RespContentType oc) "" then mimeJSON
                                else RespContentType oc) = key)) as [<-|Hne];
             [by right|]; rewrite lookup_insert_ne in Hk; [by left|done]);
       destruct (jsonschema.Description (responseBodySchema oc)) as [d|] eqn:Hd;
       [simpl; destruct (String.eqb (Response_Description resp) "") eqn:Hempty|];
       intros [= <- <- <-]; simpl;
       repeat (split; [done|]); (split; [by eauto|]);
       first [by left | right; by apply String.eqb_eq in Hempty].
Qed.

Lemma parseResponseHeader_outcome resp oc resp2 :
  parseResponseHeader resp oc = Some (resp2, None) ->
  Response_Content resp2 = Response_Content resp
  /\ (Response_Description resp2 = Response_Description resp
      \/ Response_Description resp = ""
         /\ jsonschema.Description (responseHeaderSchema oc)
            = Some (Response_Description resp2)).
Proof.
  unfold parseResponseHeader.
  destruct (Reflector_Reflect (Output oc)
              (responseHeaderOptions oc (RespHeaderMapping oc))
              (Some interceptHeader) None (Some ∅))
    as [[res|] [err|schema]] eqn:Hrefl; try done.
  apply Reflect_result_schema in Hrefl. fold (responseHeaderSchema oc) in Hrefl.
  subst schema.
  destruct (jsonschema.Description (responseHeaderSchema oc)) as [d|] eqn:Hd;
    [simpl; destruct (String.eqb (Response_Description resp) "") eqn:Hempty|];
    intros [= <-]; simpl; (split; [done|]);
    first [by left | right; by apply String.eqb_eq in Hempty].
Qed.

Lemma ensureResponseContentType_outcome resp ct :
  is_Some (Response_Content (ensureResponseContentType resp ct) !! ct)
  /\ Response_Description (ensureResponseContentType resp ct)
     = Response_Description resp
  /\ (forall key,
        is_Some (Response_Content (ensureResponseContentType resp ct) !! key) ->
        is_Some (Response_Content resp !! key) \/ key = ct)
  /\ (Response_Content resp !! ct = None ->
      Response_Content (ensureResponseContentType resp ct)
      = <[ct := emptySchemaMediaType]> (Response_Content resp)).
Proof.
  unfold ensureResponseContentType.
  destruct (Response_Content resp !! ct) as [m|] eqn:Hct; simpl.
  - rewrite Hct. repeat (split; [by eauto|]). done.
  - rewrite lookup_insert_eq. repeat (split; [by eauto|]). split; [|done].
    intros key Hk. destruct (decide (ct = key)) as [<-|Hne]; [by right|].
    rewrite lookup_insert_ne in Hk; [by left|done].
Qed.

Lemma storeResponse_outcome oc resp st :
  builtResponse (storeResponse oc resp st) oc
  = Some (if String.eqb (Response_Description resp) ""
          then Response_withDescription (http_StatusText (HTTPStatus oc)) resp
          else resp)
  /\ State_registry (storeResponse oc resp st) = State_registry st.
Proof.
  unfold builtResponse, storeResponse. simpl. rewrite lookup_insert_eq.
  split; reflexivity.
Qed.

Lemma fallback_content (d : string) resp :
  Response_Content
    (if String.eqb (Response_Description resp) ""
     then Response_withDescription d resp else resp)
  = Response_Content resp.
Proof. by destruct (String.eqb (Response_Description resp) ""). Qed.

(** The successful run of [SetupResponse] on a present output, step by
    step. *)
Lemma SetupResponse_present oc st st' v :
  Output oc = Some v ->
  SetupResponse oc st = Some (st', None) ->
  exists st1 resp1 resp2,
    parseJSONResponse Response_empty (strippedContext oc) st = (st1, resp1, None)
    /\ parseResponseHeader resp1 (strippedContext oc) = Some (resp2, None)
    /\ st' = storeResponse (strippedContext oc)
               (if negb (String.eqb (strippedContentType oc) "")
                then ensureResponseContentType resp2 (strippedContentType oc)
                else resp2) st1.
Proof.
  intros Hout. unfold SetupResponse. rewrite Hout.
  fold (strippedContentType oc). fold (strippedContext oc).
  destruct (parseJSONResponse Response_empty (strippedContext oc) st)
    as [[st1 resp1] [err|]] eqn:Hbody; [by intros [=]|].
  destruct (parseResponseHeader resp1 (strippedContext oc))
    as [[resp2 [err|]]|] eqn:Hhead; [by intros [=]| |by intros [=]].
  intros [= <-]. exists st1, resp1, resp2.
  split; [reflexivity|]. split; [exact Hhead|reflexivity].
Qed.

Lemma SetupResponse_grows oc st st' e :
  SetupResponse oc st = Some (st', e) ->
  State_registry st ⊆ State_registry st'.
Proof.
  unfold SetupResponse. destruct (Output oc) as [v|].
  - destruct (parseJSONResponse _ _ st) as [[st1 resp1] e1] eqn:Hbody.
    apply parseJSONResponse_outcome in Hbody as (Hreg & _).
    destruct e1 as [err|]; [by intros [= <- <-]|].
    destruct (parseResponseHeader resp1 _) as [[resp2 [err|]]|];
      [by intros [= <- <-]| |by intros [=]].
    intros [= <- <-].
    by rewrite (proj2 (storeResponse_outcome _ _ _)).
  - intros [= <- <-]. by rewrite (proj2 (storeResponse_outcome _ _ _)).
Qed.

(** [parseJSONResponse] on an output with a meaningful schema. *)
Lemma parseJSONResponse_meaningful resp oc st st1 resp1 :
  hasJSONBody (Output oc) <> inr false ->
  parseJSONResponse resp oc st = (st1, resp1, None) ->
  Response_Content resp1
  = <[(if String.eqb (RespContentType oc) "" then mimeJSON else RespContentType oc)
      := responseBodyMediaType oc]> (Response_Content resp).
Proof.
  intros Hhas. unfold parseJSONResponse.
  assert (Hrun :
    match
      Reflector_Reflect (Output oc) (responseBodyOptions oc) None
        (Some collectDefinition) st
    with
    | (s1, inl err) => (s1, resp, Some err)
    | (s1, inr schema) =>
        let oaiSchema := FromJSONSchema (jsonschema.ToSchemaOrBool schema) in
        let oaiSchema :=
          match SchemaOrRef_Schema oaiSchema with
          | Some sc => mkSchemaOrRef (Some (Schema_clearNullable sc))
                                     (SchemaOrRef_SchemaReference oaiSchema)
          | None => oaiSchema
          end in
        let contentType :=
          if String.eqb (RespContentType oc) "" then mimeJSON
          else RespContentType oc in
        let resp' :=
          mkResponse (Response_Description resp) (Response_Headers resp)
            (<[contentType := mkMediaType (Some oaiSchema) None]>
               (Response_Content resp)) in
        match jsonschema.Description schema with
        | Some d =>
            if String.eqb (Response_Description resp') ""
            then (s1, Response_withDescription d resp', None)
            else (s1, resp', None)
        | None => (s1, resp', None)
        end
    end = (st1, resp1, None) ->
    Response_Content resp1
    = <[(if String.eqb (RespContentType oc) "" then mimeJSON
         else RespContentType oc) := responseBodyMediaType oc]>
        (Response_Content resp)).
  { destruct (Reflector_Reflect (Output oc) (responseBodyOptions oc) None
                (Some collectDefinition) st) as [s1 [err|schema]] eqn:Hrefl;
      [done|].
    apply Reflect_result_schema in Hrefl. fold (responseBodySchema oc) in Hrefl.
    subst schema. cbv zeta. unfold responseBodyMediaType.
    destruct (jsonschema.Description (responseBodySchema oc)) as [d|];
      [simpl; destruct (String.eqb (Response_Description resp) "")|];
      by intros [= <- <-]. }
  destruct (hasJSONBody (Output oc)) as [err|[|]]; [exact Hrun|exact Hrun|done].
Qed.

Lemma string_app_self_nil (s r : string) : s = s ++ r -> r = "".
Proof.
  induction s as [|a s IH].
  - by rewrite string_app_nil_l.
  - rewrite string_app_cons. intros [= H]. by apply IH.
Qed.

End ResponseFacts.

Section ResponseClaims.
Context {GoValue GoType : Type} {TI : TypeInspector GoValue GoType}.
Implicit Types (oc : OperationContext GoValue) (st : State).

(** C5. With a nil output, [SetupResponse] returns nil and stores under the
    status code a response with no content, no headers and the description
    [http.StatusText(status)]. For any output, the stored description is
    that status text unless the body or the header reflection supplied a
    non-empty description of its root schema. *)
Theorem absent_output_gives_status_text oc st :
  (Output oc = None ->
   exists st',
     SetupResponse oc st = Some (st', None)
     /\ builtResponse st' oc
        = Some (mkResponse (http_StatusText (HTTPStatus oc)) ∅ ∅))
  /\ (forall st',
        SetupResponse oc st = Some (st', None) ->
        exists r,
          builtResponse st' oc = Some r
          /\ (Response_Description r = http_StatusText (HTTPStatus oc)
              \/ Response_Description r <> ""
                 /\ (jsonschema.Description (responseBodySchema (strippedContext oc))
                     = Some (Response_Description r)
                     \/ jsonschema.Description
                          (responseHeaderSchema (strippedContext oc))
                        = Some (Response_Description r)))).
Proof.
  split.
  - intros Hout. unfold SetupResponse. rewrite Hout. eexists. split; [reflexivity|].
    by rewrite (proj1 (storeResponse_outcome _ _ _)).
  - intros st' Hrun. destruct (Output oc) as [v|] eqn:Hout.
    + destruct (SetupResponse_present _ _ _ _ Hout Hrun)
        as (st1 & resp1 & resp2 & Hbody & Hhead & ->).
      apply parseJSONResponse_outcome in Hbody as (_ & _ & _ & _ & _ & Hd1).
      apply parseResponseHeader_outcome in Hhead as (_ & Hd2).
      change (builtResponse
                (storeResponse (strippedContext oc)
                   (if negb (String.eqb (strippedContentType oc) "")
                    then ensureResponseContentType resp2 (strippedContentType oc)
                    else resp2) st1) oc)
        with (builtResponse
                (storeResponse (strippedContext oc)
                   (if negb (String.eqb (strippedContentType oc) "")
                    then ensureResponseContentType resp2 (strippedContentType oc)
                    else resp2) st1) (strippedContext oc)).
      rewrite (proj1 (storeResponse_outcome _ _ _)).
      eexists. split; [reflexivity|].
      assert (Hsame : Response_Description
                        (if negb (String.eqb (strippedContentType oc) "")
                         then ensureResponseContentType resp2 (strippedContentType oc)
                         else resp2) = Response_Description resp2).
      { destruct (negb _); [|done].
        by destruct (ensureResponseContentType_outcome resp2 (strippedContentType oc))
          as (_ & -> & _). }
      set (resp3 := if negb (String.eqb (strippedContentType oc) "")
                    then ensureResponseContentType resp2 (strippedContentType oc)
                    else resp2) in *.
      destruct (String.eqb (Response_Description resp3) "") eqn:Hempty;
        [left; reflexivity|].
      rewrite Hsame in Hempty |- *. apply String.eqb_neq in Hempty.
      right. split; [done|].
      destruct Hd2 as [Hkeep|[_ Hd2]]; [|by right].
      rewrite Hkeep in Hempty |- *.
      destruct Hd1 as [Hkeep1|[_ Hd1]]; [|by left].
      by rewrite Hkeep1 in Hempty.
    + unfold SetupResponse in Hrun. rewrite Hout in Hrun.
      injection Hrun as <-. rewrite (proj1 (storeResponse_outcome _ _ _)).
      eexists. split; [reflexivity|]. left. reflexivity.
Qed.

(** C9 (as the code has it). With a present output and a requested content
    type that is non-empty before its first semicolon, a response build
    that returns nil stores a content entry under that part of the content
    type; when the output's schema is trivial, it is the only entry and
    holds an empty schema. With a nil output the stored response has no
    content at all, whatever content type was requested. *)
Theorem requested_content_type_is_advertised oc st st' :
  SetupResponse oc st = Some (st', None) ->
  exists r,
    builtResponse st' oc = Some r
    /\ (Output oc <> None -> strippedContentType oc <> "" ->
        is_Some (Response_Content r !! strippedContentType oc)
        /\ (hasJSONBody (Output oc) = inr false ->
            Response_Content r = {[ strippedContentType oc := emptySchemaMediaType ]}))
    /\ (Output oc = None -> Response_Content r = ∅).
Proof.
  intros Hrun. destruct (Output oc) as [v|] eqn:Hout.
  - destruct (SetupResponse_present _ _ _ _ Hout Hrun)
      as (st1 & resp1 & resp2 & Hbody & Hhead & ->).
    apply parseJSONResponse_outcome in Hbody as (_ & _ & _ & Htrivial & _ & _).
    apply parseResponseHeader_outcome in Hhead as (Hc2 & _).
    change (builtResponse
              (storeResponse (strippedContext oc)
                 (if negb (String.eqb (strippedContentType oc) "")
                  then ensureResponseContentType resp2 (strippedContentType oc)
                  else resp2) st1) oc)
      with (builtResponse
              (storeResponse (strippedContext oc)
                 (if negb (String.eqb (strippedContentType oc) "")
                  then ensureResponseContentType resp2 (strippedContentType oc)
                  else resp2) st1) (strippedContext oc)).
    rewrite (proj1 (storeResponse_outcome _ _ _)).
    eexists. split; [reflexivity|]. rewrite fallback_content.
    split; [|done].
    intros _ Hct. apply String.eqb_neq in Hct. rewrite Hct. simpl negb. cbv iota.
    destruct (ensureResponseContentType_outcome resp2 (strippedContentType oc))
      as (Hin & _ & _ & Hnew).
    split; [done|].
    intros Htriv. change (Output (strippedContext oc)) with (Output oc) in Htrivial.
    rewrite Hout in Htrivial. destruct (Htrivial Htriv) as [-> _].
    rewrite Hnew; rewrite Hc2; simpl; [|done]. by rewrite insert_empty.
  - unfold SetupResponse in Hrun. rewrite Hout in Hrun.
    injection Hrun as <-. rewrite (proj1 (storeResponse_outcome _ _ _)).
    eexists. split; [reflexivity|]. rewrite fallback_content. done.
Qed.

(** C10. With a non-nil output, the requested content type cut before its
    first semicolon is what keys the stored response's content map: the
    cut part is a prefix of the requested type, holds no semicolon, and
    what it drops is nothing or starts with the semicolon; when it is not
    empty it is a key of the map, when it is empty and the output has a
    meaningful schema [application/json] is; the map has no other key, so
    a requested type with media-type parameters is itself never a key. *)
Theorem content_type_parameters_are_dropped oc st st' v :
  Output oc = Some v ->
  SetupResponse oc st = Some (st', None) ->
  exists r rest,
    builtResponse st' oc = Some r
    /\ RespContentType oc = strippedContentType oc ++ rest
    /\ (rest = "" \/ exists tail, rest = ";" ++ tail)
    /\ (forall a b, strippedContentType oc <> a ++ ";" ++ b)
    /\ (forall key,
          is_Some (Response_Content r !! key) ->
          key = strippedContentType oc
          \/ strippedContentType oc = "" /\ key = mimeJSON)
    /\ (strippedContentType oc <> "" ->
        is_Some (Response_Content r !! strippedContentType oc))
    /\ (strippedContentType oc = "" -> hasJSONBody (Output oc) <> inr false ->
        is_Some (Response_Content r !! mimeJSON))
    /\ (rest <> "" -> Response_Content r !! RespContentType oc = None).
Proof.
  intros Hout Hrun.
  destruct (SetupResponse_present _ _ _ _ Hout Hrun)
    as (st1 & resp1 & resp2 & Hbody & Hhead & ->).
  assert (Hmeaningful := fun H =>
            parseJSONResponse_meaningful Response_empty (strippedContext oc)
              st st1 resp1 H Hbody).
  apply parseJSONResponse_outcome in Hbody as (_ & _ & _ & _ & Hkeys & _).
  apply parseResponseHeader_outcome in Hhead as (Hc2 & _).
  change (builtResponse
            (storeResponse (strippedContext oc)
               (if negb (String.eqb (strippedContentType oc) "")
                then ensureResponseContentType resp2 (strippedContentType oc)
                else resp2) st1) oc)
    with (builtResponse
            (storeResponse (strippedContext oc)
               (if negb (String.eqb (strippedContentType oc) "")
                then ensureResponseContentType resp2 (strippedContentType oc)
                else resp2) st1) (strippedContext oc)).
  rewrite (proj1 (storeResponse_outcome _ _ _)).
  destruct (split_first_spec (RespContentType oc) ";") as [(rest & Hrest & Hshape) Hno].
  eexists. exists rest. split; [reflexivity|]. split; [exact Hrest|].
  split; [exact Hshape|]. split; [exact Hno|].
  rewrite fallback_content.
  assert (Hfrom2 : forall key, is_Some (Response_Content resp2 !! key) ->
            key = strippedContentType oc
            \/ strippedContentType oc = "" /\ key = mimeJSON).
  { intros key. rewrite Hc2. intros Hk. apply Hkeys in Hk as [Hk|Hk].
    - simpl in Hk. rewrite lookup_empty in Hk. by destruct Hk.
    - change (RespContentType (strippedContext oc))
        with (strippedContentType oc) in Hk.
      destruct (String.eqb (strippedContentType oc) "") eqn:Hempty; [|by left].
      apply String.eqb_eq in Hempty. by right. }
  assert (Hbound : forall key,
            is_Some (Response_Content
                       (if negb (String.eqb (strippedContentType oc) "")
                        then ensureResponseContentType resp2 (strippedContentType oc)
                        else resp2) !! key) ->
            key = strippedContentType oc
            \/ strippedContentType oc = "" /\ key = mimeJSON).
  { intros key Hkey'. destruct (negb _); [|by apply Hfrom2].
    destruct (ensureResponseContentType_outcome resp2 (strippedContentType oc))
      as (_ & _ & Hens & _).
    apply Hens in Hkey' as [Hk|Hk]; [by apply Hfrom2|by left]. }
  split; [exact Hbound|]. split; [|split].
  - intros Hct. apply String.eqb_neq in Hct. rewrite Hct. simpl negb. cbv iota.
    apply ensureResponseContentType_outcome.
  - intros Hct Hhas. rewrite Hct. simpl negb. cbv iota. rewrite Hc2.
    change (Output (strippedContext oc)) with (Output oc) in Hmeaningful.
    rewrite (Hmeaningful Hhas).
    change (RespContentType (strippedContext oc)) with (strippedContentType oc).
    rewrite Hct. simpl. by rewrite lookup_insert_eq.
  - intros Hcut.
    destruct (Response_Content _ !! RespContentType oc) as [m|] eqn:Hm; [|done].
    exfalso. destruct (Hbound (RespContentType oc)) as [Hk|[Hempty Hk]].
    + by rewrite Hm.
    + apply Hcut, (string_app_self_nil (strippedContentType oc)).
      etrans; [symmetry; exact Hk|exact Hrest].
    + change (RespContentType oc = strippedContentType oc ++ rest) in Hrest.
      rewrite Hempty, string_app_nil_l in Hrest. rewrite Hrest in Hk.
      destruct Hshape as [->|[tail ->]]; [done|].
      unfold mimeJSON in Hk. discriminate Hk.
Qed.

End ResponseClaims.

(** ** The registry across the builders *)
Section RegistryClaims.
Context {GoValue GoType : Type} {TI : TypeInspector GoValue GoType}.
Implicit Types (oc : OperationContext GoValue) (st : State).

(** C1 (as the code has it). [collectDefinition] is first-write-wins: on a
    name that already has an entry it leaves the whole registry as it is,
    and on a new name it inserts the converted fragment. Parameter
    extraction and response building write named schemas through it only,
    so an existing entry survives them. The request-body builder does not
    go through it: it assigns every definition of its reflected schema
    under the prefixed name, so an existing entry of that name is
    replaced. The registry is a map: a name has one entry at any time. *)
Theorem registry_first_write_wins name x st :
  State_registry st !! name = Some x ->
  (forall schema,
     State_registry (collectDefinition name schema st) = State_registry st)
  /\ (forall other schema,
        State_registry st !! other = None ->
        State_registry (collectDefinition other schema st)
        = <[other := FromJSONSchema (jsonschema.ToSchemaOrBool schema)]>
            (State_registry st))
  /\ (forall oc in_ mapping,
        State_registry (fst (parseParametersIn oc in_ mapping st)) !! name = Some x)
  /\ (forall oc st' e,
        SetupResponse oc st = Some (st', e) -> State_registry st' !! name = Some x)
  /\ (forall prefix defs n d,
        NoDup (map fst defs) -> In (n, d) defs -> prefix ++ n = name ->
        State_registry (publishDefinitions prefix defs st) !! name
        = Some (FromJSONSchema d)).
Proof.
  intros Hx. split; [|split; [|split; [|split]]].
  - intros schema. by eapply collectDefinition_present.
  - intros other schema Hnone. by apply collectDefinition_absent.
  - intros oc in_ mapping.
    destruct (parseParametersIn oc in_ mapping st) as [st' e] eqn:Hrun.
    apply parseParametersIn_outcome in Hrun as (Hreg & _).
    by eapply lookup_weaken.
  - intros oc st' e Hrun. apply SetupResponse_grows in Hrun.
    by eapply lookup_weaken.
  - intros prefix defs n d Hnd Hin <-.
    apply publishDefinitions_assigns; [done|]. by apply list_elem_of_In.
Qed.

End RegistryClaims.

(** * The claims on concrete inputs *)

(** C1, as stated, fails for the request-body builder. A response build
    registers the schema of [Sample.account] under [Account]; the request
    body of a second type with the same definition name then replaces that
    entry. *)
Lemma request_body_replaces_registry_entry :
  exists st1 st2 a b,
    SetupResponse (Sample.response (Some Sample.account) 200 "") Sample.start
    = Some (st1, None)
    /\ SetupRequest (Sample.request Sample.accountUpdate "POST") st1 = (st2, None)
    /\ State_registry st1 !! "Account" = Some a
    /\ State_registry st2 !! "Account" = Some b
    /\ Schema_Properties <$> SchemaOrRef_Schema a
       = Some [("name", mkSchemaOrRef
                          (Some (mkOASchema (Some "string") None None None None []))
                          None)]
    /\ Schema_Properties <$> SchemaOrRef_Schema b
       = Some [("id", mkSchemaOrRef
                        (Some (mkOASchema (Some "integer") None None None None []))
                        None)]
    /\ a <> b.
Proof.
  eexists _, _, _, _.
  split; [vm_compute; reflexivity|].
  split; [vm_compute; reflexivity|].
  split; [vm_compute; reflexivity|].
  split; [vm_compute; reflexivity|].
  split; [reflexivity|]. split; [reflexivity|]. discriminate.
Qed.

Lemma registry_first_write_wins_witness :
  State_registry Sample.registered !! "Account"
  = Some (mkSchemaOrRef (Some Schema_empty) None)
  /\ (forall schema,
        State_registry (collectDefinition "Account" schema Sample.registered)
        = State_registry Sample.registered)
  /\ (forall oc in_ mapping,
        State_registry (fst (parseParametersIn oc in_ mapping Sample.registered))
          !! "Account"
        = Some (mkSchemaOrRef (Some Schema_empty) None))
  /\ (forall d,
        State_registry (publishDefinitions "" [("Account", d)] Sample.registered)
          !! "Account"
        = Some (FromJSONSchema d)).
Proof.
  assert (H : State_registry Sample.registered !! "Account"
              = Some (mkSchemaOrRef (Some Schema_empty) None))
    by (vm_compute; reflexivity).
  destruct (registry_first_write_wins "Account" _ Sample.registered H)
    as (H1 & _ & H3 & _ & H5).
  split; [exact H|]. split; [exact H1|]. split; [exact H3|].
  intros d. apply (H5 "" [("Account", d)] "Account" d).
  - apply NoDup_singleton.
  - by left.
  - reflexivity.
Defined.

Lemma duplicate_parameter_is_rejected_witness :
  exists p kept prop,
    snd (parseParametersIn (Sample.request Sample.clashing "GET") ParameterInQuery ∅
           Sample.start)
    = Some ("parameter " ++ Parameter_Name p ++ " in "
            ++ ParameterIn_string (Parameter_In p) ++ " is already defined")
    /\ offeredProperties (Sample.request Sample.clashing "GET") ParameterInQuery ∅
         !! length kept = Some prop
    /\ describeParameter (Sample.request Sample.clashing "GET") ParameterInQuery prop
       = inr p
    /\ alreadyExists p (Operation_Parameters (oc_Operation Sample.start)
                        ++ (asParameterOrRef <$> kept)) = true
    /\ Forall2 (fun prop p =>
                  describeParameter (Sample.request Sample.clashing "GET")
                    ParameterInQuery prop = inr p)
               (take (length kept)
                  (offeredProperties (Sample.request Sample.clashing "GET")
                     ParameterInQuery ∅)) kept
    /\ Operation_Parameters
         (oc_Operation
            (fst (parseParametersIn (Sample.request Sample.clashing "GET")
                    ParameterInQuery ∅ Sample.start)))
       = (Operation_Parameters (oc_Operation Sample.start)
          ++ (asParameterOrRef <$> kept))%list
    /\ Operation_MapOfAnything
         (oc_Operation
            (fst (parseParametersIn (Sample.request Sample.clashing "GET")
                    ParameterInQuery ∅ Sample.start)))
       = Operation_MapOfAnything (oc_Operation Sample.start).
Proof.
  eapply (duplicate_parameter_is_rejected
            (Sample.request Sample.clashing "GET") ParameterInQuery ∅ Sample.start
            0 1).
  - reflexivity.
  - lia.
  - vm_compute. reflexivity.
  - vm_compute. reflexivity.
  - vm_compute. reflexivity.
  - vm_compute. reflexivity.
  - reflexivity.
  - reflexivity.
  - intros [|[|k]] prop Hk Hlook; [| |lia];
      vm_compute in Hlook; injection Hlook as <-;
      eexists; vm_compute; reflexivity.
Defined.

Example duplicate_parameter_message :
  parseParametersIn (Sample.request Sample.clashing "GET") ParameterInQuery ∅
    Sample.start
  = (mkState None
       (mkOperation
          [asParameterOrRef
             (mkParameter "q" ParameterInQuery None None None None None
                (Some (mkSchemaOrRef
                         (Some (mkOASchema (Some "string") None None None None []))
                         None)) ∅ None)]
          None (mkResponses None ∅) ∅),
     Some "parameter q in query is already defined").
Proof. vm_compute. reflexivity. Qed.

Lemma bodiless_method_has_no_request_body_witness :
  parseRequestBody (Sample.request Sample.account "get") tagJSON mimeJSON "get" ∅
    Sample.start
  = (Sample.start, None)
  /\ parseRequestBody (Sample.request Sample.forced "get") tagJSON mimeJSON "get" ∅
       Sample.start
     = parseRequestBody (Sample.request Sample.forced "get") tagJSON mimeJSON "POST" ∅
         Sample.start.
Proof.
  split.
  - apply (bodiless_method_has_no_request_body
             (Sample.request Sample.account "get") tagJSON mimeJSON "get" ∅
             Sample.start).
    + simpl. auto.
    + reflexivity.
  - apply (bodiless_method_has_no_request_body
             (Sample.request Sample.forced "get") tagJSON mimeJSON "get" ∅
             Sample.start).
    + simpl. auto.
    + reflexivity.
    + simpl. intros [H|[H|[H|[H|[]]]]]; discriminate H.
Defined.

Example forced_request_body_is_written :
  Operation_requestContent
    (oc_Operation
       (fst (parseRequestBody (Sample.request Sample.forced "get") tagJSON mimeJSON
               "get" ∅ Sample.start)))
    !! "application/json"
  = Some (mkMediaType
            (Some (mkSchemaOrRef None (Some "#/components/schemas/Account"))) None).
Proof. vm_compute. reflexivity. Qed.

Lemma absent_output_gives_status_text_witness :
  exists st',
    SetupResponse (Sample.response None 204 "") Sample.start = Some (st', None)
    /\ builtResponse st' (Sample.response None 204 "")
       = Some (mkResponse "No Content" ∅ ∅).
Proof.
  exact (proj1 (absent_output_gives_status_text
                  (Sample.response None 204 "") Sample.start) eq_refl).
Defined.


Lemma Sample_populate_keeps :
  @populateKeepsSchemaAndContent _ _ Sample.inspector.
Proof.
  intros p tag p'. simpl. unfold Sample.PopulateParameter.
  destruct (StructTag_Lookup tag "required") as [v|];
    [destruct (Sample.parseBool v)|]; intros [= <-]; done.
Qed.


Lemma path_parameters_are_required_witness :
  exists p,
    Operation_Parameters
      (oc_Operation
         (fst (parseParametersIn (Sample.request Sample.search "GET")
                 ParameterInPath ∅ Sample.start)))
    = [asParameterOrRef p]
    /\ Parameter_Name p = "id"
    /\ Parameter_In p = ParameterInPath
    /\ Parameter_Required p = Some true
    /\ StructTag_Lookup [("path", "id"); ("required", "false")] "required"
       = Some "false".
Proof.
  destruct (path_parameters_are_required
              (Sample.request Sample.search "GET") ∅ Sample.start)
    as (added & Hparams & Hall & Hend).
  assert (Hoffered : length (offeredProperties (Sample.request Sample.search "GET")
                               ParameterInPath ∅) = 1%nat)
    by (vm_compute; reflexivity).
  assert (Hlen : length added = 1%nat).
  { destruct (Hend eq_refl) as [Hlen|(prop & err & _ & Herr & _)].
    - by rewrite Hlen.
    - vm_compute in Herr. discriminate Herr. }
  destruct added as [|p [|q added]]; [discriminate Hlen| |discriminate Hlen].
  exists p. split; [exact Hparams|].
  apply Forall2_cons_1 in Hall as [(Hd & Hreq & _) _].
  split; [|split; [|split; [exact Hreq|reflexivity]]].
  - vm_compute in Hd. by injection Hd as <-.
  - vm_compute in Hd. by injection Hd as <-.
Defined.

Example path_parameter_required_despite_tag :
  Operation_Parameters
    (oc_Operation
       (fst (parseParametersIn (Sample.request Sample.search "GET")
               ParameterInPath ∅ Sample.start)))
  = [asParameterOrRef
       (mkParameter "id" ParameterInPath None (Some true) None None None
          (Some (mkSchemaOrRef
                   (Some (mkOASchema (Some "integer") None None None None []))
                   None)) ∅ None)]
  /\ StructTag_Lookup [("path", "id"); ("required", "false")] "required"
     = Some "false".
Proof. vm_compute. split; reflexivity. Qed.

(** C9, as stated, fails for a nil output: the requested content type is
    not advertised. *)
Lemma absent_output_advertises_no_content_type :
  exists st' r,
    SetupResponse (Sample.response None 200 "text/csv") Sample.start
    = Some (st', None)
    /\ strippedContentType (Sample.response None 200 "text/csv") = "text/csv"
    /\ builtResponse st' (Sample.response None 200 "text/csv") = Some r
    /\ Response_Content r !! "text/csv" = None
    /\ Response_Content r = ∅.
Proof.
  eexists _, _. split; [vm_compute; reflexivity|].
  split; [reflexivity|]. split; [vm_compute; reflexivity|].
  split; reflexivity.
Qed.

Lemma requested_content_type_is_advertised_witness :
  exists st' r,
    SetupResponse (Sample.response (Some Sample.nothing) 200 "text/csv; header=present")
      Sample.start = Some (st', None)
    /\ hasJSONBody (Some Sample.nothing) = inr false
    /\ builtResponse st'
         (Sample.response (Some Sample.nothing) 200 "text/csv; header=present")
       = Some r
    /\ Response_Content r = {[ "text/csv" := emptySchemaMediaType ]}.
Proof.
  assert (Hrun : { st' |
            SetupResponse
              (Sample.response (Some Sample.nothing) 200 "text/csv; header=present")
              Sample.start = Some (st', None) })
    by (eexists; vm_compute; reflexivity).
  destruct Hrun as [st' Hrun].
  destruct (requested_content_type_is_advertised _ _ _ Hrun) as (r & Hr & Hpresent & _).
  exists st', r. split; [exact Hrun|]. split; [reflexivity|]. split; [exact Hr|].
  destruct Hpresent as [_ Htrivial]; [discriminate|discriminate|].
  exact (Htrivial eq_refl).
Defined.

Lemma content_type_parameters_are_dropped_witness :
  exists st' r,
    SetupResponse
      (Sample.response (Some Sample.account) 200 "text/csv; charset=utf-8")
      Sample.start = Some (st', None)
    /\ builtResponse st'
         (Sample.response (Some Sample.account) 200 "text/csv; charset=utf-8")
       = Some r
    /\ (forall key, is_Some (Response_Content r !! key) -> key = "text/csv")
    /\ is_Some (Response_Content r !! "text/csv")
    /\ Response_Content r !! "text/csv; charset=utf-8" = None.
Proof.
  assert (Hrun : { st' |
            SetupResponse
              (Sample.response (Some Sample.account) 200 "text/csv; charset=utf-8")
              Sample.start = Some (st', None) })
    by (eexists; vm_compute; reflexivity).
  destruct Hrun as [st' Hrun].
  destruct (content_type_parameters_are_dropped
              (Sample.response (Some Sample.account) 200 "text/csv; charset=utf-8")
              Sample.start st' Sample.account eq_refl Hrun)
    as (r & rest & Hr & Hrest & _ & _ & Hkeys & Hpresent & _ & Habsent).
  assert (Hcut : strippedContentType
                   (Sample.response (Some Sample.account) 200
                      "text/csv; charset=utf-8") = "text/csv")
    by (vm_compute; reflexivity).
  rewrite Hcut in Hrest, Hkeys, Hpresent.
  exists st', r. split; [exact Hrun|]. split; [exact Hr|]. split; [|split].
  - intros key Hkey. destruct (Hkeys key Hkey) as [->|[Hempty _]].
    + reflexivity.
    + discriminate Hempty.
  - apply Hpresent. discriminate.
  - apply Habsent. intros ->. vm_compute in Hrest. discriminate Hrest.
Defined.

(** * Further properties of [reflect.go] *)

(** ** [joinErrors] *)
Section JoinErrorsMore.

Lemma messages_app (xs ys : list error) :
  messages (xs ++ ys) = (messages xs ++ messages ys)%list.
Proof. unfold messages. apply omap_app. Qed.

Lemma messages_nil_iff (errs : list error) :
  messages errs = [] <-> Forall (fun e => e = None) errs.
Proof.
  induction errs as [|[m|] errs IH]; simpl.
  - split; [constructor|done].
  - split; [done|]. intros H. by inversion H.
  - unfold messages in *. simpl. rewrite IH. split.
    + by constructor.
    + intros H. by inversion H.
Qed.

Lemma joinTail_app (a b : list string) :
  joinTail (a ++ b) = joinTail a ++ joinTail b.
Proof.
  induction a as [|m a IH]; [done|].
  change (joinTail ((m :: a) ++ b)) with (", " ++ m ++ joinTail (a ++ b)).
  change (joinTail (m :: a)) with (", " ++ m ++ joinTail a).
  by rewrite IH, !string_app_assoc.
Qed.

(** X1. [joinErrors] returns nil exactly when every error is nil; otherwise
    its message is the messages of the non-nil errors, in their order,
    separated by a comma and a space, so a single error is returned with
    its message unchanged. *)
Theorem joinErrors_reports_all (errs : list error) :
  (joinErrors errs = None <-> Forall (fun e => e = None) errs)
  /\ joinErrors errs
     = match messages errs with
       | [] => None
       | msgs => Some (String.concat ", " msgs)
       end
  /\ (forall msg, joinErrors [Some msg] = Some msg).
Proof.
  rewrite joinErrors_spec. split; [|split; [done|]].
  - rewrite <- messages_nil_iff. destruct (messages errs); split; done.
  - intros msg. by rewrite joinErrors_spec.
Qed.

(** X2. Joining is flat: the join of two joined groups is the join of all
    their errors. *)
Theorem joinErrors_flattens (xs ys : list error) :
  joinErrors [joinErrors xs; joinErrors ys] = joinErrors (xs ++ ys).
Proof.
  rewrite (joinErrors_spec xs), (joinErrors_spec ys), (joinErrors_spec (xs ++ ys)).
  rewrite messages_app.
  destruct (messages xs) as [|a ra], (messages ys) as [|b rb].
  - reflexivity.
  - reflexivity.
  - rewrite app_nil_r. reflexivity.
  - change (joinErrors [Some (String.concat ", " (a :: ra));
                        Some (String.concat ", " (b :: rb))])
      with (Some (String.concat ", " (a :: ra) ++ ", "
                  ++ String.concat ", " (b :: rb))).
    change ((a :: ra) ++ b :: rb)%list with (a :: (ra ++ b :: rb))%list.
    cbv iota. f_equal.
    rewrite !concat_joinTail, joinTail_app.
    change (joinTail (b :: rb)) with (", " ++ b ++ joinTail rb).
    by rewrite !string_app_assoc.
Qed.

End JoinErrorsMore.

(** ** More on parameter extraction *)
Section ParametersMore.
Context {GoValue GoType : Type} {TI : TypeInspector GoValue GoType}.
Implicit Types (oc : OperationContext GoValue) (st : State).

Lemma ParameterIn_eqb_eq (a b : ParameterIn) :
  ParameterIn_eqb a b = true <-> a = b.
Proof. destruct a, b; simpl; split; congruence. Qed.

Lemma parameterKeys_app (xs ys : list ParameterOrRef) :
  parameterKeys (xs ++ ys) = (parameterKeys xs ++ parameterKeys ys)%list.
Proof. unfold parameterKeys. apply omap_app. Qed.

Lemma alreadyExists_false_iff (p : ParameterObject) (params : list ParameterOrRef) :
  alreadyExists p params = false
  <-> (Parameter_In p, Parameter_Name p) ∉ parameterKeys params.
Proof.
  unfold alreadyExists, parameterKeys.
  induction params as [|[r [q|]] params IH]; simpl.
  - split; [intros _; apply not_elem_of_nil|done].
  - rewrite orb_false_iff, IH, not_elem_of_cons. split.
    + intros [Hq Hrest]. split; [|done]. intros [= HIn HName].
      rewrite <- HIn, <- HName in Hq.
      rewrite String.eqb_refl, (proj2 (ParameterIn_eqb_eq _ _) eq_refl) in Hq.
      discriminate.
    + intros [Hne Hrest]. split; [|done].
      apply not_true_is_false. intros Hq. apply andb_true_iff in Hq as [HIn HName].
      apply ParameterIn_eqb_eq in HIn. apply String.eqb_eq in HName.
      apply Hne. by rewrite HIn, HName.
  - exact IH.
Qed.

Lemma appended_keep_unique (old : list ParameterOrRef) (ds : list ParameterObject) :
  NoDup (parameterKeys old) ->
  (forall j p, ds !! j = Some p ->
     alreadyExists p (old ++ (asParameterOrRef <$> take j ds)) = false) ->
  NoDup (parameterKeys (old ++ (asParameterOrRef <$> ds))).
Proof.
  revert old. induction ds as [|d ds IH]; intros old Hold Hfresh.
  - simpl. by rewrite app_nil_r.
  - change (old ++ (asParameterOrRef <$> d :: ds))%list
      with (old ++ asParameterOrRef d :: (asParameterOrRef <$> ds))%list.
    rewrite (cons_middle (asParameterOrRef d)), app_assoc.
    apply IH.
    + rewrite parameterKeys_app. simpl. apply NoDup_app. split; [done|].
      split; [|apply NoDup_singleton].
      intros k Hk Hk'. apply list_elem_of_singleton in Hk' as ->.
      specialize (Hfresh 0%nat d eq_refl). simpl in Hfresh.
      rewrite app_nil_r in Hfresh. by apply alreadyExists_false_iff in Hfresh.
    + intros j p Hj. specialize (Hfresh (S j) p Hj). simpl in Hfresh.
      by rewrite (cons_middle (asParameterOrRef d)), app_assoc in Hfresh.
Qed.

(** X3. [parseParametersIn] keeps the parameters of the operation unique in
    (location, name): when they are before the call, they are after it,
    whatever it returns. *)
Theorem parseParametersIn_keeps_parameters_unique oc in_ mapping st :
  NoDup (parameterKeys (Operation_Parameters (oc_Operation st))) ->
  NoDup (parameterKeys
           (Operation_Parameters
              (oc_Operation (fst (parseParametersIn oc in_ mapping st))))).
Proof.
  intros Hold.
  destruct (parseParametersIn oc in_ mapping st) as [st' e] eqn:Hrun.
  apply parseParametersIn_outcome in Hrun
    as (_ & ds & _ & Hparams & _ & _ & Hfresh & _).
  simpl. rewrite Hparams. by apply appended_keep_unique.
Qed.

(** [parseParametersIn] on an input that is no slice or map, unfolded into
    the run of its callback, the walk's own outcome, the collection of the
    definitions and the vendor marker. *)
Lemma parseParametersIn_unfold oc in_ mapping st :
  refl_IsSliceOrMap (Input oc) = false ->
  parseParametersIn oc in_ mapping st
  = match interceptProperties (interceptParameter oc in_)
            (offeredProperties oc in_ mapping) st with
    | (st1, Some e) => (st1, Some e)
    | (st1, None) =>
        match Walk_Err (jsonschema_Reflect (Input oc)
                          (parametersOptions oc in_ mapping)) with
        | Some e => (st1, Some e)
        | None =>
            let st2 :=
              collectDefinitions collectDefinition
                (Walk_Definitions (jsonschema_Reflect (Input oc)
                                     (parametersOptions oc in_ mapping))) st1 in
            (if forbidsUnknown (parametersSchema oc in_ mapping)
             then State_withOperation
                    (Operation_WithMapOfAnythingItem
                       (xForbidUnknown ++ ParameterIn_string in_) (AnyBool true)) st2
             else st2, None)
        end
    end.
Proof.
  intros Hslice. unfold parseParametersIn. rewrite Hslice.
  unfold Reflector_Reflect. fold (offeredProperties oc in_ mapping).
  destruct (interceptProperties _ _ st) as [st1 [e|]]; [done|].
  destruct (Walk_Err _) as [e|]; [done|].
  unfold forbidsUnknown, parametersSchema. cbv zeta.
  destruct (jsonschema.AdditionalProperties _) as [ap|]; [|done].
  by destruct (jsonschema.TypeBoolean ap) as [[|]|].
Qed.

(** X4. A successful extraction is complete: when [parseParametersIn]
    returns nil for an input that is no slice or map, the Type Inspector
    itself did not fail and the operation has gained exactly one parameter
    per offered property, in the order of the properties. *)
Theorem parseParametersIn_success_is_complete oc in_ mapping st st' :
  refl_IsSliceOrMap (Input oc) = false ->
  parseParametersIn oc in_ mapping st = (st', None) ->
  Walk_Err (jsonschema_Reflect (Input oc) (parametersOptions oc in_ mapping)) = None
  /\ exists ds,
      Forall2 (fun prop p => describeParameter oc in_ prop = inr p)
              (offeredProperties oc in_ mapping) ds
      /\ Operation_Parameters (oc_Operation st')
         = (Operation_Parameters (oc_Operation st) ++ (asParameterOrRef <$> ds))%list.
Proof.
  intros Hslice Hrun. split.
  - rewrite (parseParametersIn_unfold _ _ _ _ Hslice) in Hrun.
    destruct (interceptProperties _ _ st) as [st1 [e|]]; [done|].
    by destruct (Walk_Err _).
  - apply parseParametersIn_outcome in Hrun
      as (_ & ds & Hall & Hparams & _ & _ & _ & He).
    specialize (He Hslice). simpl in He. exists ds. split; [|done].
    rewrite He, firstn_all in Hall. exact Hall.
Qed.

(** X5. The vendor marker [x-forbid-unknown-LOCATION] is set to true exactly
    when the extraction returns nil and the root schema of the location
    has [additionalProperties: false]; in every other case, and for an
    input that is a slice or a map, the vendor extensions of the operation
    are left as they were. *)
Theorem forbid_unknown_marker oc in_ mapping st :
  Operation_MapOfAnything
    (oc_Operation (fst (parseParametersIn oc in_ mapping st)))
  = if negb (refl_IsSliceOrMap (Input oc))
       && match snd (parseParametersIn oc in_ mapping st) with
          | None => true
          | Some _ => false
          end
       && forbidsUnknown (parametersSchema oc in_ mapping)
    then <["x-forbid-unknown-" ++ ParameterIn_string in_ := AnyBool true]>
           (Operation_MapOfAnything (oc_Operation st))
    else Operation_MapOfAnything (oc_Operation st).
Proof.
  destruct (refl_IsSliceOrMap (Input oc)) eqn:Hslice.
  - unfold parseParametersIn. by rewrite Hslice.
  - rewrite (parseParametersIn_unfold _ _ _ _ Hslice).
    destruct (interceptProperties _ _ st) as [st1 e] eqn:Hrun.
    apply extraction_outcome in Hrun as (_ & ds & _ & Hop & _).
    assert (Hsame : Operation_MapOfAnything (oc_Operation st1)
                    = Operation_MapOfAnything (oc_Operation st))
      by (by rewrite Hop).
    destruct e as [e|]; [done|].
    destruct (Walk_Err _) as [e|]; [done|]. cbv zeta. simpl.
    destruct (forbidsUnknown _); simpl;
      by rewrite collectDefinitions_operation, Hsame.
Qed.

Lemma parameterSchema_strip (ps : jsonschema.Schema) :
  match SchemaOrRef_Schema (FromJSONSchema (jsonschema.ToSchemaOrBool ps)) with
  | Some sc =>
      match Schema_Nullable sc with
      | Some _ =>
          mkSchemaOrRef (Some (Schema_clearNullable sc))
            (SchemaOrRef_SchemaReference
               (FromJSONSchema (jsonschema.ToSchemaOrBool ps)))
      | None => FromJSONSchema (jsonschema.ToSchemaOrBool ps)
      end
  | None => FromJSONSchema (jsonschema.ToSchemaOrBool ps)
  end = parameterSchema ps.
Proof.
  unfold parameterSchema.
  destruct (FromJSONSchema (jsonschema.ToSchemaOrBool ps)) as [[sc|] r]; simpl;
    [|done].
  destruct sc as [t f d [n|] dep props]; done.
Qed.

Lemma applyCollectionFormat_style cf p :
  Parameter_Style p = None -> Parameter_Explode p = None ->
  (cf = "csv" ->
   Parameter_Style (applyCollectionFormat cf p) = Some "form"
   /\ Parameter_Explode (applyCollectionFormat cf p) = Some false)
  /\ (cf = "ssv" ->
      Parameter_Style (applyCollectionFormat cf p) = Some "spaceDelimited"
      /\ Parameter_Explode (applyCollectionFormat cf p) = Some false)
  /\ (cf = "pipes" ->
      Parameter_Style (applyCollectionFormat cf p) = Some "pipeDelimited"
      /\ Parameter_Explode (applyCollectionFormat cf p) = Some false)
  /\ (cf = "multi" ->
      Parameter_Style (applyCollectionFormat cf p) = Some "form"
      /\ Parameter_Explode (applyCollectionFormat cf p) = Some true)
  /\ (~ In cf ["csv"; "ssv"; "pipes"; "multi"] ->
      Parameter_Style (applyCollectionFormat cf p) = None
      /\ Parameter_Explode (applyCollectionFormat cf p) = None).
Proof.
  intros Hs He. split; [|split; [|split; [|split]]].
  1-4: intros ->; split; reflexivity.
  intros Hnot. unfold applyCollectionFormat.
  destruct (String.eqb cf "csv") eqn:E1;
    [apply String.eqb_eq in E1; exfalso; apply Hnot; simpl; auto|].
  destruct (String.eqb cf "ssv") eqn:E2;
    [apply String.eqb_eq in E2; exfalso; apply Hnot; simpl; auto|].
  destruct (String.eqb cf "pipes") eqn:E3;
    [apply String.eqb_eq in E3; exfalso; apply Hnot; simpl; auto|].
  destruct (String.eqb cf "multi") eqn:E4;
    [apply String.eqb_eq in E4; exfalso; apply Hnot; simpl; auto|].
  done.
Qed.

(** The draft of a parameter whose type carries no JSON field tags. *)
Lemma describeParameter_plain oc in_ name field ps p :
  describeParameter oc in_ (name, field, ps) = inr p ->
  isJSONEncoded field = false ->
  exists draft populated,
    refl_PopulateFieldsFromTags_Parameter draft (StructField_Tag field)
    = inr populated
    /\ p = match in_ with
           | ParameterInPath => Parameter_WithRequired true populated
           | _ => populated
           end
    /\ Parameter_Name draft = name
    /\ Parameter_In draft = in_
    /\ Parameter_Description draft = jsonschema.Description ps
    /\ Parameter_Schema draft = Some (parameterSchema ps)
    /\ Parameter_Content draft = ∅
    /\ draft
       = (if isObjectTyped oc in_ field
          then fun q => Parameter_WithExplode true
                          (Parameter_WithStyle QueryParameterStyleDeepObject q)
          else fun q => q)
           (applyCollectionFormat
              (refl_ReadStringTag (StructField_Tag field) "collectionFormat" "")
              (mkParameter name in_ (jsonschema.Description ps) None None None
                 None (Some (parameterSchema ps)) ∅ None)).
Proof.
  unfold describeParameter, isJSONEncoded, draftParameter. intros Hd Henc.
  rewrite Henc in Hd. rewrite parameterSchema_strip in Hd.
  destruct (Reflector_Reflect _ _ None None State_initial) as [s1 r1] eqn:E1.
  apply (f_equal snd) in E1. rewrite Reflect_plain_result in E1. simpl in E1.
  subst r1.
  fold (inlineParameterOptions oc in_) in Hd.
  destruct (Walk_Err _) as [err|] eqn:Herr; [done|]. simpl in Hd.
  fold (isObjectTyped oc in_ field) in Hd.
  match type of Hd with
  | context [refl_PopulateFieldsFromTags_Parameter ?q _] => set (draft := q) in *
  end.
  destruct (refl_PopulateFieldsFromTags_Parameter draft (StructField_Tag field))
    as [err|populated] eqn:Hpop; [done|].
  injection Hd as <-. exists draft, populated. split; [done|]. split; [done|].
  assert (Hframe : forall cf q,
            let d := (if isObjectTyped oc in_ field
                      then Parameter_WithExplode true
                             (Parameter_WithStyle QueryParameterStyleDeepObject
                                (applyCollectionFormat cf q))
                      else applyCollectionFormat cf q) in
            Parameter_Name d = Parameter_Name q
            /\ Parameter_In d = Parameter_In q
            /\ Parameter_Description d = Parameter_Description q
            /\ Parameter_Schema d = Parameter_Schema q
            /\ Parameter_Content d = Parameter_Content q).
  { intros cf q. simpl. unfold applyCollectionFormat.
    destruct (isObjectTyped oc in_ field);
      repeat match goal with |- context [if ?b then _ else _] => destruct b end;
      done. }
  subst draft.
  match goal with
  | |- context [applyCollectionFormat ?cf ?q] =>
      destruct (Hframe cf q) as (H1 & H2 & H3 & H4 & H5)
  end.
  cbv zeta in H1, H2, H3, H4, H5.
  rewrite H1, H2, H3, H4, H5. repeat (split; [done|]).
  by destruct (isObjectTyped oc in_ field).
Qed.

(** X6. [parseParametersIn] appends a descriptor for every offered
    property up to the first one that cannot be described or is already
    defined. A parameter whose type is not a JSON encoded object and
    reflects to an object schema is drafted with style [deepObject] and
    explode true, whatever its [collectionFormat] tag says; otherwise the
    tag decides: [csv] gives form without explode, [ssv] space delimited
    without explode, [pipes] pipe delimited without explode, [multi] form
    with explode, and any other value or no tag leaves both unset. The
    appended descriptor is this draft after
    [refl.PopulateFieldsFromTags]. *)
Theorem parameter_style_of_plain_field oc in_ mapping st :
  exists added,
    Operation_Parameters (oc_Operation (fst (parseParametersIn oc in_ mapping st)))
    = (Operation_Parameters (oc_Operation st) ++ (asParameterOrRef <$> added))%list
    /\ Forall2
         (fun prop p =>
            describeParameter oc in_ prop = inr p
            /\ (isJSONEncoded (snd (fst prop)) = false ->
                exists draft populated,
                  refl_PopulateFieldsFromTags_Parameter draft
                    (StructField_Tag (snd (fst prop))) = inr populated
                  /\ p = match in_ with
                         | ParameterInPath => Parameter_WithRequired true populated
                         | _ => populated
                         end
                  /\ (isObjectTyped oc in_ (snd (fst prop)) = true ->
                      Parameter_Style draft = Some "deepObject"
                      /\ Parameter_Explode draft = Some true)
                  /\ (isObjectTyped oc in_ (snd (fst prop)) = false ->
                      let cf := refl_ReadStringTag (StructField_Tag (snd (fst prop)))
                                  "collectionFormat" "" in
                      (cf = "csv" ->
                       Parameter_Style draft = Some "form"
                       /\ Parameter_Explode draft = Some false)
                      /\ (cf = "ssv" ->
                          Parameter_Style draft = Some "spaceDelimited"
                          /\ Parameter_Explode draft = Some false)
                      /\ (cf = "pipes" ->
                          Parameter_Style draft = Some "pipeDelimited"
                          /\ Parameter_Explode draft = Some false)
                      /\ (cf = "multi" ->
                          Parameter_Style draft = Some "form"
                          /\ Parameter_Explode draft = Some true)
                      /\ (~ In cf ["csv"; "ssv"; "pipes"; "multi"] ->
                          Parameter_Style draft = None
                          /\ Parameter_Explode draft = None))))
         (take (length added) (offeredProperties oc in_ mapping)) added
    /\ (refl_IsSliceOrMap (Input oc) = false ->
        length added = length (offeredProperties oc in_ mapping)
        \/ exists prop err,
             offeredProperties oc in_ mapping !! length added = Some prop
             /\ snd (parseParametersIn oc in_ mapping st) = Some err
             /\ (describeParameter oc in_ prop = inl err
                 \/ exists p,
                      describeParameter oc in_ prop = inr p
                      /\ alreadyExists p
                           (Operation_Parameters (oc_Operation st)
                            ++ (asParameterOrRef <$> added)) = true)).
Proof.
  destruct (parseParametersIn_progress oc in_ mapping st)
    as (ds & Hall & Hparams & Hend).
  exists ds. split; [exact Hparams|]. split; [|exact Hend].
  eapply Forall2_impl; [exact Hall|].
  intros [[name field] ps] p Hd. split; [exact Hd|]. simpl. intros Henc.
  destruct (describeParameter_plain _ _ _ _ _ _ Hd Henc)
    as (draft & populated & Hpop & -> & _ & _ & _ & _ & _ & Hdraft).
  exists draft, populated. split; [done|]. split; [done|].
  rewrite Hdraft. split.
  - intros ->. done.
  - intros ->. by apply applyCollectionFormat_style.
Qed.

(** X7. [parseParametersIn] appends a descriptor for every offered
    property up to the first one that cannot be described or is already
    defined. A parameter whose type is not a JSON encoded object is
    drafted with the name, the location and the description of its
    property, no content, and the converted property schema with
    [Nullable] reset: the schema the draft carries is never nullable. The
    appended descriptor keeps that schema and the empty content, given
    that [refl.PopulateFieldsFromTags] leaves [Schema] and [Content]
    alone. *)
Theorem parameter_schema_is_not_nullable oc in_ mapping st :
  exists added,
    Operation_Parameters (oc_Operation (fst (parseParametersIn oc in_ mapping st)))
    = (Operation_Parameters (oc_Operation st) ++ (asParameterOrRef <$> added))%list
    /\ Forall2
         (fun prop p =>
            describeParameter oc in_ prop = inr p
            /\ (isJSONEncoded (snd (fst prop)) = false ->
                (exists draft populated,
                   refl_PopulateFieldsFromTags_Parameter draft
                     (StructField_Tag (snd (fst prop))) = inr populated
                   /\ p = match in_ with
                          | ParameterInPath => Parameter_WithRequired true populated
                          | _ => populated
                          end
                   /\ Parameter_Name draft = fst (fst prop)
                   /\ Parameter_In draft = in_
                   /\ Parameter_Description draft = jsonschema.Description (snd prop)
                   /\ Parameter_Schema draft = Some (parameterSchema (snd prop))
                   /\ Parameter_Content draft = ∅
                   /\ (forall s sc,
                         Parameter_Schema draft = Some s ->
                         SchemaOrRef_Schema s = Some sc ->
                         Schema_Nullable sc = None))
                /\ (forall sc,
                      SchemaOrRef_Schema (parameterSchema (snd prop)) = Some sc ->
                      Schema_Nullable sc = None)
                /\ (populateKeepsSchemaAndContent ->
                    Parameter_Schema p = Some (parameterSchema (snd prop))
                    /\ Parameter_Content p = ∅
                    /\ (forall s sc,
                          Parameter_Schema p = Some s ->
                          SchemaOrRef_Schema s = Some sc ->
                          Schema_Nullable sc = None))))
         (take (length added) (offeredProperties oc in_ mapping)) added
    /\ (refl_IsSliceOrMap (Input oc) = false ->
        length added = length (offeredProperties oc in_ mapping)
        \/ exists prop err,
             offeredProperties oc in_ mapping !! length added = Some prop
             /\ snd (parseParametersIn oc in_ mapping st) = Some err
             /\ (describeParameter oc in_ prop = inl err
                 \/ exists p,
                      describeParameter oc in_ prop = inr p
                      /\ alreadyExists p
                           (Operation_Parameters (oc_Operation st)
                            ++ (asParameterOrRef <$> added)) = true)).
Proof.
  destruct (parseParametersIn_progress oc in_ mapping st)
    as (ds & Hall & Hparams & Hend).
  exists ds. split; [exact Hparams|]. split; [|exact Hend].
  eapply Forall2_impl; [exact Hall|].
  intros [[name field] ps] p Hd. split; [exact Hd|]. simpl. intros Henc.
  destruct (describeParameter_plain _ _ _ _ _ _ Hd Henc)
    as (draft & populated & Hpop & -> & H1 & H2 & H3 & H4 & H5 & _).
  assert (Hnull : forall sc,
            SchemaOrRef_Schema (parameterSchema ps) = Some sc ->
            Schema_Nullable sc = None).
  { intros sc. unfold parameterSchema. simpl.
    destruct (SchemaOrRef_Schema _) as [sc'|]; simpl; [|done].
    by intros [= <-]. }
  split; [|split; [exact Hnull|]].
  - exists draft, populated. repeat (split; [done|]).
    intros s0 sc. rewrite H4. intros [= <-]. apply Hnull.
  - intros Hkeep. destruct (Hkeep _ _ _ Hpop) as [Hs Hc].
    assert (Hp : Parameter_Schema
                   match in_ with
                   | ParameterInPath => Parameter_WithRequired true populated
                   | _ => populated
                   end = Some (parameterSchema ps))
      by (destruct in_; simpl; by rewrite Hs, H4).
    split; [exact Hp|]. split; [destruct in_; simpl; by rewrite Hc, H5|].
    intros s0 sc. rewrite Hp. intros [= <-]. apply Hnull.
Qed.

End ParametersMore.

(** ** More on the request body *)
Section RequestBodyMore.
Context {GoValue GoType : Type} {TI : TypeInspector GoValue GoType}.
Implicit Types (oc : OperationContext GoValue) (st : State).

(** [parseRequestBody] as its three early returns, the failure of the
    Type Inspector, and the two writes. *)
Lemma parseRequestBody_unfold oc tag mime httpMethod mapping st :
  parseRequestBody oc tag mime httpMethod mapping st
  = if requestBodySkipped oc tag httpMethod mapping then (st, None)
    else match Walk_Err (requestBodyWalk oc tag mapping) with
         | Some e => (st, Some e)
         | None =>
             (State_withOperation
                (Operation_WithRequestBodyContentItem
                   (resolvedMime oc tag mime mapping)
                   (requestBodyMediaType oc tag mapping))
                (publishDefinitions (definitionPrefixOf tag)
                   (jsonschema.Definitions
                      (Walk_Schema (requestBodyWalk oc tag mapping))) st),
              None)
         end.
Proof.
  unfold parseRequestBody, requestBodySkipped.
  destruct (isBodilessMethod _ && negb _); [done|].
  destruct (negb (refl_HasTaggedFields (Input oc) tag) && (size mapping =? 0)%nat
            && negb (String.eqb tag tagJSON)); [done|].
  destruct (negb (refl_HasTaggedFields (Input oc) tag) && (size mapping =? 0)%nat
            && negb (refl_IsSliceOrMap (Input oc))
            && negb (refl_FindEmbeddedSliceOrMap (Input oc))); [done|].
  simpl orb. cbv iota. unfold Reflector_Reflect.
  fold (requestBodyWalk oc tag mapping).
  by destruct (Walk_Err (requestBodyWalk oc tag mapping)).
Qed.

Lemma request_body_frame oc tag mime httpMethod mapping st :
  Operation_Parameters
    (oc_Operation (fst (parseRequestBody oc tag mime httpMethod mapping st)))
  = Operation_Parameters (oc_Operation st)
  /\ Operation_Responses
       (oc_Operation (fst (parseRequestBody oc tag mime httpMethod mapping st)))
     = Operation_Responses (oc_Operation st)
  /\ Operation_MapOfAnything
       (oc_Operation (fst (parseRequestBody oc tag mime httpMethod mapping st)))
     = Operation_MapOfAnything (oc_Operation st).
Proof.
  rewrite parseRequestBody_unfold.
  destruct (requestBodySkipped oc tag httpMethod mapping); [done|].
  destruct (Walk_Err _) as [e|]; [done|]. simpl.
  by rewrite publishDefinitions_operation.
Qed.

(** X8. [parseRequestBody] fails only when the Type Inspector fails on the
    input, with that error, and then it has written nothing: no content
    entry and no component schema. *)
Theorem request_body_failure_writes_nothing oc tag mime httpMethod mapping st st' err :
  parseRequestBody oc tag mime httpMethod mapping st = (st', Some err) ->
  st' = st
  /\ Walk_Err (requestBodyWalk oc tag mapping) = Some err
  /\ requestBodySkipped oc tag httpMethod mapping = false.
Proof.
  rewrite parseRequestBody_unfold.
  destruct (requestBodySkipped oc tag httpMethod mapping); [done|].
  destruct (Walk_Err _) as [e|]; [|done].
  by intros [= <- <-].
Qed.

(** X9. [parseRequestBody] writes at most one content entry, under the MIME
    type it was given or, for a form with a file upload, under
    [multipart/form-data]: the entries under every other MIME type stay as
    they were (a JSON body survives the form body built after it), and the
    parameters, the responses and the vendor extensions of the operation
    are never touched. *)
Theorem request_body_keeps_other_content oc tag mime httpMethod mapping st :
  let st' := fst (parseRequestBody oc tag mime httpMethod mapping st) in
  Operation_Parameters (oc_Operation st') = Operation_Parameters (oc_Operation st)
  /\ Operation_Responses (oc_Operation st') = Operation_Responses (oc_Operation st)
  /\ Operation_MapOfAnything (oc_Operation st')
     = Operation_MapOfAnything (oc_Operation st)
  /\ (forall key,
        key <> mime -> key <> "multipart/form-data" ->
        Operation_requestContent (oc_Operation st') !! key
        = Operation_requestContent (oc_Operation st) !! key)
  /\ (mime = "application/x-www-form-urlencoded" ->
      Operation_requestContent (oc_Operation st') !! "application/json"
      = Operation_requestContent (oc_Operation st) !! "application/json").
Proof.
  cbv zeta. rewrite parseRequestBody_unfold.
  destruct (requestBodySkipped oc tag httpMethod mapping); [done|].
  destruct (Walk_Err _) as [e|]; [done|]. simpl.
  rewrite Operation_requestContent_WithItem, publishDefinitions_operation.
  repeat (split; [done|]).
  assert (Hother : forall key,
            key <> mime -> key <> "multipart/form-data" ->
            <[resolvedMime oc tag mime mapping := requestBodyMediaType oc tag mapping]>
              (Operation_requestContent (oc_Operation st)) !! key
            = Operation_requestContent (oc_Operation st) !! key).
  { intros key Hk Hm. apply lookup_insert_ne. unfold resolvedMime, mimeMultipart.
    destruct (_ && _); congruence. }
  split; [exact Hother|].
  intros ->. by apply Hother.
Qed.

(** X10. The component schemas [parseRequestBody] writes all carry the
    prefix derived from the tag ([FormData] for the form tag): an entry
    whose name does not start with that prefix is never changed by it. *)
Theorem request_body_writes_prefixed_names oc tag mime httpMethod mapping st key :
  (forall n, key <> definitionPrefixOf tag ++ n) ->
  State_registry (fst (parseRequestBody oc tag mime httpMethod mapping st)) !! key
  = State_registry st !! key.
Proof.
  intros Hkey. rewrite parseRequestBody_unfold.
  destruct (requestBodySkipped oc tag httpMethod mapping); [done|].
  destruct (Walk_Err _) as [e|]; [done|]. simpl.
  change (State_registry (State_withOperation ?f ?s)) with (State_registry s).
  apply publishDefinitions_other.
  intros Hin. apply list_elem_of_fmap in Hin as ([n d] & -> & _).
  by apply (Hkey n).
Qed.

Lemma publishDefinitions_keeps_names prefix defs st name :
  is_Some (State_registry st !! name) ->
  is_Some (State_registry (publishDefinitions prefix defs st) !! name).
Proof.
  unfold publishDefinitions. revert st.
  induction defs as [|[n d] defs IH]; intros st Hname; simpl; [done|].
  apply IH. unfold State_registry. simpl. rewrite registry_WithItem.
  destruct (decide (prefix ++ n = name)) as [->|Hne].
  - rewrite lookup_insert_eq. eauto.
  - by rewrite lookup_insert_ne.
Qed.

Lemma parseRequestBody_keeps_names oc tag mime httpMethod mapping st name :
  is_Some (State_registry st !! name) ->
  is_Some (State_registry (fst (parseRequestBody oc tag mime httpMethod mapping st))
             !! name).
Proof.
  intros Hname. rewrite parseRequestBody_unfold.
  destruct (requestBodySkipped oc tag httpMethod mapping); [done|].
  destruct (Walk_Err _) as [e|]; [done|]. simpl.
  change (State_registry (State_withOperation ?f ?s)) with (State_registry s).
  by apply publishDefinitions_keeps_names.
Qed.

End RequestBodyMore.

(** ** More on the request setup *)
Section SetupRequestMore.
Context {GoValue GoType : Type} {TI : TypeInspector GoValue GoType}.
Implicit Types (oc : OperationContext GoValue) (st : State).

Lemma extendsState_refl st : extendsState st st.
Proof.
  split; [done|]. split; [exists []; by rewrite app_nil_r|]. done.
Qed.

Lemma extendsState_trans st1 st2 st3 :
  extendsState st1 st2 -> extendsState st2 st3 -> extendsState st1 st3.
Proof.
  intros (Hr1 & [a1 Hp1] & Hu1 & Hn1) (Hr2 & [a2 Hp2] & Hu2 & Hn2).
  split; [by rewrite Hr2|]. split; [|split; [auto|auto]].
  exists (a1 ++ a2)%list. by rewrite Hp2, Hp1, app_assoc.
Qed.

Lemma parseParametersIn_extends oc in_ mapping st :
  extendsState st (fst (parseParametersIn oc in_ mapping st)).
Proof.
  destruct (parseParametersIn oc in_ mapping st) as [st' e] eqn:Hrun.
  apply parseParametersIn_outcome in Hrun
    as (Hreg & ds & _ & Hparams & _ & Hresp & Hfresh & _).
  simpl. split; [done|]. split; [by eexists|]. split.
  - intros Hold. rewrite Hparams. by apply appended_keep_unique.
  - intros name [x Hx]. exists x. by eapply lookup_weaken.
Qed.

Lemma parseRequestBody_extends oc tag mime httpMethod mapping st :
  extendsState st (fst (parseRequestBody oc tag mime httpMethod mapping st)).
Proof.
  pose proof (parseRequestBody_keeps_names oc tag mime httpMethod mapping st)
    as Hnames.
  rewrite parseRequestBody_unfold in *.
  destruct (requestBodySkipped oc tag httpMethod mapping);
    [apply extendsState_refl|].
  destruct (Walk_Err _) as [e|]; [apply extendsState_refl|].
  split; [|split; [|split; [|exact Hnames]]]; simpl;
    rewrite publishDefinitions_operation; [done| |done].
  exists []. by rewrite app_nil_r.
Qed.

(** X11. [SetupRequest] only extends: whatever it returns, the responses of
    the operation are untouched, the parameters it had are kept as a
    prefix of the new list, parameters that were unique in (location,
    name) stay unique, and no name disappears from the component
    schemas. *)
Theorem SetupRequest_only_extends oc st :
  Operation_Responses (oc_Operation (fst (SetupRequest oc st)))
  = Operation_Responses (oc_Operation st)
  /\ (exists added,
        Operation_Parameters (oc_Operation (fst (SetupRequest oc st)))
        = (Operation_Parameters (oc_Operation st) ++ added)%list)
  /\ (NoDup (parameterKeys (Operation_Parameters (oc_Operation st))) ->
      NoDup (parameterKeys
               (Operation_Parameters (oc_Operation (fst (SetupRequest oc st))))))
  /\ (forall name,
        is_Some (State_registry st !! name) ->
        is_Some (State_registry (fst (SetupRequest oc st)) !! name)).
Proof.
  change (extendsState st (fst (SetupRequest oc st))).
  unfold SetupRequest.
  pose proof (parseParametersIn_extends oc ParameterInQuery (ReqQueryMapping oc) st)
    as H1.
  destruct (parseParametersIn oc ParameterInQuery _ st) as [st1 e1].
  pose proof (parseParametersIn_extends oc ParameterInPath (ReqPathMapping oc) st1)
    as H2.
  destruct (parseParametersIn oc ParameterInPath _ st1) as [st2 e2].
  pose proof (parseParametersIn_extends oc ParameterInCookie (ReqCookieMapping oc)
                st2) as H3.
  destruct (parseParametersIn oc ParameterInCookie _ st2) as [st3 e3].
  pose proof (parseParametersIn_extends oc ParameterInHeader (ReqHeaderMapping oc)
                st3) as H4.
  destruct (parseParametersIn oc ParameterInHeader _ st3) as [st4 e4].
  pose proof (parseRequestBody_extends oc tagJSON mimeJSON (HTTPMethod oc) ∅ st4)
    as H5.
  destruct (parseRequestBody oc tagJSON _ _ _ st4) as [st5 e5].
  pose proof (parseRequestBody_extends oc tagFormData mimeFormUrlencoded
                (HTTPMethod oc) (ReqFormDataMapping oc) st5) as H6.
  destruct (parseRequestBody oc tagFormData _ _ _ st5) as [st6 e6].
  simpl in *.
  repeat (eapply extendsState_trans; [eassumption|]). apply extendsState_refl.
Qed.

(** X12. For a method that upper-cases to GET, HEAD, DELETE or TRACE and an
    input without the [RequestBodyEnforcer] marker, [SetupRequest] is the
    four parameter extractions alone: it returns the join of their four
    errors, leaves the request body of the operation as it was, and every
    entry of the component schemas keeps its fragment. *)
Theorem SetupRequest_without_request_body oc st :
  In (strings_ToUpper (HTTPMethod oc)) ["GET"; "HEAD"; "DELETE"; "TRACE"] ->
  implementsRequestBodyEnforcer (Input oc) = false ->
  exists st1 st2 st3 st4 e1 e2 e3 e4,
    parseParametersIn oc ParameterInQuery (ReqQueryMapping oc) st = (st1, e1)
    /\ parseParametersIn oc ParameterInPath (ReqPathMapping oc) st1 = (st2, e2)
    /\ parseParametersIn oc ParameterInCookie (ReqCookieMapping oc) st2 = (st3, e3)
    /\ parseParametersIn oc ParameterInHeader (ReqHeaderMapping oc) st3 = (st4, e4)
    /\ SetupRequest oc st = (st4, joinErrors [e1; e2; e3; e4])
    /\ Operation_RequestBody (oc_Operation st4)
       = Operation_RequestBody (oc_Operation st)
    /\ State_registry st ⊆ State_registry st4.
Proof.
  intros Hm Hno. apply isBodilessMethod_spec in Hm.
  assert (Hskip : forall tag mime mapping s,
            parseRequestBody oc tag mime (HTTPMethod oc) mapping s = (s, None)).
  { intros tag mime mapping s. unfold parseRequestBody. by rewrite Hm, Hno. }
  unfold SetupRequest.
  destruct (parseParametersIn oc ParameterInQuery _ st) as [st1 e1] eqn:H1.
  destruct (parseParametersIn oc ParameterInPath _ st1) as [st2 e2] eqn:H2.
  destruct (parseParametersIn oc ParameterInCookie _ st2) as [st3 e3] eqn:H3.
  destruct (parseParametersIn oc ParameterInHeader _ st3) as [st4 e4] eqn:H4.
  rewrite !Hskip.
  exists st1, st2, st3, st4, e1, e2, e3, e4. repeat (split; [done|]).
  apply parseParametersIn_outcome in H1 as (R1 & d1 & _ & _ & B1 & _).
  apply parseParametersIn_outcome in H2 as (R2 & d2 & _ & _ & B2 & _).
  apply parseParametersIn_outcome in H3 as (R3 & d3 & _ & _ & B3 & _).
  apply parseParametersIn_outcome in H4 as (R4 & d4 & _ & _ & B4 & _).
  split.
  - by rewrite B4, B3, B2, B1.
  - by repeat (etrans; [eassumption|]).
Qed.

(** X13. For an input that is itself a slice or a map, [SetupRequest]
    extracts no parameters at all: it is the JSON body build followed by
    the form body build, and the parameters and vendor extensions of the
    operation stay as they were. *)
Theorem SetupRequest_of_slice_or_map oc st :
  refl_IsSliceOrMap (Input oc) = true ->
  exists st5 st6 e5 e6,
    parseRequestBody oc tagJSON mimeJSON (HTTPMethod oc) ∅ st = (st5, e5)
    /\ parseRequestBody oc tagFormData mimeFormUrlencoded (HTTPMethod oc)
         (ReqFormDataMapping oc) st5 = (st6, e6)
    /\ SetupRequest oc st = (st6, joinErrors [e5; e6])
    /\ Operation_Parameters (oc_Operation st6)
       = Operation_Parameters (oc_Operation st)
    /\ Operation_MapOfAnything (oc_Operation st6)
       = Operation_MapOfAnything (oc_Operation st).
Proof.
  intros Hslice.
  assert (Hskip : forall in_ mapping s,
            parseParametersIn oc in_ mapping s = (s, None)).
  { intros in_ mapping s. unfold parseParametersIn. by rewrite Hslice. }
  unfold SetupRequest. rewrite !Hskip.
  pose proof (request_body_frame oc tagJSON mimeJSON (HTTPMethod oc) ∅ st) as F5.
  destruct (parseRequestBody oc tagJSON _ _ _ st) as [st5 e5] eqn:H5.
  pose proof (request_body_frame oc tagFormData mimeFormUrlencoded (HTTPMethod oc)
                (ReqFormDataMapping oc) st5) as F6.
  destruct (parseRequestBody oc tagFormData _ _ _ st5) as [st6 e6] eqn:H6.
  simpl in F5, F6. destruct F5 as (P5 & _ & M5), F6 as (P6 & _ & M6).
  exists st5, st6, e5, e6. repeat (split; [done|]).
  split.
  - by rewrite P6, P5.
  - by rewrite M6, M5.
Qed.

End SetupRequestMore.

(** ** [ResolveJSONSchemaRef] *)
Section ResolveFacts.
Context {GoValue GoType : Type} {TI : TypeInspector GoValue GoType}.
Variable ToJSONSchema : SchemaOrRef -> option Spec -> jsonschema.SchemaOrBool.

Lemma strings_HasPrefix_app (p r : string) : strings_HasPrefix (p ++ r) p = true.
Proof.
  induction p as [|a p IH]; [by destruct r|].
  rewrite string_app_cons. simpl. by rewrite Ascii.eqb_refl, IH.
Qed.

Lemma strings_HasPrefix_inv (s p : string) :
  strings_HasPrefix s p = true -> exists r, s = p ++ r.
Proof.
  revert s. induction p as [|a p IH]; intros s; simpl.
  - intros _. by exists s.
  - destruct s as [|b s]; [done|]. intros H.
    apply andb_true_iff in H as [Hab Hrest].
    apply Ascii.eqb_eq in Hab as ->. destruct (IH _ Hrest) as [r ->].
    by exists r.
Qed.

Lemma slice_from_app (p r : string) : slice_from (String.length p) (p ++ r) = r.
Proof.
  induction p as [|a p IH]; [reflexivity|]. rewrite string_app_cons. exact IH.
Qed.

Lemma strings_TrimPrefix_app (p r : string) : strings_TrimPrefix (p ++ r) p = r.
Proof.
  unfold strings_TrimPrefix. by rewrite strings_HasPrefix_app, slice_from_app.
Qed.

Lemma ResolveJSONSchemaRef_lookup (spec : option Spec) (name : string) :
  ResolveJSONSchemaRef ToJSONSchema spec ("#/components/schemas/" ++ name)
  = match registry spec !! name with
    | Some os => (ToJSONSchema os spec, true)
    | None => (SchemaOrBool_zero, false)
    end.
Proof.
  unfold ResolveJSONSchemaRef, registry, SpecEns, ComponentsEns, SchemasEns.
  destruct spec as [sp|]; [|done].
  destruct (Spec_Components sp) as [c|]; simpl; [|done].
  destruct (Components_Schemas c) as [cs|]; simpl; [|done].
  by rewrite strings_HasPrefix_app, strings_TrimPrefix_app.
Qed.

(** X14. [ResolveJSONSchemaRef] finds a reference exactly when it is
    [#/components/schemas/] followed by a name that has an entry in the
    component schemas, and then returns the conversion of that entry; for
    any other reference, and for a document without component schemas, it
    returns the zero schema and false. *)
Theorem ResolveJSONSchemaRef_finds_registered (spec : option Spec) (ref : string) :
  (forall name os,
     ref = "#/components/schemas/" ++ name -> registry spec !! name = Some os ->
     ResolveJSONSchemaRef ToJSONSchema spec ref = (ToJSONSchema os spec, true))
  /\ ((forall name,
         ref = "#/components/schemas/" ++ name -> registry spec !! name = None) ->
      ResolveJSONSchemaRef ToJSONSchema spec ref = (SchemaOrBool_zero, false))
  /\ (snd (ResolveJSONSchemaRef ToJSONSchema spec ref) = true ->
      exists name os,
        ref = "#/components/schemas/" ++ name /\ registry spec !! name = Some os).
Proof.
  split; [|split].
  - intros name os -> Hos. by rewrite ResolveJSONSchemaRef_lookup, Hos.
  - intros Hnone.
    destruct (strings_HasPrefix ref "#/components/schemas/") eqn:Hp.
    + apply strings_HasPrefix_inv in Hp as [name ->].
      by rewrite ResolveJSONSchemaRef_lookup, (Hnone name eq_refl).
    + unfold ResolveJSONSchemaRef. rewrite Hp.
      destruct spec as [sp|]; [|done].
      destruct (Spec_Components sp) as [c|]; [|done].
      by destruct (Components_Schemas c).
  - intros Hfound.
    destruct (strings_HasPrefix ref "#/components/schemas/") eqn:Hp.
    + apply strings_HasPrefix_inv in Hp as [name ->].
      rewrite ResolveJSONSchemaRef_lookup in Hfound.
      destruct (registry spec !! name) as [os|] eqn:Hos; [|done].
      by exists name, os.
    + unfold ResolveJSONSchemaRef in Hfound. rewrite Hp in Hfound.
      destruct spec as [sp|]; [|done].
      destruct (Spec_Components sp) as [c|]; [|done].
      by destruct (Components_Schemas c).
Qed.

(** X15. What [collectDefinition] registers can be resolved: after
    [collectDefinition name schema], the reference
    [#/components/schemas/name] is found, as the conversion of the fragment
    just inserted when the name was new and of the fragment that was there
    otherwise; and every reference found before is still found, with the
    same entry. *)
Theorem collected_definition_resolves name schema (st : State) :
  (exists os,
     State_registry (collectDefinition name schema st) !! name = Some os
     /\ ResolveJSONSchemaRef ToJSONSchema
          (Reflector_Spec (collectDefinition name schema st))
          ("#/components/schemas/" ++ name)
        = (ToJSONSchema os (Reflector_Spec (collectDefinition name schema st)), true)
     /\ os = match State_registry st !! name with
             | Some old => old
             | None => FromJSONSchema (jsonschema.ToSchemaOrBool schema)
             end)
  /\ (forall other os,
        State_registry st !! other = Some os ->
        ResolveJSONSchemaRef ToJSONSchema
          (Reflector_Spec (collectDefinition name schema st))
          ("#/components/schemas/" ++ other)
        = (ToJSONSchema os (Reflector_Spec (collectDefinition name schema st)), true)).
Proof.
  split.
  - destruct (State_registry st !! name) as [old|] eqn:Hold.
    + exists old. rewrite ResolveJSONSchemaRef_lookup.
      fold (State_registry (collectDefinition name schema st)).
      rewrite (collectDefinition_present _ _ _ _ Hold), Hold. done.
    + exists (FromJSONSchema (jsonschema.ToSchemaOrBool schema)).
      rewrite ResolveJSONSchemaRef_lookup.
      fold (State_registry (collectDefinition name schema st)).
      rewrite (collectDefinition_absent _ _ _ Hold), lookup_insert_eq. done.
  - intros other os Hos. rewrite ResolveJSONSchemaRef_lookup.
    fold (State_registry (collectDefinition name schema st)).
    by rewrite (lookup_weaken _ _ _ _ Hos (collectDefinition_grows name schema st)).
Qed.

End ResolveFacts.

(** ** More on responses *)
Section ResponsesMore.
Context {GoValue GoType : Type} {TI : TypeInspector GoValue GoType}.
Implicit Types (oc : OperationContext GoValue) (st : State) (resp : Response).

(** The state [SetupResponse] ends in, when it returns at all, is the
    state left by the body step, with or without the response stored. *)
Lemma SetupResponse_shape oc st st' e :
  SetupResponse oc st = Some (st', e) ->
  exists st1,
    State_registry st ⊆ State_registry st1
    /\ oc_Operation st1 = oc_Operation st
    /\ ((e <> None /\ st' = st1 /\ Output oc <> None)
        \/ (e = None /\ exists resp, st' = storeResponse oc resp st1)).
Proof.
  unfold SetupResponse. destruct (Output oc) as [v|].
  - destruct (parseJSONResponse _ _ st) as [[st1 resp1] e1] eqn:Hbody.
    apply parseJSONResponse_outcome in Hbody as (Hreg & Hop & _).
    destruct e1 as [err|].
    + intros [= <- <-]. exists st1. repeat (split; [done|]). by left.
    + destruct (parseResponseHeader resp1 _) as [[resp2 [err|]]|]; [| |done].
      * intros [= <- <-]. exists st1. repeat (split; [done|]). by left.
      * intros [= <- <-]. exists st1. repeat (split; [done|]). right.
        split; [done|]. by eexists.
  - intros [= <- <-]. exists st. repeat (split; [done|]). right.
    split; [done|]. by eexists.
Qed.

(** X16. A response build that returns an error stores no response and
    leaves the whole operation as it was; only component schemas
    collected before the failure remain, and none is replaced. It can only
    fail with a non-nil output. *)
Theorem failed_response_build_writes_no_response oc st st' err :
  SetupResponse oc st = Some (st', Some err) ->
  oc_Operation st' = oc_Operation st
  /\ State_registry st ⊆ State_registry st'
  /\ Output oc <> None.
Proof.
  intros Hrun. apply SetupResponse_shape in Hrun
    as (st1 & Hreg & Hop & [(_ & -> & Hout)|[[=] _]]).
  done.
Qed.

(** X17. A response build touches nothing but the response under its own
    status code: the parameters, the request body, the vendor extensions
    and the default response of the operation stay as they were, and so
    does the response under every other key, in particular under the
    decimal string of every other status code. *)
Theorem response_build_touches_one_status oc st st' e :
  SetupResponse oc st = Some (st', e) ->
  Operation_Parameters (oc_Operation st') = Operation_Parameters (oc_Operation st)
  /\ Operation_RequestBody (oc_Operation st')
     = Operation_RequestBody (oc_Operation st)
  /\ Operation_MapOfAnything (oc_Operation st')
     = Operation_MapOfAnything (oc_Operation st)
  /\ Responses_Default (Operation_Responses (oc_Operation st'))
     = Responses_Default (Operation_Responses (oc_Operation st))
  /\ (forall key,
        key <> strconv_Itoa (HTTPStatus oc) ->
        Responses_MapOfResponseOrRefValues (Operation_Responses (oc_Operation st'))
          !! key
        = Responses_MapOfResponseOrRefValues (Operation_Responses (oc_Operation st))
            !! key)
  /\ (forall status,
        status <> HTTPStatus oc ->
        Responses_MapOfResponseOrRefValues (Operation_Responses (oc_Operation st'))
          !! strconv_Itoa status
        = Responses_MapOfResponseOrRefValues (Operation_Responses (oc_Operation st))
            !! strconv_Itoa status).
Proof.
  intros Hrun. apply SetupResponse_shape in Hrun as (st1 & _ & Hop & Hcases).
  assert (Hkeys : (forall key,
             key <> strconv_Itoa (HTTPStatus oc) ->
             Responses_MapOfResponseOrRefValues
               (Operation_Responses (oc_Operation st')) !! key
             = Responses_MapOfResponseOrRefValues
                 (Operation_Responses (oc_Operation st)) !! key)
          /\ Operation_Parameters (oc_Operation st')
             = Operation_Parameters (oc_Operation st)
          /\ Operation_RequestBody (oc_Operation st')
             = Operation_RequestBody (oc_Operation st)
          /\ Operation_MapOfAnything (oc_Operation st')
             = Operation_MapOfAnything (oc_Operation st)
          /\ Responses_Default (Operation_Responses (oc_Operation st'))
             = Responses_Default (Operation_Responses (oc_Operation st))).
  { destruct Hcases as [(_ & -> & _)|(_ & resp & ->)].
    - by rewrite Hop.
    - unfold storeResponse. simpl. rewrite Hop. repeat (split; [|done]).
      intros key Hkey. by rewrite lookup_insert_ne. }
  destruct Hkeys as (Hk & Hp & Hb & Hm & Hd).
  repeat (split; [done|]).
  intros status Hne. apply Hk. unfold strconv_Itoa. intros Heq.
  by apply (inj pretty) in Heq.
Qed.

(** X18. A successful response build for an output with a meaningful schema
    stores exactly one content entry: under the requested content type cut
    before its first semicolon, or under [application/json] when that is
    empty, holding the converted root schema of the body reflection with
    [Nullable] reset. The empty schema of [ensureResponseContentType]
    never replaces it. *)
Theorem meaningful_output_has_one_content_entry oc st st' :
  Output oc <> None ->
  hasJSONBody (Output oc) <> inr false ->
  SetupResponse oc st = Some (st', None) ->
  exists r,
    builtResponse st' oc = Some r
    /\ Response_Content r
       = {[ (if String.eqb (strippedContentType oc) "" then "application/json"
             else strippedContentType oc)
            := responseBodyMediaType (strippedContext oc) ]}
    /\ (forall s sc,
          MediaType_Schema (responseBodyMediaType (strippedContext oc)) = Some s ->
          SchemaOrRef_Schema s = Some sc -> Schema_Nullable sc = None).
Proof.
  intros Hout Hhas Hrun. destruct (Output oc) as [v|] eqn:Hv; [|done].
  destruct (SetupResponse_present _ _ _ _ Hv Hrun)
    as (st1 & resp1 & resp2 & Hbody & Hhead & ->).
  apply parseJSONResponse_meaningful in Hbody;
    [|change (Output (strippedContext oc)) with (Output oc); by rewrite Hv].
  apply parseResponseHeader_outcome in Hhead as (Hc2 & _).
  change (RespContentType (strippedContext oc)) with (strippedContentType oc)
    in Hbody.
  simpl in Hbody. rewrite insert_empty in Hbody.
  change (builtResponse
            (storeResponse (strippedContext oc)
               (if negb (String.eqb (strippedContentType oc) "")
                then ensureResponseContentType resp2 (strippedContentType oc)
                else resp2) st1) oc)
    with (builtResponse
            (storeResponse (strippedContext oc)
               (if negb (String.eqb (strippedContentType oc) "")
                then ensureResponseContentType resp2 (strippedContentType oc)
                else resp2) st1) (strippedContext oc)).
  rewrite (proj1 (storeResponse_outcome _ _ _)).
  eexists. split; [reflexivity|]. rewrite fallback_content. split.
  - destruct (String.eqb (strippedContentType oc) "") eqn:Hct; simpl.
    + by rewrite Hc2, Hbody.
    + unfold ensureResponseContentType. rewrite Hc2, Hbody.
      rewrite lookup_singleton_eq. by rewrite Hc2, Hbody.
  - intros s sc. unfold responseBodyMediaType. simpl.
    destruct (SchemaOrRef_Schema
                (FromJSONSchema
                   (jsonschema.ToSchemaOrBool
                      (responseBodySchema (strippedContext oc))))) as [sc'|] eqn:Hs.
    + intros [= <-]. simpl. by intros [= <-].
    + intros [= <-]. by rewrite Hs.
Qed.

End ResponsesMore.

(** ** Response headers *)
Section HeadersMore.
Context {GoValue GoType : Type} {TI : TypeInspector GoValue GoType}.
Implicit Types (oc : OperationContext GoValue) (st : State) (resp : Response).

(** The header [interceptHeader] builds for a property before the tags are
    read. *)
Lemma interceptHeader_run props :
  forall res res',
  interceptProperties interceptHeader props (Some res) = (Some res', None) ->
  (forall name,
     is_Some (res' !! name)
     <-> is_Some (res !! name) \/ exists field ps, In (name, field, ps) props)
  /\ (forall name hor,
        res' !! name = Some hor ->
        res !! name = Some hor
        \/ exists field ps sc h,
             In (name, field, ps) props
             /\ SchemaOrRef_Schema (FromJSONSchema (jsonschema.ToSchemaOrBool ps))
                = Some sc
             /\ refl_PopulateFieldsFromTags_Header
                  (mkHeader (jsonschema.Description ps) None (Schema_Deprecated sc)
                     (Some (FromJSONSchema (jsonschema.ToSchemaOrBool ps))) ∅ None)
                  (StructField_Tag field) = inr h
             /\ hor = mkHeaderOrRef None (Some h)).
Proof.
  induction props as [|[[n f] ps] rest IH]; intros res res'.
  - simpl. intros [= <-]. split.
    + intros name. split; [by left|]. by intros [H|(? & ? & [])].
    + intros name hor H. by left.
  - simpl.
    destruct (SchemaOrRef_Schema (FromJSONSchema (jsonschema.ToSchemaOrBool ps)))
      as [sc|] eqn:Hsc; [|done].
    destruct (refl_PopulateFieldsFromTags_Header _ (StructField_Tag f))
      as [err|h] eqn:Hpop; [done|].
    intros Hrest. apply IH in Hrest as [Hdom Hval]. split.
    + intros name. rewrite Hdom. split.
      * intros [Hin|(field & ps' & Hin)].
        -- destruct (decide (n = name)) as [<-|Hne].
           ++ right. exists f, ps. by left.
           ++ rewrite lookup_insert_ne in Hin by done. by left.
        -- right. exists field, ps'. by right.
      * intros [Hin|(field & ps' & [Heq|Hin])].
        -- left. destruct (decide (n = name)) as [<-|Hne].
           ++ by rewrite lookup_insert_eq.
           ++ by rewrite lookup_insert_ne.
        -- injection Heq as -> -> ->. left. by rewrite lookup_insert_eq.
        -- right. by exists field, ps'.
    + intros name hor Hl. apply Hval in Hl as [Hl|(field & ps' & sc' & h' & Hin & ?)].
      * destruct (decide (n = name)) as [<-|Hne].
        -- rewrite lookup_insert_eq in Hl. injection Hl as <-.
           right. exists f, ps, sc, h. split; [by left|]. by repeat split.
        -- rewrite lookup_insert_ne in Hl by done. by left.
      * right. exists field, ps', sc', h'. split; [by right|done].
Qed.

(** When every offered property converts to an inline schema, the walk
    of the headers ends with a map, whatever [PopulateFieldsFromTags]
    answers. *)
Lemma interceptHeader_total props :
  (forall name field ps,
     In (name, field, ps) props ->
     is_Some (SchemaOrRef_Schema (FromJSONSchema (jsonschema.ToSchemaOrBool ps)))) ->
  forall res,
  exists res' e, interceptProperties interceptHeader props (Some res) = (Some res', e).
Proof.
  induction props as [|[[n f] ps] rest IH]; intros Hall res.
  - by exists res, None.
  - simpl. destruct (Hall n f ps) as [sc ->]; [by left|].
    destruct (refl_PopulateFieldsFromTags_Header _ (StructField_Tag f)) as [err|h].
    + by exists res, (Some err).
    + apply IH. intros name field ps' Hin. apply (Hall name field ps'). by right.
Qed.

Lemma parseResponseHeader_headers resp oc resp2 :
  parseResponseHeader resp oc = Some (resp2, None) ->
  interceptProperties interceptHeader (offeredHeaders oc) (Some ∅)
  = (Some (Response_Headers resp2), None).
Proof.
  unfold parseResponseHeader, Reflector_Reflect, offeredHeaders.
  destruct (interceptProperties interceptHeader _ (Some ∅)) as [[res|] [e|]];
    try done; [|by destruct (Walk_Err _)].
  destruct (Walk_Err _); [done|].
  destruct (jsonschema.Description _) as [d|];
    [simpl; destruct (String.eqb (Response_Description resp) "")|];
    by intros [= <-].
Qed.

(** X19. [SetupResponse] cannot end in the nil dereference of
    [s.Schema.Deprecated] when every property offered for the response
    headers converts to an inline schema: it then returns, with or without
    an error. Without an output it always returns. *)
Theorem SetupResponse_returns_when_headers_are_inline oc st :
  (forall name field ps,
     In (name, field, ps) (offeredHeaders (strippedContext oc)) ->
     is_Some (SchemaOrRef_Schema (FromJSONSchema (jsonschema.ToSchemaOrBool ps)))) ->
  is_Some (SetupResponse oc st).
Proof.
  intros Hall. unfold SetupResponse. destruct (Output oc) as [v|] eqn:Hv; [|done].
  fold (strippedContentType oc). fold (strippedContext oc).
  destruct (parseJSONResponse Response_empty (strippedContext oc) st)
    as [[st1 resp1] [err|]]; [done|].
  destruct (interceptHeader_total _ Hall ∅) as (res' & e & Hrun).
  unfold parseResponseHeader, Reflector_Reflect.
  unfold offeredHeaders in Hrun. rewrite Hrun.
  destruct e as [err|]; [done|].
  destruct (Walk_Err _); [done|].
  destruct (jsonschema.Description _) as [d|];
    [simpl; destruct (String.eqb (Response_Description resp1) "")|]; done.
Qed.

(** X20. After a successful response build for a non-nil output the stored
    response has a header for exactly the names of the properties offered
    for the [header] tag; each is an inline header, not a reference, built
    from one offered property of that name: description of the property
    schema, [Deprecated] of the converted schema, the converted schema
    itself, then the struct tags read into it. *)
Theorem response_headers_are_the_offered_ones oc st st' :
  Output oc <> None ->
  SetupResponse oc st = Some (st', None) ->
  exists r,
    builtResponse st' oc = Some r
    /\ (forall name,
          is_Some (Response_Headers r !! name)
          <-> exists field ps, In (name, field, ps) (offeredHeaders (strippedContext oc)))
    /\ (forall name hor,
          Response_Headers r !! name = Some hor ->
          exists field ps sc h,
            In (name, field, ps) (offeredHeaders (strippedContext oc))
            /\ SchemaOrRef_Schema (FromJSONSchema (jsonschema.ToSchemaOrBool ps))
               = Some sc
            /\ refl_PopulateFieldsFromTags_Header
                 (mkHeader (jsonschema.Description ps) None (Schema_Deprecated sc)
                    (Some (FromJSONSchema (jsonschema.ToSchemaOrBool ps))) ∅ None)
                 (StructField_Tag field) = inr h
            /\ hor = mkHeaderOrRef None (Some h)).
Proof.
  intros Hout Hrun. destruct (Output oc) as [v|] eqn:Hv; [|done].
  destruct (SetupResponse_present _ _ _ _ Hv Hrun)
    as (st1 & resp1 & resp2 & _ & Hhead & ->).
  apply parseResponseHeader_headers in Hhead.
  apply interceptHeader_run in Hhead as [Hdom Hval].
  change (builtResponse
            (storeResponse (strippedContext oc)
               (if negb (String.eqb (strippedContentType oc) "")
                then ensureResponseContentType resp2 (strippedContentType oc)
                else resp2) st1) oc)
    with (builtResponse
            (storeResponse (strippedContext oc)
               (if negb (String.eqb (strippedContentType oc) "")
                then ensureResponseContentType resp2 (strippedContentType oc)
                else resp2) st1) (strippedContext oc)).
  rewrite (proj1 (storeResponse_outcome _ _ _)).
  eexists. split; [reflexivity|].
  assert (Hh : Response_Headers
                 (if String.eqb
                       (Response_Description
                          (if negb (String.eqb (strippedContentType oc) "")
                           then ensureResponseContentType resp2 (strippedContentType oc)
                           else resp2)) ""
                  then Response_withDescription
                         (http_StatusText (HTTPStatus (strippedContext oc)))
                         (if negb (String.eqb (strippedContentType oc) "")
                          then ensureResponseContentType resp2 (strippedContentType oc)
                          else resp2)
                  else (if negb (String.eqb (strippedContentType oc) "")
                        then ensureResponseContentType resp2 (strippedContentType oc)
                        else resp2))
               = Response_Headers resp2).
  { destruct (String.eqb (Response_Description _) ""); simpl;
      destruct (negb (String.eqb (strippedContentType oc) "")); try done;
      unfold ensureResponseContentType;
      by destruct (Response_Content resp2 !! strippedContentType oc). }
  rewrite Hh. split.
  - intros name. rewrite Hdom. split.
    + intros [Hin|Hin]; [|done]. rewrite lookup_empty in Hin. by destruct Hin.
    + by right.
  - intros name hor Hl. apply Hval in Hl as [Hl|Hl]; [|done].
    by rewrite lookup_empty in Hl.
Qed.

(** X22. [hasJSONBody] looks only at the constraining part of the reflected
    schema: two outputs whose reflections succeed with schemas that differ
    at most in [Title], [Description], [Comment], [ExtraProperties], [ID]
    and [Examples] get the same answer; and a failed reflection is
    reported as its error. *)
Theorem hasJSONBody_ignores_descriptive_fields (o1 o2 : option GoValue) :
  let w1 := jsonschema_Reflect o1 defaultOptions in
  let w2 := jsonschema_Reflect o2 defaultOptions in
  (forall e, Walk_Err w1 = Some e -> hasJSONBody o1 = inl e)
  /\ (Walk_Err w1 = None -> Walk_Err w2 = None ->
      jsonschema.Ref (Walk_Schema w1) = jsonschema.Ref (Walk_Schema w2) ->
      jsonschema.Type_ (Walk_Schema w1) = jsonschema.Type_ (Walk_Schema w2) ->
      jsonschema.Format (Walk_Schema w1) = jsonschema.Format (Walk_Schema w2) ->
      jsonschema.Properties (Walk_Schema w1) = jsonschema.Properties (Walk_Schema w2) ->
      jsonschema.AdditionalProperties (Walk_Schema w1)
      = jsonschema.AdditionalProperties (Walk_Schema w2) ->
      jsonschema.Definitions (Walk_Schema w1) = jsonschema.Definitions (Walk_Schema w2) ->
      hasJSONBody o1 = hasJSONBody o2).
Proof.
  cbv zeta. unfold hasJSONBody, Reflector_Reflect. split.
  - by intros e ->.
  - intros -> -> Hr Ht Hf Hp Ha Hd. cbv zeta.
    unfold jsonschema.stripNonConstraining. by rewrite Hr, Ht, Hf, Hp, Ha, Hd.
Qed.

(** X23. For a nil output [SetJSONResponse] succeeds and stores, under the
    status code, a response with the status text as description and
    neither headers nor content; and whatever the output, a response it
    stores has no other content key than [application/json]. *)
Theorem SetJSONResponse_content_is_json output httpStatus st :
  (output = None ->
   exists st',
     SetJSONResponse output httpStatus st = Some (st', None)
     /\ builtResponse st' (mkOperationContext None "" ∅ ∅ ∅ ∅ ∅ output httpStatus
                             "" ∅ false "")
        = Some (mkResponse (http_StatusText httpStatus) ∅ ∅))
  /\ (forall st' r key,
        SetJSONResponse output httpStatus st = Some (st', None) ->
        Responses_MapOfResponseOrRefValues
          (Operation_Responses (oc_Operation st')) !! strconv_Itoa httpStatus
        = Some (mkResponseOrRef None (Some r)) ->
        is_Some (Response_Content r !! key) ->
        key = "application/json").
Proof.
  split.
  - intros ->. eexists. split; [reflexivity|].
    unfold builtResponse, storeResponse. simpl. by rewrite lookup_insert_eq.
  - intros st' r key Hrun Hr Hkey. unfold SetJSONResponse in Hrun.
    set (oc := mkOperationContext None "" ∅ ∅ ∅ ∅ ∅ output httpStatus "" ∅ false "")
      in Hrun.
    destruct output as [v|].
    + destruct (SetupResponse_present oc st st' v eq_refl Hrun)
        as (st1 & resp1 & resp2 & Hbody & Hhead & ->).
      apply parseJSONResponse_outcome in Hbody as (_ & _ & _ & _ & Hkeys & _).
      apply parseResponseHeader_outcome in Hhead as (Hc2 & _).
      unfold storeResponse in Hr. simpl in Hr. rewrite lookup_insert_eq in Hr.
      injection Hr as <-. rewrite fallback_content, Hc2 in Hkey.
      apply Hkeys in Hkey as [Hkey|Hkey]; [|done].
      simpl in Hkey. rewrite lookup_empty in Hkey. by destruct Hkey.
    + injection Hrun as <-.
      unfold storeResponse in Hr. simpl in Hr. rewrite lookup_insert_eq in Hr.
      injection Hr as <-. simpl in Hkey. rewrite lookup_empty in Hkey.
      by destruct Hkey.
Qed.

End HeadersMore.

(** ** The further properties on concrete inputs *)

Lemma parseParametersIn_keeps_parameters_unique_witness :
  NoDup (parameterKeys
           (Operation_Parameters
              (oc_Operation
                 (fst (parseParametersIn (Sample.request Sample.clashing "GET")
                         ParameterInQuery ∅ Sample.start))))).
Proof.
  apply (parseParametersIn_keeps_parameters_unique
           (Sample.request Sample.clashing "GET") ParameterInQuery ∅ Sample.start).
  vm_compute. constructor.
Defined.

Lemma parseParametersIn_success_is_complete_witness :
  Walk_Err (jsonschema_Reflect (Input (Sample.request Sample.search "GET"))
              (parametersOptions (Sample.request Sample.search "GET")
                 ParameterInPath ∅)) = None
  /\ exists ds,
      Forall2 (fun prop p =>
                 describeParameter (Sample.request Sample.search "GET")
                   ParameterInPath prop = inr p)
              (offeredProperties (Sample.request Sample.search "GET")
                 ParameterInPath ∅) ds
      /\ Operation_Parameters
           (oc_Operation
              (fst (parseParametersIn (Sample.request Sample.search "GET")
                      ParameterInPath ∅ Sample.start)))
         = (Operation_Parameters (oc_Operation Sample.start)
            ++ (asParameterOrRef <$> ds))%list.
Proof.
  apply (parseParametersIn_success_is_complete
           (Sample.request Sample.search "GET") ParameterInPath ∅ Sample.start
           (fst (parseParametersIn (Sample.request Sample.search "GET")
                   ParameterInPath ∅ Sample.start))).
  - vm_compute. reflexivity.
  - vm_compute. reflexivity.
Defined.

Lemma request_body_failure_writes_nothing_witness :
  exists st' err,
    parseRequestBody (Sample.request Sample.clashing "POST") tagJSON mimeJSON
      "POST" ∅ Sample.start = (st', Some err)
    /\ st' = Sample.start
    /\ Walk_Err (requestBodyWalk (Sample.request Sample.clashing "POST") tagJSON ∅)
       = Some err
    /\ requestBodySkipped (Sample.request Sample.clashing "POST") tagJSON "POST" ∅
       = false.
Proof.
  assert (H : parseRequestBody (Sample.request Sample.clashing "POST") tagJSON
                mimeJSON "POST" ∅ Sample.start
              = (Sample.start, Some "unsupported type chan"))
    by (vm_compute; reflexivity).
  exists Sample.start, "unsupported type chan". split; [exact H|].
  exact (request_body_failure_writes_nothing _ _ _ _ _ _ _ _ H).
Defined.

Lemma request_body_writes_prefixed_names_witness :
  State_registry
    (fst (parseRequestBody (Sample.request Sample.upload "POST") tagFormData
            mimeFormUrlencoded "POST" ∅ Sample.registered)) !! "Account"
  = State_registry Sample.registered !! "Account".
Proof.
  apply (request_body_writes_prefixed_names
           (Sample.request Sample.upload "POST") tagFormData mimeFormUrlencoded
           "POST" ∅ Sample.registered "Account").
  intros n H. vm_compute in H. discriminate H.
Defined.

Lemma SetupRequest_without_request_body_witness :
  exists st1 st2 st3 st4 e1 e2 e3 e4,
    parseParametersIn (Sample.request Sample.search "get") ParameterInQuery ∅
      Sample.start = (st1, e1)
    /\ parseParametersIn (Sample.request Sample.search "get") ParameterInPath ∅ st1
       = (st2, e2)
    /\ parseParametersIn (Sample.request Sample.search "get") ParameterInCookie ∅ st2
       = (st3, e3)
    /\ parseParametersIn (Sample.request Sample.search "get") ParameterInHeader ∅ st3
       = (st4, e4)
    /\ SetupRequest (Sample.request Sample.search "get") Sample.start
       = (st4, joinErrors [e1; e2; e3; e4])
    /\ Operation_RequestBody (oc_Operation st4)
       = Operation_RequestBody (oc_Operation Sample.start)
    /\ State_registry Sample.start ⊆ State_registry st4.
Proof.
  apply (SetupRequest_without_request_body
           (Sample.request Sample.search "get") Sample.start).
  - vm_compute. by left.
  - vm_compute. reflexivity.
Defined.

Lemma SetupRequest_of_slice_or_map_witness :
  exists st5 st6 e5 e6,
    parseRequestBody (Sample.request sample_list "POST") tagJSON mimeJSON "POST" ∅
      Sample.start = (st5, e5)
    /\ parseRequestBody (Sample.request sample_list "POST") tagFormData
         mimeFormUrlencoded "POST" ∅ st5 = (st6, e6)
    /\ SetupRequest (Sample.request sample_list "POST") Sample.start
       = (st6, joinErrors [e5; e6])
    /\ Operation_Parameters (oc_Operation st6)
       = Operation_Parameters (oc_Operation Sample.start)
    /\ Operation_MapOfAnything (oc_Operation st6)
       = Operation_MapOfAnything (oc_Operation Sample.start).
Proof.
  apply (SetupRequest_of_slice_or_map
           (Sample.request sample_list "POST") Sample.start).
  vm_compute. reflexivity.
Defined.

Lemma failed_response_build_writes_no_response_witness :
  exists st' err,
    SetupResponse (Sample.response (Some Sample.clashing) 500 "") Sample.start
    = Some (st', Some err)
    /\ oc_Operation st' = oc_Operation Sample.start
    /\ State_registry Sample.start ⊆ State_registry st'
    /\ Output (Sample.response (Some Sample.clashing) 500 "") <> None.
Proof.
  assert (H : SetupResponse (Sample.response (Some Sample.clashing) 500 "")
                Sample.start
              = Some (Sample.start, Some "unsupported type chan"))
    by (vm_compute; reflexivity).
  exists Sample.start, "unsupported type chan". split; [exact H|].
  exact (failed_response_build_writes_no_response _ _ _ _ H).
Defined.

Lemma response_build_touches_one_status_witness :
  exists st' e,
    SetupResponse (Sample.response (Some Sample.account) 200 "") Sample.registered
    = Some (st', e)
    /\ Operation_Parameters (oc_Operation st')
       = Operation_Parameters (oc_Operation Sample.registered)
    /\ Responses_MapOfResponseOrRefValues (Operation_Responses (oc_Operation st'))
         !! strconv_Itoa 204
       = Responses_MapOfResponseOrRefValues
           (Operation_Responses (oc_Operation Sample.registered)) !! strconv_Itoa 204.
Proof.
  destruct (SetupResponse (Sample.response (Some Sample.account) 200 "")
              Sample.registered) as [[st' e]|] eqn:Hrun;
    [|vm_compute in Hrun; discriminate Hrun].
  exists st', e. split; [reflexivity|].
  destruct (response_build_touches_one_status _ _ _ _ Hrun)
    as (Hp & _ & _ & _ & _ & Hs).
  split; [exact Hp|]. apply (Hs 204). discriminate.
Defined.

Lemma meaningful_output_has_one_content_entry_witness :
  exists st' r,
    SetupResponse
      (Sample.response (Some Sample.account) 200 "application/problem+json; q=1")
      Sample.start = Some (st', None)
    /\ builtResponse st'
         (Sample.response (Some Sample.account) 200 "application/problem+json; q=1")
       = Some r
    /\ Response_Content r
       = {[ "application/problem+json"
            := mkMediaType
                 (Some (mkSchemaOrRef None (Some "#/components/schemas/Account")))
                 None ]}.
Proof.
  destruct (SetupResponse
              (Sample.response (Some Sample.account) 200
                 "application/problem+json; q=1") Sample.start)
    as [[st' [e|]]|] eqn:Hrun;
    [vm_compute in Hrun; discriminate Hrun| |vm_compute in Hrun; discriminate Hrun].
  assert (Hout : Output (Sample.response (Some Sample.account) 200
                           "application/problem+json; q=1") <> None)
    by discriminate.
  assert (Hhas : hasJSONBody
                   (Output (Sample.response (Some Sample.account) 200
                              "application/problem+json; q=1")) <> inr false)
    by (intros H; vm_compute in H; discriminate H).
  destruct (meaningful_output_has_one_content_entry _ _ _ Hout Hhas Hrun)
    as (r & Hr & Hc & _).
  exists st', r. split; [reflexivity|]. split; [exact Hr|].
  rewrite Hc. vm_compute. reflexivity.
Defined.

Lemma SetupResponse_returns_when_headers_are_inline_witness :
  is_Some (SetupResponse (Sample.response (Some sample_created) 201 "") Sample.start).
Proof.
  apply (SetupResponse_returns_when_headers_are_inline
           (Sample.response (Some sample_created) 201 "") Sample.start).
  intros name field ps Hin. vm_compute in Hin.
  destruct Hin as [[= <- <- <-]|[]]. vm_compute. eexists. reflexivity.
Defined.

Lemma response_headers_are_the_offered_ones_witness :
  exists st' r,
    SetupResponse (Sample.response (Some sample_created) 201 "") Sample.start
    = Some (st', None)
    /\ builtResponse st' (Sample.response (Some sample_created) 201 "") = Some r
    /\ (forall name, is_Some (Response_Headers r !! name) <-> name = "Location").
Proof.
  destruct (SetupResponse (Sample.response (Some sample_created) 201 "")
              Sample.start) as [[st' [e|]]|] eqn:Hrun;
    [vm_compute in Hrun; discriminate Hrun| |vm_compute in Hrun; discriminate Hrun].
  assert (Hout : Output (Sample.response (Some sample_created) 201 "") <> None)
    by discriminate.
  destruct (response_headers_are_the_offered_ones _ _ _ Hout Hrun)
    as (r & Hr & Hdom & _).
  exists st', r. split; [reflexivity|]. split; [exact Hr|].
  intros name. rewrite Hdom. split.
  - intros (field & ps & Hin). vm_compute in Hin.
    by destruct Hin as [[= <- _ _]|[]].
  - intros ->. eexists _, _. vm_compute. left. reflexivity.
Defined.

(** ** The content-type guarantee on its own *)
Section EnsureContentType.
Context {GoValue GoType : Type} {TI : TypeInspector GoValue GoType}.

(** X24. [ensureResponseContentType] only ever adds: every content entry of
    the response is kept with its media type, the asked content type has
    an entry afterwards, the description and the headers are untouched,
    the added entry is the one with the empty schema, and a second call
    with the same content type changes nothing. *)
Theorem ensureResponseContentType_only_adds (resp : Response) (contentType : string) :
  let resp' := ensureResponseContentType resp contentType in
  (forall key m,
     Response_Content resp !! key = Some m -> Response_Content resp' !! key = Some m)
  /\ (forall key m,
        Response_Content resp' !! key = Some m ->
        Response_Content resp !! key = Some m
        \/ key = contentType /\ m = emptySchemaMediaType
           /\ Response_Content resp !! key = None)
  /\ is_Some (Response_Content resp' !! contentType)
  /\ Response_Description resp' = Response_Description resp
  /\ Response_Headers resp' = Response_Headers resp
  /\ ensureResponseContentType resp' contentType = resp'.
Proof.
  cbv zeta. unfold ensureResponseContentType.
  destruct (Response_Content resp !! contentType) as [m0|] eqn:Hct.
  - rewrite Hct. repeat (split; [by eauto|]). done.
  - simpl. rewrite lookup_insert_eq. split; [|split; [|by eauto]].
    + intros key m Hk. rewrite lookup_insert_ne; [done|]. by intros <-; simplify_eq.
    + intros key m Hk. destruct (decide (contentType = key)) as [<-|Hne].
      * rewrite lookup_insert_eq in Hk. injection Hk as <-. by right.
      * rewrite lookup_insert_ne in Hk by done. by left.
Qed.

End EnsureContentType.

Lemma Sample_populate_keeps_style (p p' : ParameterObject) (tag : StructTag) :
  Sample.PopulateParameter p tag = inr p' ->
  Parameter_Style p' = Parameter_Style p
  /\ Parameter_Explode p' = Parameter_Explode p.
Proof.
  unfold Sample.PopulateParameter.
  destruct (StructTag_Lookup tag "required") as [v|];
    [destruct (Sample.parseBool v)|]; intros [= <-]; done.
Qed.

Lemma parameter_style_of_plain_field_witness :
  exists range ids tag,
    Operation_Parameters
      (oc_Operation
         (fst (parseParametersIn (Sample.request sample_listing "GET")
                 ParameterInQuery ∅ Sample.start)))
    = [asParameterOrRef range; asParameterOrRef ids; asParameterOrRef tag]
    /\ Parameter_Name range = "range"
    /\ Parameter_Style range = Some "deepObject"
    /\ Parameter_Explode range = Some true
    /\ Parameter_Name ids = "ids"
    /\ Parameter_Style ids = Some "form"
    /\ Parameter_Explode ids = Some false
    /\ Parameter_Name tag = "tag"
    /\ Parameter_Style tag = None
    /\ Parameter_Explode tag = None.
Proof.
  destruct (parameter_style_of_plain_field
              (Sample.request sample_listing "GET") ParameterInQuery ∅ Sample.start)
    as (added & Hparams & Hall & Hend).
  assert (Hoffered : length (offeredProperties (Sample.request sample_listing "GET")
                               ParameterInQuery ∅) = 3%nat)
    by (vm_compute; reflexivity).
  assert (Hlen : length added = 3%nat).
  { destruct (Hend eq_refl) as [Hlen|(prop & err & _ & Herr & _)].
    - by rewrite Hlen.
    - vm_compute in Herr. discriminate Herr. }
  destruct added as [|range [|ids [|tag [|extra added]]]]; try discriminate Hlen.
  exists range, ids, tag. split; [exact Hparams|].
  apply Forall2_cons_1 in Hall as [(Hd1 & Hrange) Hall].
  apply Forall2_cons_1 in Hall as [(Hd2 & Hids) Hall].
  apply Forall2_cons_1 in Hall as [(Hd3 & Htag) _].
  destruct (Hrange eq_refl) as (d1 & q1 & Hpop1 & -> & Hdeep & _).
  destruct (Hids eq_refl) as (d2 & q2 & Hpop2 & -> & _ & Hcsv).
  destruct (Htag eq_refl) as (d3 & q3 & Hpop3 & -> & _ & Hplain).
  apply Sample_populate_keeps_style in Hpop1 as [Hs1 He1].
  apply Sample_populate_keeps_style in Hpop2 as [Hs2 He2].
  apply Sample_populate_keeps_style in Hpop3 as [Hs3 He3].
  destruct (Hdeep eq_refl) as [Hstyle1 Hexplode1].
  destruct (Hcsv eq_refl) as (Hform & _).
  destruct (Hform eq_refl) as [Hstyle2 Hexplode2].
  destruct (Hplain eq_refl) as (_ & _ & _ & _ & Hnone).
  destruct Hnone as [Hstyle3 Hexplode3].
  { vm_compute. intros [H|[H|[H|[H|[]]]]]; discriminate H. }
  split; [vm_compute in Hd1; by injection Hd1 as <-|].
  split; [by rewrite Hs1|]. split; [by rewrite He1|].
  split; [vm_compute in Hd2; by injection Hd2 as <-|].
  split; [by rewrite Hs2|]. split; [by rewrite He2|].
  split; [vm_compute in Hd3; by injection Hd3 as <-|].
  split; [by rewrite Hs3|]. by rewrite He3.
Defined.

Lemma parameter_schema_is_not_nullable_witness :
  exists p s sc,
    Operation_Parameters
      (oc_Operation
         (fst (parseParametersIn (Sample.request Sample.search "GET")
                 ParameterInPath ∅ Sample.start)))
    = [asParameterOrRef p]
    /\ Parameter_Name p = "id"
    /\ Parameter_Schema p = Some s
    /\ SchemaOrRef_Schema s = Some sc
    /\ Schema_Type sc = Some "integer"
    /\ Schema_Nullable sc = None
    /\ Parameter_Content p = ∅.
Proof.
  destruct (parameter_schema_is_not_nullable
              (Sample.request Sample.search "GET") ParameterInPath ∅ Sample.start)
    as (added & Hparams & Hall & Hend).
  assert (Hoffered : length (offeredProperties (Sample.request Sample.search "GET")
                               ParameterInPath ∅) = 1%nat)
    by (vm_compute; reflexivity).
  assert (Hlen : length added = 1%nat).
  { destruct (Hend eq_refl) as [Hlen|(prop & err & _ & Herr & _)].
    - by rewrite Hlen.
    - vm_compute in Herr. discriminate Herr. }
  destruct added as [|p [|q added]]; [discriminate Hlen| |discriminate Hlen].
  apply Forall2_cons_1 in Hall as [(Hd & Hplain) _].
  destruct (Hplain eq_refl) as (_ & _ & Hkept).
  destruct (Hkept Sample_populate_keeps) as (Hschema & Hcontent & Hnull).
  exists p. eexists _, _. split; [exact Hparams|].
  split; [vm_compute in Hd; by injection Hd as <-|].
  split; [exact Hschema|]. split; [vm_compute; reflexivity|].
  split; [vm_compute; reflexivity|]. split; [|exact Hcontent].
  apply (Hnull _ _ Hschema). vm_compute. reflexivity.
Defined.
